(** * GuavaWriter: session flow of the script-writing assistant

    A shallow embedding of the two Streamlit applications of the repository,
    [guavawriter2.py] (GuavaWriter v0.002) and [simplified-app.py]
    (Guava Writer v0.001), and the properties of their session state:
    idea parsing, idea selection, script generation with its revision
    history, and the formatting of that history.

    Conventions.
    - A Python [str] is a [string]; a character is a code point below 256,
      and the character classes ([isspace], [isdigit]) are Python's on that
      range.
    - [None] or a value is an [option]; Python truthiness is [truthy].
    - [st.session_state] is explicit state; every outbound request to the
      text-generation service is appended to a log, and the service itself
      is an oracle answering the n-th request.
    - A script run is a computation in a state monad with halting: a raised
      exception, [st.rerun()] or [return] stops the run and keeps the state
      written so far.
    - Every run of GuavaWriter builds its writer first, which reads the
      persona file and shows a message when that fails.
    - [int] has the interpreter's default limit of 4300 digits. *)

From Stdlib Require Import String Ascii List Bool Arith ZArith QArith Lia.
From Stdlib Require Import DecimalString DecimalNat DecimalPos DecimalZ.
Import ListNotations.

Local Close Scope Q_scope.
Local Open Scope string_scope.
Local Open Scope list_scope.
Local Open Scope nat_scope.

(** ** Python built-ins used by the applications *)

Module Py.

Definition nl : string := String (ascii_of_nat 10) EmptyString.

(** [str.isspace] of one character (code points below 256): TAB..CR,
    FS..US, SPACE, NEL and NBSP. *)
Definition isspace (c : ascii) : bool :=
  let n := nat_of_ascii c in
  ((9 <=? n) && (n <=? 13)) || ((28 <=? n) && (n <=? 32))
  || (n =? 133) || (n =? 160).

Fixpoint lstrip (s : string) : string :=
  match s with
  | EmptyString => EmptyString
  | String c r => if isspace c then lstrip r else s
  end.

Fixpoint rstrip (s : string) : string :=
  match s with
  | EmptyString => EmptyString
  | String c r =>
      match rstrip r with
      | EmptyString => if isspace c then EmptyString else String c EmptyString
      | r' => String c r'
      end
  end.

(** [s.strip()] *)
Definition strip (s : string) : string := rstrip (lstrip s).

(** [len(s)] *)
Definition len (s : string) : nat := String.length s.

(** Truthiness of a [str]: non-empty. *)
Definition nonempty (s : string) : bool :=
  match s with EmptyString => false | String _ _ => true end.

(** Truthiness of a value that is [None] or a [str]. *)
Definition truthy (o : option string) : bool :=
  match o with None => false | Some s => nonempty s end.

(** Truthiness of a list: non-empty. *)
Definition nonnil {A} (l : list A) : bool :=
  match l with [] => false | _ :: _ => true end.

(** An f-string field [{x}] for [x] that is [None] or a [str]. *)
Definition fmt (o : option string) : string :=
  match o with None => "None" | Some s => s end.

(** [s.split(sep)] for a one-character separator. *)
Fixpoint split (sep : ascii) (s : string) : list string :=
  match s with
  | EmptyString => [EmptyString]
  | String c r =>
      if Ascii.eqb c sep then EmptyString :: split sep r
      else match split sep r with
           | h :: t => String c h :: t
           | [] => [String c EmptyString]
           end
  end.

(** [sep in s] for a one-character [sep]. *)
Fixpoint contains (sep : ascii) (s : string) : bool :=
  match s with
  | EmptyString => false
  | String c r => Ascii.eqb c sep || contains sep r
  end.

(** [s.split(sep, 1)]: at most one cut, at the first [sep]. *)
Fixpoint split1 (sep : ascii) (s : string) : list string :=
  match s with
  | EmptyString => [EmptyString]
  | String c r =>
      if Ascii.eqb c sep then [EmptyString; r]
      else match split1 sep r with
           | h :: t => String c h :: t
           | [] => [String c EmptyString]
           end
  end.

(** [s.startswith(p)] *)
Definition startswith (p s : string) : bool := String.prefix p s.

(** [s[n:]] for [n >= 0]. *)
Fixpoint drop (n : nat) (s : string) : string :=
  match n, s with
  | O, _ => s
  | S n', String _ r => drop n' r
  | S _, EmptyString => EmptyString
  end.

(** [str.isdigit] of one character: the ASCII digits and the superscripts
    two, three and one. *)
Definition isdigit_char (c : ascii) : bool :=
  let n := nat_of_ascii c in
  ((48 <=? n) && (n <=? 57)) || (n =? 178) || (n =? 179) || (n =? 185).

Fixpoint all_chars (p : ascii -> bool) (s : string) : bool :=
  match s with
  | EmptyString => true
  | String c r => p c && all_chars p r
  end.

(** [s.isdigit()]: non-empty and every character a digit. *)
Definition isdigit (s : string) : bool := nonempty s && all_chars isdigit_char s.

(** [str(n)] for a non-negative machine-independent integer. *)
Definition str_nat (n : nat) : string := NilZero.string_of_uint (Nat.to_uint n).

(** [s[:n]] for [n >= 0]. *)
Fixpoint head (n : nat) (s : string) : string :=
  match n, s with
  | S n', String c r => String c (head n' r)
  | _, _ => EmptyString
  end.

Definition is_ascii_digit (c : ascii) : bool :=
  let n := nat_of_ascii c in (48 <=? n) && (n <=? 57).

(** The ASCII digits [int] reads at the head of [s] before it looks at
    anything else. *)
Fixpoint leading_digits (s : string) : nat :=
  match s with
  | String c r => if is_ascii_digit c then S (leading_digits r) else 0
  | EmptyString => 0
  end.

(** The interpreter's default limit on the digits of a decimal
    conversion, which the program leaves as it is. *)
Definition max_str_digits : nat := 4300.

(** [int(s)] on a string that passed [isdigit]: the decimal value when all
    characters are ASCII digits and there are at most [max_str_digits] of
    them, [None] (a [ValueError]) otherwise. The digits are counted first:
    more than the limit at the head of [s] are refused whatever follows. *)
Definition int (s : string) : option Z :=
  if max_str_digits <? leading_digits s then None
  else option_map Z.of_uint (NilZero.uint_of_string s).

(** The message of the [ValueError] of [int(s)], for [s] that passed
    [isdigit]: the digit limit, or the literal, of which the message shows
    the first 200 characters of [repr(s)]. *)
Definition int_error (s : string) : string :=
  if max_str_digits <? leading_digits s then
    "Exceeds the limit (4300 digits) for integer string conversion: value has "
    ++ str_nat (leading_digits s)
    ++ " digits; use sys.set_int_max_str_digits() to increase the limit"
  else
    "invalid literal for int() with base 10: " ++ head 200 ("'" ++ s ++ "'").

(** [str(z)] for an integer. *)
Definition str (z : Z) : string := NilZero.string_of_int (Z.to_int z).

(** [l[:n]] *)
Definition take {A} (n : nat) (l : list A) : list A := firstn n l.

(** [enumerate(l, start)] *)
Fixpoint enumerate {A} (start : nat) (l : list A) : list (nat * A) :=
  match l with
  | [] => []
  | x :: r => (start, x) :: enumerate (S start) r
  end.

(** Lines joined by a newline, for the multi-line prompt templates. *)
Fixpoint unlines (ls : list string) : string :=
  match ls with
  | [] => EmptyString
  | [l] => l
  | l :: r => l ++ nl ++ unlines r
  end.

End Py.

(** ** Outbound requests and halting runs *)

(** The keyword arguments of [client.messages.create]; the one user message
    of the request is [prompt]. *)
Record request := Request {
  model : string;
  max_tokens : nat;
  temperature : Q;
  prompt : string
}.

(** What a collaborator answers: the text, or an exception with its
    message. *)
Inductive reply :=
| Text (t : string)
| Failure (msg : string).

(** The collaborators of a session: the text-generation service, asked its
    [n]-th request; the transcript source behind [extract_video_id] and
    [get_transcript]; and the persona file, as
    [Path("persona.md").read_text()] gives it: its content, or the
    exception of a file that cannot be read. *)
Class Environment := {
  service : nat -> request -> reply;
  transcript_source : string -> reply;
  persona_file : reply
}.

Module Run.

(** Python exceptions that reach the handlers, with [str(e)]. *)
Inductive exn :=
| IndexError (msg : string)
| ValueError (msg : string)
| UpstreamError (msg : string).

Definition message (e : exn) : string :=
  match e with
  | IndexError m | ValueError m | UpstreamError m => m
  end.

(** Why a run stopped early. [Rerun] is [st.rerun()] and [Return] is a
    [return] out of [main]; neither is caught by [except Exception]. *)
Inductive halt :=
| Raised (e : exn)
| Rerun
| Return.

Inductive outcome (A : Type) :=
| Done (a : A)
| Halted (h : halt).
Arguments Done {A} a.
Arguments Halted {A} h.

(** The state a run works on: [st.session_state], the messages shown by
    [st.error], and the requests sent to the service so far. *)
Record world (S : Type) := World {
  session : S;
  errors : list string;
  calls : list request
}.
Arguments World {S} _ _ _.
Arguments session {S} _.
Arguments errors {S} _.
Arguments calls {S} _.

Definition M (S A : Type) : Type := world S -> outcome A * world S.

Definition ret {S A} (a : A) : M S A := fun w => (Done a, w).

Definition bind {S A B} (c : M S A) (k : A -> M S B) : M S B :=
  fun w =>
    match c w with
    | (Done a, w') => k a w'
    | (Halted h, w') => (Halted h, w')
    end.

Definition stop {S A} (h : halt) : M S A := fun w => (Halted h, w).

Definition raise {S A} (e : exn) : M S A := stop (Raised e).

(** [try: body except Exception as e: handler e]. The handler starts from
    the state the body left behind. *)
Definition try_except {S A} (body : M S A) (handler : exn -> M S A) : M S A :=
  fun w =>
    match body w with
    | (Halted (Raised e), w') => handler e w'
    | r => r
    end.

Definition get {S} : M S S := fun w => (Done (session w), w).

Definition modify {S} (f : S -> S) : M S unit :=
  fun w => (Done tt, World (f (session w)) (errors w) (calls w)).

(** [st.error(msg)] *)
Definition st_error {S} (msg : string) : M S unit :=
  fun w => (Done tt, World (session w) (errors w ++ [msg]) (calls w)).

(** [client.messages.create(...)] followed by [.content[0].text]. *)
Definition messages_create {S} `{Environment} (r : request) : M S string :=
  fun w =>
    let w' := World (session w) (errors w) (calls w ++ [r]) in
    match service (length (calls w)) r with
    | Text t => (Done t, w')
    | Failure m => (Halted (Raised (UpstreamError m)), w')
    end.

(** [extract_video_id(url)] then [get_transcript(video_id)]. *)
Definition fetch_transcript {S} `{Environment} (url : string) : M S string :=
  match transcript_source url with
  | Text t => ret t
  | Failure m => raise (UpstreamError m)
  end.

(** [l[i]] for [i >= 0]. *)
Definition index {S A} (l : list A) (i : nat) : M S A :=
  match nth_error l i with
  | Some x => ret x
  | None => raise (IndexError "list index out of range")
  end.

Definition when {S} (b : bool) (c : M S unit) : M S unit :=
  if b then c else ret tt.

End Run.

Declare Scope run_scope.
Delimit Scope run_scope with run.
Notation "x <- c ;; k" := (Run.bind c (fun x => k))
  (at level 61, c at next level, right associativity) : run_scope.
Notation "c ;; k" := (Run.bind c (fun _ => k))
  (at level 61, right associativity) : run_scope.
Local Open Scope run_scope.

(** ** guavawriter2.py: the persona file *)

Module PersonaManager.
Import Run.

(** What [load_persona] stores in the manager. *)
Record persona := Persona {
  ideation_prompt : string;
  dialogue_prompt : string
}.

(** Whether [##\s+] matches at the head of [s]: two hashes and a
    whitespace character. *)
Definition is_header (s : string) : bool :=
  match s with
  | String a (String b (String c _)) =>
      Ascii.eqb a "#" && Ascii.eqb b "#" && Py.isspace c
  | _ => false
  end.

Definition cons_head (c : ascii) (l : list string) : list string :=
  match l with
  | h :: t => String c h :: t
  | [] => [String c EmptyString]
  end.

(** [re.split(r'^##\s+', s, flags=re.MULTILINE)], scanning [s] from the
    left. [bol] tells whether the position is the start of the text or
    follows a newline, where [^] matches; [skip] tells whether the scan is
    inside the whitespace of a match, which [\s+] takes as far as it goes.
    The head of the result is the piece under construction. *)
Fixpoint pieces (bol skip : bool) (s : string) {struct s} : list string :=
  match s with
  | EmptyString => [EmptyString]
  | String c r =>
      if skip && Py.isspace c then pieces (Ascii.eqb c (ascii_of_nat 10)) true r
      else if bol && is_header s then
        match r with
        | String _ r2 => EmptyString :: pieces false true r2
        | EmptyString => [EmptyString]
        end
      else cons_head c (pieces (Ascii.eqb c (ascii_of_nat 10)) false r)
  end.

Definition re_split (content : string) : list string := pieces true false content.

(** The body of the loop over the sections (lines 24-28). *)
Definition read_section {S} (p : persona) (section : string) : M S persona :=
  if Py.startswith "Ideation" section then
    body <- index (Py.split1 (ascii_of_nat 10) section) 1 ;;
    ret (Persona (Py.strip body) (dialogue_prompt p))
  else if Py.startswith "Dialogue" section then
    body <- index (Py.split1 (ascii_of_nat 10) section) 1 ;;
    ret (Persona (ideation_prompt p) (Py.strip body))
  else ret p.

Fixpoint read_sections {S} (sections : list string) (p : persona) : M S persona :=
  match sections with
  | [] => ret p
  | section :: rest => p' <- read_section p section ;; read_sections rest p'
  end.

(** [load_persona], for what [Path(persona_file).read_text()] gives: the
    content, or an exception. The manager starts with two empty
    fragments. *)
Definition load_persona {S} (file : reply) : M S persona :=
  try_except
    (content <- match file with
                | Text content => ret content
                | Failure m => raise (UpstreamError m)
                end ;;
     read_sections (tl (re_split content)) (Persona EmptyString EmptyString))
    (fun e =>
       st_error ("Error loading persona: " ++ message e) ;;
       ret (Persona "Generate creative ideas" "Engage in dialogue")).

End PersonaManager.

(** The persona of a run: what the manager holds once [load_persona] has
    run on the persona file. The fragments do not depend on the world the
    load runs in. *)
Definition persona `{Environment} : PersonaManager.persona :=
  match fst (PersonaManager.load_persona persona_file (Run.World tt [] [])) with
  | Run.Done p => p
  | Run.Halted _ => PersonaManager.Persona EmptyString EmptyString
  end.

(** The messages [load_persona] shows on the persona file: none when the
    file loads, one when reading it or reading a section raises. *)
Definition persona_errors `{Environment} : list string :=
  Run.errors (snd (PersonaManager.load_persona persona_file (Run.World tt [] []))).

(** [self.persona.ideation_prompt] and [self.persona.dialogue_prompt]. *)
Definition ideation_prompt `{Environment} : string :=
  PersonaManager.ideation_prompt persona.

Definition dialogue_prompt `{Environment} : string :=
  PersonaManager.dialogue_prompt persona.

(** [formatted += f"\nVERSION {i}:\n{script}\nFEEDBACK:\n{feedback}\n---"],
    the loop body shared by [format_revision_history] and [format_history]. *)
Definition version_block (i : nat) (script feedback : string) : string :=
  Py.nl ++ "VERSION " ++ Py.str_nat i ++ ":" ++ Py.nl ++ script ++ Py.nl
  ++ "FEEDBACK:" ++ Py.nl ++ feedback ++ Py.nl ++ "---".

(** [for i, (script, feedback) in enumerate(history, 1): formatted += ...],
    starting from the empty string. *)
Definition format_history (history : list (string * string)) : string :=
  fold_left
    (fun (formatted : string) '(i, (script, feedback)) =>
       (formatted ++ version_block i script feedback)%string)
    (Py.enumerate 1 history) EmptyString.

(** ** guavawriter2.py: GuavaWriter v0.002 *)

Module GuavaWriter.
Import Run.

(** [st.session_state.current_context] *)
Record context := MkContext {
  transcript : option string;
  selected_idea : option string;
  current_script : option string;
  revision_history : list (string * string)
}.

(** One entry of [st.session_state.messages]. *)
Record chat_message := Message {
  role : string;
  content : string
}.

Record session_state := SessionState {
  messages : list chat_message;
  current_context : context
}.

(** What [GuavaWriter.__init__] stores when the keys are missing. *)
Definition fresh : session_state :=
  SessionState [] (MkContext None None None []).

Definition initial : world session_state := World fresh [] [].

Definition ctx (w : world session_state) : context := current_context (session w).

Definition with_context (f : context -> context) : M session_state unit :=
  modify (fun s => SessionState (messages s) (f (current_context s))).

Definition set_transcript (t : option string) : M session_state unit :=
  with_context (fun c =>
    MkContext t (selected_idea c) (current_script c) (revision_history c)).

Definition set_selected_idea (i : option string) : M session_state unit :=
  with_context (fun c =>
    MkContext (transcript c) i (current_script c) (revision_history c)).

Definition set_current_script (t : option string) : M session_state unit :=
  with_context (fun c =>
    MkContext (transcript c) (selected_idea c) t (revision_history c)).

Definition append_revision (e : string * string) : M session_state unit :=
  with_context (fun c =>
    MkContext (transcript c) (selected_idea c) (current_script c)
            (revision_history c ++ [e])).

(** [add_message(role, content)] *)
Definition add_message (r c : string) : M session_state unit :=
  modify (fun s => SessionState (messages s ++ [Message r c]) (current_context s)).

Section Writer.
Context `{Environment}.

(** The prompt of [generate_ideas]. *)
Definition ideas_prompt (transcript : option string) : string :=
  Py.unlines [
    "Having reviewed this transcript, I'll generate three distinct creative directions to explore.";
    EmptyString;
    "Here's my perspective:";
    ideation_prompt;
    EmptyString;
    "The transcript to analyze:";
    Py.fmt transcript;
    EmptyString;
    "I'll share three clear ideas, each formatted as:";
    "Idea: [idea here]";
    EmptyString;
    "Remember to focus on the core concept without restating that it's for a 60-second video."
  ].

(** One turn of the loop over the response lines; the state is
    [(ideas, current_idea)]. *)
Definition idea_line (st : list string * option string) (line : string)
  : list string * option string :=
  let '(ideas, current_idea) := st in
  if Py.startswith "Idea" (Py.strip line) && Py.contains ":" line then
    (if Py.truthy current_idea then ideas ++ [Py.fmt current_idea] else ideas,
     Some (Py.strip (nth 1 (Py.split1 ":" line) EmptyString)))
  else if Py.truthy current_idea && Py.nonempty (Py.strip line) then
    (ideas, Some (Py.fmt current_idea ++ " " ++ Py.strip line)%string)
  else st.

(** Lines 114-128: the loop, the last pending idea, and [ideas[:3]]. *)
Definition parse_ideas (text : string) : list string :=
  let '(ideas, current_idea) :=
    fold_left idea_line (Py.split (ascii_of_nat 10) text) ([], None) in
  let ideas := if Py.truthy current_idea then ideas ++ [Py.fmt current_idea] else ideas in
  Py.take 3 ideas.

Definition generate_ideas (transcript : option string) : M session_state (list string) :=
  if negb (Py.truthy transcript) || (Py.len (Py.strip (Py.fmt transcript)) <? 10) then
    st_error "Transcript is too short or empty" ;;
    ret []
  else
    try_except
      (response <- messages_create
                     (Request "claude-3-sonnet-20240229" 1000 (7 # 10)
                              (ideas_prompt transcript)) ;;
       ret (parse_ideas response))
      (fun e =>
         st_error ("Error in idea generation: " ++ message e) ;;
         ret []).

Definition base_prompt (idea : option string) : string :=
  Py.unlines [
    "As Clio Maar, I am creating a 60-second intimate video essay about this AI development:";
    Py.fmt idea;
    EmptyString;
    "My identity from persona.md:";
    dialogue_prompt;
    EmptyString;
    "Guidelines:";
    "- Speak directly and intimately, as if to a cherished colleague";
    "- Transform technical developments into artistic possibilities";
    "- Keep focus on how this serves creative tradition";
    "- Address any artistic anxieties with understanding";
    "- Maintain my gentle New York State cadence";
    EmptyString;
    "Format the script with timestamps and clear visual directions. For visuals, use:";
    "- SR: for screen recordings";
    "- Gen: for generative video";
    "- StA: for stock assets";
    EmptyString;
    "Remember: I'm sharing this development through my lens as an artist speaking to artists."
  ].

(** Line 157, the prompt of a revision. *)
Definition revision_prompt (idea current_script : option string) (direction : string) : string :=
  base_prompt idea ++ Py.nl ++ Py.nl ++ "Current script:" ++ Py.nl
  ++ Py.fmt current_script ++ Py.nl ++ Py.nl ++ "Direction for revision:" ++ Py.nl
  ++ direction.

(** Line 159, the prompt of a first draft. *)
Definition draft_prompt (transcript idea : option string) (direction : string) : string :=
  base_prompt idea ++ Py.nl ++ Py.nl ++ "Context from source:" ++ Py.nl
  ++ Py.fmt transcript ++ Py.nl ++ Py.nl ++ "Direction:" ++ Py.nl ++ direction.

Definition generate_script (transcript idea : option string) (direction : string)
           (current_script : option string) : M session_state string :=
  let prompt :=
    if Py.truthy current_script && Py.nonempty direction
    then revision_prompt idea current_script direction
    else draft_prompt transcript idea direction in
  messages_create (Request "claude-3-opus-20240229" 1000 (7 # 10) prompt).

(** [format_revision_history(self)] reads the history of the session. *)
Definition format_revision_history : M session_state string :=
  s <- get ;;
  ret (format_history (revision_history (current_context s))).

(** The values of the widgets of one run of [main]. *)
Record ui := Ui {
  url : string;
  ideate_clicked : bool;
  idea_input : string;
  direction : string;
  generate_clicked : bool;
  approve_clicked : bool
}.

(** Lines 229-232, the assistant's message listing the ideas. *)
Definition ideas_message (ideas : list string) : string :=
  fold_left
    (fun (response : string) '(i, idea) =>
       (response ++ Py.str_nat i ++ ". " ++ idea ++ Py.nl)%string)
    (Py.enumerate 1 ideas)
    ("I've been thinking about this piece, and I see three possibilities for a 60-second exploration:"
     ++ Py.nl ++ Py.nl)%string
  ++ Py.nl ++ "Which direction speaks to you?".

(** Lines 216-237: the Ideate button. *)
Definition ideate (u : ui) : M session_state unit :=
  when (Py.nonempty (url u) && ideate_clicked u)
    (try_except
       (transcript <- fetch_transcript (url u) ;;
        set_transcript (Some transcript) ;;
        ideas <- generate_ideas (Some transcript) ;;
        if negb (Py.nonnil ideas) then
          st_error "No ideas were generated. Please try again." ;;
          stop Return
        else
          add_message "assistant" (ideas_message ideas) ;;
          stop Rerun)
       (fun e => st_error ("Error: " ++ message e))).

(** Lines 243-249, once the typed index [n] passed the range test. *)
Definition choose_idea (idea_input : string) (n : Z) : M session_state unit :=
  s <- get ;;
  ideas <- generate_ideas (transcript (current_context s)) ;;
  selected <- index ideas (Z.to_nat (n - 1)) ;;
  set_selected_idea (Some selected) ;;
  add_message "user" ("Let's go with idea " ++ idea_input) ;;
  add_message "assistant" "Great choice! What direction would you like to take with this idea?" ;;
  stop Rerun.

(** Lines 240-249: the idea selection input. *)
Definition select_idea (u : ui) : M session_state unit :=
  s <- get ;;
  let c := current_context s in
  when (Py.truthy (transcript c) && negb (Py.truthy (selected_idea c)))
    (when (Py.nonempty (idea_input u) && Py.isdigit (idea_input u))
       match Py.int (idea_input u) with
       | None => raise (ValueError (Py.int_error (idea_input u)))
       | Some n => when ((1 <=? n)%Z && (n <=? 3)%Z) (choose_idea (idea_input u) n)
       end).

(** Lines 260-273: the body of the [try] under the Generate/Update
    Script button. *)
Definition generate_or_update (direction : string) : M session_state unit :=
  s <- get ;;
  let c := current_context s in
  let current := current_script c in
  when (Py.truthy current) (append_revision (Py.fmt current, direction)) ;;
  new_script <- generate_script (transcript c) (selected_idea c) direction current ;;
  set_current_script (Some new_script) ;;
  add_message "assistant"
    ("Here's the " ++ (if Py.truthy current then "revised" else "new")
     ++ " script:" ++ Py.nl ++ Py.nl ++ new_script) ;;
  stop Rerun.

(** Lines 252-302: script generation and revision; the Approve button
    only renders the banner and the download of the current script. *)
Definition script_section (u : ui) : M session_state unit :=
  s <- get ;;
  when (Py.truthy (selected_idea (current_context s)))
    (when (generate_clicked u)
       (try_except (generate_or_update (direction u))
          (fun e => st_error ("Error in script generation: " ++ message e)))).

(** [GuavaWriter(api_key)], line 205: the client, the persona manager,
    which loads the persona file and shows an error when that fails, and
    the session keys, which are set when missing ([fresh] stands for a new
    session). *)
Definition new_writer : M session_state PersonaManager.persona :=
  PersonaManager.load_persona persona_file.

(** One run of [main] for the widget values [u]. The style sheet, the
    title and the rendering of the chat write nothing. *)
Definition main (u : ui) : M session_state unit :=
  new_writer ;;
  ideate u ;;
  select_idea u ;;
  script_section u.

End Writer.

End GuavaWriter.

(** ** simplified-app.py: Guava Writer v0.001 *)

Module SimplifiedApp.
Import Run.

(** The keys of [st.session_state] (the client apart). *)
Record session_state := SessionState {
  transcript : option string;
  ideas : option (list string);
  selected_idea : option string;
  current_script : option string;
  revision_history : list (string * string)
}.

Definition fresh : session_state := SessionState None None None None [].

Definition initial : world session_state := World fresh [] [].

Definition set_transcript (t : option string) : M session_state unit :=
  modify (fun s => SessionState t (ideas s) (selected_idea s) (current_script s)
                                (revision_history s)).

Definition set_ideas (l : option (list string)) : M session_state unit :=
  modify (fun s => SessionState (transcript s) l (selected_idea s) (current_script s)
                                (revision_history s)).

Definition set_selected_idea (i : option string) : M session_state unit :=
  modify (fun s => SessionState (transcript s) (ideas s) i (current_script s)
                                (revision_history s)).

Definition set_current_script (t : option string) : M session_state unit :=
  modify (fun s => SessionState (transcript s) (ideas s) (selected_idea s) t
                                (revision_history s)).

Definition append_revision (e : string * string) : M session_state unit :=
  modify (fun s => SessionState (transcript s) (ideas s) (selected_idea s)
                                (current_script s) (revision_history s ++ [e])).

Section App.
Context `{Environment}.

Definition ideas_prompt (transcript : option string) : string :=
  "Based on this transcript, generate exactly 3 clear, concrete ideas for 60-second videos explaining AI developments. Each idea should start with 'Idea: '."
  ++ Py.nl ++ Py.nl ++ "Transcript:" ++ Py.nl ++ Py.fmt transcript.

(** Lines 50-54: one idea per line that starts with the marker. *)
Definition parse_ideas (text : string) : list string :=
  Py.take 3
    (fold_left
       (fun ideas line =>
          if Py.startswith "Idea:" line then ideas ++ [Py.strip (Py.drop 5 line)]
          else ideas)
       (Py.split (ascii_of_nat 10) text) []).

Definition generate_ideas (transcript : option string) : M session_state (list string) :=
  response <- messages_create
                (Request "claude-3-sonnet-20240229" 500 (7 # 10)
                         (ideas_prompt transcript)) ;;
  ret (parse_ideas response).

(** Line 68, the prompt of a revision. *)
Definition revision_prompt (history : string) (current_script : option string)
           (direction : string) : string :=
  "Revise this script based on the feedback and revision history:" ++ Py.nl
  ++ history ++ Py.nl ++ "CURRENT SCRIPT:" ++ Py.nl ++ Py.fmt current_script ++ Py.nl
  ++ "NEW FEEDBACK:" ++ Py.nl ++ direction.

(** Line 70, the prompt of a first draft. *)
Definition draft_prompt (transcript idea : option string) (direction : string) : string :=
  "Create a 60-second video script about this AI development:" ++ Py.nl ++ Py.nl
  ++ Py.fmt idea ++ Py.nl ++ Py.nl ++ "Direction:" ++ Py.nl ++ direction ++ Py.nl ++ Py.nl
  ++ "Context:" ++ Py.nl ++ Py.fmt transcript.

Definition generate_script (transcript idea : option string) (direction : string)
           (current_script : option string) : M session_state string :=
  s <- get ;;
  let history :=
    if Py.nonnil (revision_history s) then format_history (revision_history s)
    else EmptyString in
  let prompt :=
    if Py.truthy current_script && Py.nonempty direction
    then revision_prompt history current_script direction
    else draft_prompt transcript idea direction in
  messages_create (Request "claude-3-opus-20240229" 1000 (7 # 10) prompt).

(** The values of the widgets of one run of the script. The radio
    returns one of its options, [radio] is its position; a position past
    the end stands for the blank first option. *)
Record ui := Ui {
  url : string;
  ideate_clicked : bool;
  radio : nat;
  direction : string;
  crack_on_clicked : bool;
  new_direction : string;
  update_clicked : bool;
  approved_clicked : bool
}.

(** Lines 92-100: the Ideate button. *)
Definition ideate (u : ui) : M session_state unit :=
  when (Py.nonempty (url u) && ideate_clicked u)
    (try_except
       (t <- fetch_transcript (url u) ;;
        set_transcript (Some t) ;;
        l <- generate_ideas (Some t) ;;
        set_ideas (Some l) ;;
        stop Rerun)
       (fun e => st_error ("Error: " ++ message e))).

(** Lines 103-109: the radio over the ideas. *)
Definition choose_idea (u : ui) : M session_state unit :=
  s <- get ;;
  match ideas s with
  | Some (i :: l) =>
      let options := EmptyString :: i :: l in
      let selected := nth (radio u) options EmptyString in
      when (Py.nonempty selected) (set_selected_idea (Some selected)) ;;
      set_selected_idea (Some selected)
  | _ => ret tt
  end.

(** Lines 112-120: the first draft. *)
Definition crack_on (u : ui) : M session_state unit :=
  s <- get ;;
  when (Py.truthy (selected_idea s))
    (when (crack_on_clicked u)
       (script <- generate_script (transcript s) (selected_idea s) (direction u) None ;;
        set_current_script (Some script))).

(** Lines 133-141: the body under the Update Script button. *)
Definition update_script (new_direction : string) : M session_state unit :=
  s <- get ;;
  append_revision (Py.fmt (current_script s), new_direction) ;;
  revised <- generate_script (transcript s) (selected_idea s) new_direction
                             (current_script s) ;;
  set_current_script (Some revised) ;;
  stop Rerun.

(** Lines 123-155: the working draft and its revision; the Approved
    button only renders the banner. *)
Definition iterate (u : ui) : M session_state unit :=
  s <- get ;;
  when (Py.truthy (current_script s))
    (when (update_clicked u) (update_script (new_direction u))).

(** One run of the script for the widget values [u]. *)
Definition main (u : ui) : M session_state unit :=
  ideate u ;;
  choose_idea u ;;
  crack_on u ;;
  iterate u.

End App.

End SimplifiedApp.

(** ** Vocabulary of the properties *)

(** [x] occurs in the prompt [p]. *)
Definition carries (p x : string) : Prop :=
  exists a b, p = (a ++ x ++ b)%string.

(** A computation leaves the projection [f] of the session as it found it,
    however it ends. *)
Definition keeps {S A X} (f : S -> X) (c : Run.M S A) : Prop :=
  forall w, f (Run.session (snd (c w))) = f (Run.session w).

(** A computation leaves the whole session as it found it. *)
Definition read_only {S A} (c : Run.M S A) : Prop :=
  forall w, Run.session (snd (c w)) = Run.session w.

(** A line that starts an idea in [GuavaWriter.idea_line]. *)
Definition is_marker (line : string) : bool :=
  Py.startswith "Idea" (Py.strip line) && Py.contains ":" line.

(** The parsing rule of idea proposal, said on the response as a whole
    rather than line by line: the lines are cut at the marker lines, and
    each marker line gives one idea, made of what follows its first colon
    and of the non-empty lines up to the next marker. *)
Module IdeaRule.

(** What follows the first colon of a line. *)
Fixpoint after_colon (line : string) : string :=
  match line with
  | EmptyString => EmptyString
  | String c r => if Ascii.eqb c ":" then r else after_colon r
  end.

(** The lines cut at the markers: the lines before the first marker, then
    each marker line with the lines that follow it up to the next marker or
    the end. *)
Fixpoint blocks (lines : list string) : list string * list (string * list string) :=
  match lines with
  | [] => ([], [])
  | line :: rest =>
      let '(free, marked) := blocks rest in
      if is_marker line then ([], (line, free) :: marked)
      else (line :: free, marked)
  end.

(** [start] and the non-empty ones of the lines [following], each
    stripped, with one space between them. *)
Definition joined (start : string) (following : list string) : string :=
  String.concat " " (start :: filter Py.nonempty (map Py.strip following)).

(** The idea of a marker line and its following lines; a marker with
    nothing after its colon starts none. *)
Definition merged (marker : string) (following : list string) : list string :=
  let start := Py.strip (after_colon marker) in
  if Py.nonempty start then [joined start following] else [].

(** The first three ideas of a response. *)
Definition propose_ideas (response : string) : list string :=
  Py.take 3
    (flat_map (fun block => merged (fst block) (snd block))
              (snd (blocks (Py.split (ascii_of_nat 10) response)))).

End IdeaRule.

(** Lines 125-126 on the state of the loop: the idea under construction is
    the last one. *)
Definition finish (st : list string * option string) : list string :=
  if Py.truthy (snd st) then fst st ++ [Py.fmt (snd st)] else fst st.

(** The idea under construction once the lines [following] are merged
    into it. *)
Definition pending (current_idea : option string) (following : list string) : list string :=
  if Py.truthy current_idea then [IdeaRule.joined (Py.fmt current_idea) following] else [].

(** The blocks of a serialized history, first entry first. *)
Definition blocks_from (start : nat) (history : list (string * string)) : list string :=
  map (fun '(i, (script, feedback)) => version_block i script feedback)
      (Py.enumerate start history).

(** The sessions GuavaWriter can be in: the fresh one, and whatever a run
    of [main] makes of a reachable one, for any widget values. *)
Inductive reachable `{Environment} : Run.world GuavaWriter.session_state -> Prop :=
| reachable_initial : reachable GuavaWriter.initial
| reachable_run u w : reachable w -> reachable (snd (GuavaWriter.main u w)).

(** A persona file with the two sections. *)
Definition sample_persona : string :=
  Py.unlines ["# Persona"; EmptyString; "## Ideation"; "Generate creative ideas";
              EmptyString; "## Dialogue"; "Engage in dialogue"].

(** The response body of the idea-parsing example. *)
Definition four_ideas : string :=
  Py.unlines ["Idea: A thing"; "more detail"; "Idea: Second"; "Idea: Third"; "Idea: Fourth"].

(** Sample collaborators: a service that answers every request with [text],
    and one that fails every request. *)
Definition answering (text : string) : Environment :=
  {| service := fun _ _ => Text text;
     transcript_source := fun _ => Text "valid transcript text";
     persona_file := Text sample_persona |}.

Definition failing : Environment :=
  {| service := fun _ _ => Failure "overloaded";
     transcript_source := fun _ => Text "valid transcript text";
     persona_file := Text sample_persona |}.


(** A service that answers its first request with ["draft v1"] and every
    later one with ["draft v2"]. *)
Definition drafting : Environment :=
  {| service := fun n _ => match n with O => Text "draft v1" | _ => Text "draft v2" end;
     transcript_source := fun _ => Text "valid transcript text";
     persona_file := Text sample_persona |}.

(** A GuavaWriter session with a transcript, idea ["Y"] selected, and the
    given script and history. *)
Definition scripted (script : option string) (history : list (string * string))
  : Run.world GuavaWriter.session_state :=
  Run.World
    (GuavaWriter.SessionState []
       (GuavaWriter.MkContext (Some "first transcript text") (Some "Y") script history))
    [] [].

(** A GuavaWriter session with a transcript and no idea selected yet. *)
Definition ideated : Run.world GuavaWriter.session_state :=
  Run.World
    (GuavaWriter.SessionState []
       (GuavaWriter.MkContext (Some "valid transcript text") None None []))
    [] [].

(** The same for the earlier application, with its stored ideas. *)
Definition simplified_scripted (script : option string) (history : list (string * string))
  : Run.world SimplifiedApp.session_state :=
  Run.World
    (SimplifiedApp.SessionState (Some "first transcript text") (Some ["X"; "Y"; "Z"])
                                (Some "Y") script history)
    [] [].

(** Widget values: a click on Ideate, a typed idea number, a click on
    Generate/Update Script with the given direction. *)
Definition click_ideate : GuavaWriter.ui :=
  GuavaWriter.Ui "https://youtu.be/abc" true EmptyString EmptyString false false.

Definition type_idea (input : string) : GuavaWriter.ui :=
  GuavaWriter.Ui EmptyString false input EmptyString false false.

Definition click_generate (direction : string) : GuavaWriter.ui :=
  GuavaWriter.Ui EmptyString false EmptyString direction true false.

(** A service for a whole session: the ideas twice (the Ideate button, then
    the selection, which asks again), then ["draft v1"], then ["draft v2"]. *)
Definition scenario : Environment :=
  {| service := fun n _ =>
       match n with
       | 0 | 1 => Text four_ideas
       | 2 => Text "draft v1"
       | _ => Text "draft v2"
       end;
     transcript_source := fun _ => Text "valid transcript text";
     persona_file := Text sample_persona |}.

(** The session after Ideate, the choice of idea 2 and a first generation,
    run from the fresh session against [scenario]. *)
Definition scenario_scripted : Run.world GuavaWriter.session_state :=
  snd (GuavaWriter.main (H := scenario) (click_generate EmptyString)
         (snd (GuavaWriter.main (H := scenario) (type_idea "2")
                 (snd (GuavaWriter.main (H := scenario) click_ideate
                         GuavaWriter.initial))))).

(** Widget values of the earlier application: only the radio is moved, to
    the given position. *)
Definition pick_radio (position : nat) : SimplifiedApp.ui :=
  SimplifiedApp.Ui EmptyString false position EmptyString false EmptyString false false.

(** The request of [generate_script] in GuavaWriter. *)
Definition script_request `{Environment} (transcript idea : option string)
           (direction : string) (current_script : option string) : request :=
  Request "claude-3-opus-20240229" 1000 (7 # 10)
          (if Py.truthy current_script && Py.nonempty direction
           then GuavaWriter.revision_prompt idea current_script direction
           else GuavaWriter.draft_prompt transcript idea direction).

(** The request of [generate_script] in the earlier application, for the
    history of the session at the time of the call. *)
Definition simplified_script_request (history : list (string * string))
           (transcript idea : option string)
           (direction : string) (current_script : option string) : request :=
  Request "claude-3-opus-20240229" 1000 (7 # 10)
          (if Py.truthy current_script && Py.nonempty direction
           then SimplifiedApp.revision_prompt
                  (if Py.nonnil history then format_history history else EmptyString)
                  current_script direction
           else SimplifiedApp.draft_prompt transcript idea direction).

(** At the world [w], the computation sends exactly the request [req] and
    returns the text of the answer as it is (or raises the failure of the
    service); the session and the shown errors stay as they were. *)
Definition sends_at {S} `{Environment} (c : Run.M S string) (w : Run.world S)
           (req : request) : Prop :=
  c w = (match service (length (Run.calls w)) req with
         | Text t => Run.Done t
         | Failure m => Run.Halted (Run.Raised (Run.UpstreamError m))
         end,
         Run.World (Run.session w) (Run.errors w) (Run.calls w ++ [req])).

(** Whether [x] occurs in [p], by search. *)
Fixpoint occurs (x p : string) : bool :=
  String.prefix x p
  || match p with
     | EmptyString => false
     | String _ r => occurs x r
     end.

(** ** The transcript of a video *)

Module TranscriptApi.

(** One entry of what [YouTubeTranscriptApi.get_transcript] returns. *)
Record segment := Segment {
  text : string;
  start : Q;
  duration : Q
}.

(** [get_transcript], for the entries the API returned:
    [' '.join(entry['text'] for entry in transcript_list)]. *)
Definition get_transcript (transcript_list : list segment) : string :=
  String.concat " " (map text transcript_list).

End TranscriptApi.

(** ** Vocabulary of the further properties *)

(** Text that [strip] leaves as it is. *)
Definition trimmed (s : string) : Prop := Py.strip s = s.

(** [l'] is [l] with at most [n] elements appended. *)
Definition appended {X} (n : nat) (l l' : list X) : Prop :=
  exists added, l' = l ++ added /\ length added <= n.

(** What a stretch of a GuavaWriter run may do to the world [w], giving
    [w']: append at most [nm] chat messages, [nh] history entries (each
    with a non-empty script), [ne] shown errors and [nc] requests, and
    either keep the selected idea or select a non-empty, stripped one. *)
Definition within (nm nh ne nc : nat) (w w' : Run.world GuavaWriter.session_state) : Prop :=
  appended nm (GuavaWriter.messages (Run.session w)) (GuavaWriter.messages (Run.session w'))
  /\ (exists added,
         GuavaWriter.revision_history (GuavaWriter.ctx w')
         = GuavaWriter.revision_history (GuavaWriter.ctx w) ++ added
         /\ length added <= nh
         /\ Forall (fun entry => fst entry <> EmptyString) added)
  /\ appended ne (Run.errors w) (Run.errors w')
  /\ appended nc (Run.calls w) (Run.calls w')
  /\ (GuavaWriter.selected_idea (GuavaWriter.ctx w')
       = GuavaWriter.selected_idea (GuavaWriter.ctx w)
       \/ exists idea,
           GuavaWriter.selected_idea (GuavaWriter.ctx w') = Some idea
           /\ idea <> EmptyString /\ trimmed idea).

(** The history of the earlier application after a stretch of a run: at
    most [n] entries appended, each with a non-empty script. *)
Definition history_grows (n : nat) (w w' : Run.world SimplifiedApp.session_state) : Prop :=
  exists added,
    SimplifiedApp.revision_history (Run.session w')
    = SimplifiedApp.revision_history (Run.session w) ++ added
    /\ length added <= n
    /\ Forall (fun entry => fst entry <> EmptyString) added.

(** One line of the assistant's message that lists the ideas. *)
Definition idea_entry (i : nat) (idea : string) : string :=
  Py.str_nat i ++ ". " ++ idea ++ Py.nl.

(** No line of [x] starts with two hashes; [bol] tells whether [x] begins
    at the start of a line. *)
Fixpoint plain (bol : bool) (x : string) : bool :=
  match x with
  | EmptyString => true
  | String c r =>
      negb (bol && Py.startswith "##" x) && plain (Ascii.eqb c (ascii_of_nat 10)) r
  end.

(** A persona file: a title, then the two sections under their headers.
    [more1] and [more2] are what the header lines say after the first
    word. *)
Definition persona_document (title more1 ideation more2 dialogue : string) : string :=
  title ++ Py.nl ++ "## Ideation" ++ more1 ++ Py.nl ++ ideation ++ Py.nl
  ++ "## Dialogue" ++ more2 ++ Py.nl ++ dialogue.

(** The same file cut after the second header line: the Dialogue section
    has a header and nothing under it, not even the end of the line. *)
Definition persona_document_cut (title more1 ideation more2 : string) : string :=
  title ++ Py.nl ++ "## Ideation" ++ more1 ++ Py.nl ++ ideation ++ Py.nl
  ++ "## Dialogue" ++ more2.

(** The fragments [load_persona] falls back to. *)
Definition default_persona : PersonaManager.persona :=
  PersonaManager.Persona "Generate creative ideas" "Engage in dialogue".

(** The sessions the earlier application can be in. *)
Inductive simplified_reachable `{Environment}
  : Run.world SimplifiedApp.session_state -> Prop :=
| simplified_reachable_initial : simplified_reachable SimplifiedApp.initial
| simplified_reachable_run u w :
    simplified_reachable w -> simplified_reachable (snd (SimplifiedApp.main u w)).

(** Every character is whitespace. *)
Definition blank (s : string) : bool := Py.all_chars Py.isspace s.

(** Widget values of the earlier application: a click on Ideate, on Crack
    On and on Update Script. *)
Definition simplified_click_ideate : SimplifiedApp.ui :=
  SimplifiedApp.Ui "https://youtu.be/abc" true 0 EmptyString false EmptyString false false.

Definition click_crack_on (direction : string) : SimplifiedApp.ui :=
  SimplifiedApp.Ui EmptyString false 2 direction true EmptyString false false.

Definition click_update (new_direction : string) : SimplifiedApp.ui :=
  SimplifiedApp.Ui EmptyString false 2 EmptyString false new_direction true false.

(** A service for a whole session of the earlier application: the ideas,
    then ["draft v1"], then ["draft v2"]. *)
Definition simplified_scenario : Environment :=
  {| service := fun n _ =>
       match n with
       | 0 => Text four_ideas
       | 1 => Text "draft v1"
       | _ => Text "draft v2"
       end;
     transcript_source := fun _ => Text "valid transcript text";
     persona_file := Text sample_persona |}.

(** The session of the earlier application after Ideate, Crack On with
    the second idea chosen, and Update Script with "make it shorter". *)
Definition simplified_scenario_revised : Run.world SimplifiedApp.session_state :=
  snd (SimplifiedApp.main (H := simplified_scenario) (click_update "make it shorter")
         (snd (SimplifiedApp.main (H := simplified_scenario) (click_crack_on EmptyString)
                 (snd (SimplifiedApp.main (H := simplified_scenario)
                         simplified_click_ideate SimplifiedApp.initial))))).

(** Collaborators whose transcript source fails, and whose transcript is
    too short. *)
Definition unavailable : Environment :=
  {| service := fun _ _ => Text four_ideas;
     transcript_source := fun _ => Failure "Subtitles are disabled for this video";
     persona_file := Text sample_persona |}.

Definition too_short : Environment :=
  {| service := fun _ _ => Text four_ideas;
     transcript_source := fun _ => Text "hi";
     persona_file := Failure "[Errno 2] No such file or directory: 'persona.md'" |}.

(** ** Built-ins *)

Example strip_ex : Py.strip "  ab c  " = "ab c".
Proof. reflexivity. Qed.

Example split_ex : Py.split "," "a,b,,c," = ["a"; "b"; EmptyString; "c"; EmptyString].
Proof. reflexivity. Qed.

Example split1_ex : Py.split1 ":" "Idea 1: x: y" = ["Idea 1"; " x: y"].
Proof. reflexivity. Qed.

Example str_ex : Py.str 0 = "0" /\ Py.str (-12) = "-12" /\ Py.str_nat 10 = "10".
Proof. repeat split; reflexivity. Qed.

Example int_ex :
  Py.int "007" = Some 7%Z /\ Py.int (String (ascii_of_nat 178) EmptyString) = None.
Proof. repeat split; reflexivity. Qed.

(** Under the test [':' in line], [line.split(':', 1)] has its index 1. *)
Lemma split1_contains sep s :
  Py.contains sep s = true -> exists a b, Py.split1 sep s = [a; b].
Proof.
  induction s as [|c r IH]; simpl; [discriminate|].
  destruct (Ascii.eqb c sep); simpl.
  - intros _. now exists EmptyString, r.
  - intros Hr. destruct (IH Hr) as (a & b & ->). now exists (String c a), b.
Qed.

Lemma truthy_Some o : Py.truthy o = true -> exists s, o = Some s /\ Py.nonempty s = true.
Proof. destruct o as [s|]; simpl; [eauto | discriminate]. Qed.

Lemma nonempty_neq s : Py.nonempty s = true <-> s <> EmptyString.
Proof. destruct s; simpl; split; congruence. Qed.

Lemma digits_of_uint d : Py.all_chars Py.isdigit_char (NilEmpty.string_of_uint d) = true.
Proof. induction d; simpl; auto. Qed.

Lemma nonempty_string_of_uint d : Py.nonempty (NilZero.string_of_uint d) = true.
Proof. destruct d; reflexivity. Qed.

Lemma isdigit_string_of_uint d : Py.isdigit (NilZero.string_of_uint d) = true.
Proof.
  unfold Py.isdigit. rewrite nonempty_string_of_uint. simpl.
  destruct d; try reflexivity; apply (digits_of_uint (_ d)).
Qed.

(** [str(i).isdigit()] holds exactly for [i >= 0]: a sign is no digit. *)
Lemma isdigit_str (i : Z) : Py.isdigit (Py.str i) = (0 <=? i)%Z.
Proof.
  destruct i as [|p|p]; try reflexivity.
  unfold Py.str. simpl Z.to_int. simpl NilZero.string_of_int.
  now rewrite isdigit_string_of_uint.
Qed.

Lemma nonempty_str (i : Z) : Py.nonempty (Py.str i) = true.
Proof. destruct i; try reflexivity. apply nonempty_string_of_uint. Qed.

Lemma leading_digits_of_uint d :
  Py.leading_digits (NilEmpty.string_of_uint d) = Py.len (NilEmpty.string_of_uint d).
Proof. induction d; simpl; auto. Qed.

(** [str(i)] for [i >= 0] is ASCII digits throughout. *)
Lemma leading_digits_str (i : Z) :
  (0 <= i)%Z -> Py.leading_digits (Py.str i) = Py.len (Py.str i).
Proof.
  intros Hi. destruct i as [|p|p]; try reflexivity; try lia.
  unfold Py.str. simpl Z.to_int. simpl NilZero.string_of_int.
  unfold NilZero.string_of_uint.
  destruct (Pos.to_uint p); try reflexivity; apply (leading_digits_of_uint (_ u)).
Qed.

(** The conversions without the digit limit. *)
Lemma of_string_str (i : Z) :
  (0 <= i)%Z -> option_map Z.of_uint (NilZero.uint_of_string (Py.str i)) = Some i.
Proof.
  intros Hi. unfold Py.str.
  destruct i as [|p|p]; try reflexivity; try lia.
  simpl Z.to_int. simpl NilZero.string_of_int.
  rewrite NilZero.usu.
  - simpl. f_equal. exact (DecimalZ.of_to (Z.pos p)).
  - apply DecimalPos.Unsigned.to_uint_nonnil.
Qed.

(** [int(str(i)) == i] for [i >= 0] within the digit limit. *)
Lemma int_str (i : Z) :
  (0 <= i)%Z -> Py.len (Py.str i) <= Py.max_str_digits -> Py.int (Py.str i) = Some i.
Proof.
  intros Hi Hlen. unfold Py.int. rewrite leading_digits_str by exact Hi.
  destruct (Nat.ltb_spec Py.max_str_digits (Py.len (Py.str i))) as [Hlt|_]; [lia|].
  now apply of_string_str.
Qed.

(** Beyond the limit [int(str(i))] raises, with the count in the message. *)
Lemma int_str_beyond (i : Z) :
  (0 <= i)%Z -> Py.max_str_digits < Py.len (Py.str i) ->
  Py.int (Py.str i) = None
  /\ Py.int_error (Py.str i)
     = ("Exceeds the limit (4300 digits) for integer string conversion: value has "
        ++ Py.str_nat (Py.len (Py.str i))
        ++ " digits; use sys.set_int_max_str_digits() to increase the limit")%string.
Proof.
  intros Hi Hlen. unfold Py.int, Py.int_error. rewrite leading_digits_str by exact Hi.
  destruct (Nat.ltb_spec Py.max_str_digits (Py.len (Py.str i))) as [_|Hle]; [|lia].
  now split.
Qed.

(** The indices the selection accepts are within the limit. *)
Lemma small_index_within_limit (i : Z) :
  (0 <= i <= 3)%Z -> Py.len (Py.str i) <= Py.max_str_digits.
Proof.
  intros Hi. unfold Py.max_str_digits.
  assert (i = 0 \/ i = 1 \/ i = 2 \/ i = 3)%Z as [->|[->|[->| ->]]] by lia;
    apply Nat.leb_le; reflexivity.
Qed.

Lemma take_length {A} n (l : list A) : length (Py.take n l) <= n.
Proof. apply firstn_le_length. Qed.

(** ** The serialized history *)

Lemma enumerate_app {A} (l1 l2 : list A) start :
  Py.enumerate start (l1 ++ l2)
  = Py.enumerate start l1 ++ Py.enumerate (start + length l1) l2.
Proof.
  revert start. induction l1 as [|x l1 IH]; intros start; simpl.
  - now rewrite Nat.add_0_r.
  - rewrite IH. now rewrite Nat.add_succ_r.
Qed.

Lemma enumerate_nth {A} (l : list A) start k :
  nth_error (Py.enumerate start l) k
  = option_map (fun x => (start + k, x)) (nth_error l k).
Proof.
  revert start k. induction l as [|x l IH]; intros start [|k]; simpl; try reflexivity.
  - now rewrite Nat.add_0_r.
  - rewrite IH. now rewrite Nat.add_succ_r.
Qed.

Lemma blocks_from_length start h : length (blocks_from start h) = length h.
Proof.
  unfold blocks_from. rewrite length_map.
  revert start. induction h; intros; simpl; auto.
Qed.

Lemma blocks_from_nth start h k :
  nth_error (blocks_from start h) k
  = option_map (fun '(script, feedback) => version_block (start + k) script feedback)
               (nth_error h k).
Proof.
  unfold blocks_from. rewrite nth_error_map, enumerate_nth.
  destruct (nth_error h k) as [[s f]|]; reflexivity.
Qed.

Lemma append_empty_r (s : string) : (s ++ EmptyString)%string = s.
Proof. induction s as [|c s IH]; simpl; [reflexivity | now rewrite IH]. Qed.

Lemma append_assoc (a b c : string) : ((a ++ b) ++ c)%string = (a ++ b ++ c)%string.
Proof. induction a as [|x a IH]; simpl; [reflexivity | now rewrite IH]. Qed.

Lemma concat_empty_cons (x : string) (l : list string) :
  String.concat EmptyString (x :: l) = (x ++ String.concat EmptyString l)%string.
Proof. destruct l; simpl; [now rewrite append_empty_r | reflexivity]. Qed.

Lemma concat_empty_app (l1 l2 : list string) :
  String.concat EmptyString (l1 ++ l2)
  = (String.concat EmptyString l1 ++ String.concat EmptyString l2)%string.
Proof.
  induction l1 as [|x l1 IH]; [reflexivity|].
  rewrite <- app_comm_cons, !concat_empty_cons, IH. now rewrite append_assoc.
Qed.

(** The accumulating loop appends the blocks, in order, to what it starts
    from. *)
Lemma format_loop (l : list (nat * (string * string))) (acc : string) :
  fold_left
    (fun (formatted : string) '(i, (script, feedback)) =>
       (formatted ++ version_block i script feedback)%string) l acc
  = (acc ++ String.concat EmptyString
             (map (fun '(i, (script, feedback)) => version_block i script feedback) l))%string.
Proof.
  revert acc. induction l as [|[i [s f]] l IH]; intros acc.
  - simpl. now rewrite append_empty_r.
  - rewrite map_cons, concat_empty_cons. simpl fold_left. rewrite IH.
    now rewrite append_assoc.
Qed.

Lemma format_history_blocks h :
  format_history h = String.concat EmptyString (blocks_from 1 h).
Proof. unfold format_history, blocks_from. now rewrite format_loop. Qed.

(** Appending an entry appends its block, numbered after the entries
    already there. *)
Lemma format_history_snoc h script feedback :
  format_history (h ++ [(script, feedback)])
  = (format_history h ++ version_block (S (length h)) script feedback)%string.
Proof.
  rewrite !format_history_blocks. unfold blocks_from.
  rewrite enumerate_app, map_app, concat_empty_app. reflexivity.
Qed.

(** ** Runs: what a computation keeps *)

Create HintDb keeps.

Section Keeps.
Context {S X : Type} (f : S -> X).

Lemma keeps_ret {A} (a : A) : keeps f (Run.ret (S := S) a).
Proof. intros w. reflexivity. Qed.

Lemma keeps_stop {A} h : keeps f (Run.stop (S := S) (A := A) h).
Proof. intros w. reflexivity. Qed.

Lemma keeps_raise {A} e : keeps f (Run.raise (S := S) (A := A) e).
Proof. intros w. reflexivity. Qed.

Lemma keeps_get : keeps f (Run.get (S := S)).
Proof. intros w. reflexivity. Qed.

Lemma keeps_st_error msg : keeps f (Run.st_error (S := S) msg).
Proof. intros w. reflexivity. Qed.

Lemma keeps_messages_create `{Environment} r : keeps f (Run.messages_create (S := S) r).
Proof. intros w. unfold Run.messages_create. now destruct service. Qed.

Lemma keeps_fetch_transcript `{Environment} url : keeps f (Run.fetch_transcript (S := S) url).
Proof. intros w. unfold Run.fetch_transcript. now destruct transcript_source. Qed.

Lemma keeps_index {A} (l : list A) i : keeps f (Run.index (S := S) l i).
Proof. intros w. unfold Run.index. now destruct nth_error. Qed.

Lemma keeps_modify (g : S -> S) : (forall s, f (g s) = f s) -> keeps f (Run.modify g).
Proof. intros Hg w. simpl. apply Hg. Qed.

Lemma keeps_bind {A B} (c : Run.M S A) (k : A -> Run.M S B) :
  keeps f c -> (forall a, keeps f (k a)) -> keeps f (Run.bind c k).
Proof.
  intros Hc Hk w. unfold Run.bind. specialize (Hc w).
  destruct (c w) as [[a|h] w1]; simpl in *.
  - now rewrite Hk.
  - exact Hc.
Qed.

Lemma keeps_try_except {A} (body : Run.M S A) handler :
  keeps f body -> (forall e, keeps f (handler e)) -> keeps f (Run.try_except body handler).
Proof.
  intros Hb Hh w. unfold Run.try_except. specialize (Hb w).
  destruct (body w) as [[a|[e| |]] w1]; simpl in *; try exact Hb.
  now rewrite Hh.
Qed.

Lemma keeps_when b (c : Run.M S unit) : keeps f c -> keeps f (Run.when b c).
Proof. intros Hc. destruct b; simpl; [exact Hc | apply keeps_ret]. Qed.

End Keeps.

#[export] Hint Resolve keeps_ret keeps_stop keeps_raise keeps_get keeps_st_error
  keeps_messages_create keeps_fetch_transcript keeps_index : keeps.

(** One step through the structure of a computation. *)
Ltac keeps_step :=
  lazymatch goal with
  | |- keeps _ (Run.bind _ _) => apply keeps_bind; [|intros ?]
  | |- keeps _ (Run.try_except _ _) => apply keeps_try_except; [|intros ?]
  | |- keeps _ (Run.when _ _) => apply keeps_when
  | |- keeps _ (Run.modify _) => apply keeps_modify; intros ?; reflexivity
  | |- keeps _ (if ?b then _ else _) => destruct b
  | |- keeps _ (match ?x with _ => _ end) => destruct x
  | |- _ => solve [auto with keeps]
  end.

Ltac keeps_all := cbv zeta; repeat keeps_step.

(** ** GuavaWriter: idea proposal *)

Section Ideas.
Context `{Environment}.
Import Run.

(** [generate_ideas] in one equation: the threshold test, then the one
    request and what becomes of its answer. *)
Lemma generate_ideas_run (transcript : option string) (w : world GuavaWriter.session_state) :
  GuavaWriter.generate_ideas transcript w
  = if negb (Py.truthy transcript) || (Py.len (Py.strip (Py.fmt transcript)) <? 10)
    then (Done [], World (session w) (errors w ++ ["Transcript is too short or empty"])
                         (calls w))
    else
      let req := Request "claude-3-sonnet-20240229" 1000 (7 # 10)
                         (GuavaWriter.ideas_prompt transcript) in
      match service (length (calls w)) req with
      | Text body =>
          (Done (GuavaWriter.parse_ideas body),
           World (session w) (errors w) (calls w ++ [req]))
      | Failure m =>
          (Done [], World (session w) (errors w ++ ["Error in idea generation: " ++ m]%string)
                          (calls w ++ [req]))
      end.
Proof.
  unfold GuavaWriter.generate_ideas.
  destruct (negb (Py.truthy transcript) || _); [reflexivity|].
  unfold try_except, bind, messages_create. cbv zeta.
  destruct service; reflexivity.
Qed.

Lemma generate_ideas_read_only transcript : read_only (GuavaWriter.generate_ideas transcript).
Proof.
  intros w. rewrite generate_ideas_run.
  destruct (negb _ || _); [reflexivity|]. cbv zeta. now destruct service.
Qed.

Lemma parse_ideas_at_most_three text : length (GuavaWriter.parse_ideas text) <= 3.
Proof.
  unfold GuavaWriter.parse_ideas.
  destruct (fold_left _ _ _) as [ideas current]. apply take_length.
Qed.

Lemma generate_ideas_at_most_three transcript w :
  forall ideas, fst (GuavaWriter.generate_ideas transcript w) = Done ideas ->
                length ideas <= 3.
Proof.
  intros ideas. rewrite generate_ideas_run.
  destruct (negb _ || _); simpl.
  - intros [= <-]. simpl. lia.
  - destruct service; simpl; intros [= <-]; [apply parse_ideas_at_most_three | simpl; lia].
Qed.

End Ideas.

Example parse_four_ideas :
  GuavaWriter.parse_ideas four_ideas = ["A thing more detail"; "Second"; "Third"].
Proof. vm_compute. reflexivity. Qed.

(** The earlier application keeps only the marker lines: a continuation
    line is not merged into the idea before it. *)
Example simplified_parse_four_ideas :
  SimplifiedApp.parse_ideas four_ideas = ["A thing"; "Second"; "Third"].
Proof. vm_compute. reflexivity. Qed.

(** The earlier application tests no length: a blank transcript is sent to
    the service like any other. *)
Example simplified_generate_ideas_blank :
  Run.calls (snd (SimplifiedApp.generate_ideas (H := answering four_ideas) (Some "   ")
                    SimplifiedApp.initial))
  = [Request "claude-3-sonnet-20240229" 500 (7 # 10)
             (SimplifiedApp.ideas_prompt (Some "   "))].
Proof. reflexivity. Qed.

(** *** The parser and the rule *)

Lemma split1_after_colon (line : string) :
  nth 1 (Py.split1 ":" line) EmptyString = IdeaRule.after_colon line.
Proof.
  induction line as [|c r IH]; [reflexivity|].
  cbn [Py.split1 IdeaRule.after_colon].
  destruct (Ascii.eqb c ":"); [reflexivity|].
  rewrite <- IH. now destruct (Py.split1 ":" r) as [|h [|x t]].
Qed.

Lemma joined_nil (start : string) : IdeaRule.joined start [] = start.
Proof. reflexivity. Qed.

Lemma joined_blank (start line : string) (following : list string) :
  Py.nonempty (Py.strip line) = false ->
  IdeaRule.joined start (line :: following) = IdeaRule.joined start following.
Proof. intros Hblank. unfold IdeaRule.joined. cbn [map filter]. now rewrite Hblank. Qed.

Lemma joined_cons (start line : string) (following : list string) :
  Py.nonempty (Py.strip line) = true ->
  IdeaRule.joined start (line :: following)
  = IdeaRule.joined (start ++ " " ++ Py.strip line) following.
Proof.
  intros Hline. unfold IdeaRule.joined. cbn [map filter]. rewrite Hline.
  destruct (filter Py.nonempty (map Py.strip following)) as [|y l]; [reflexivity|].
  cbn [String.concat]. now rewrite !append_assoc.
Qed.

Lemma finish_pending (ideas : list string) (current_idea : option string) :
  finish (ideas, current_idea) = ideas ++ pending current_idea [].
Proof.
  unfold finish, pending. cbn [fst snd].
  destruct (Py.truthy current_idea); [now rewrite joined_nil | now rewrite app_nil_r].
Qed.

(** The loop over the lines, then lines 125-126, give the idea under
    construction with the lines before the first marker merged into it,
    and then one idea per marker line. *)
Lemma idea_lines_blocks (lines : list string) :
  forall ideas current_idea,
    finish (fold_left GuavaWriter.idea_line lines (ideas, current_idea))
    = ideas
      ++ pending current_idea (fst (IdeaRule.blocks lines))
      ++ flat_map (fun block => IdeaRule.merged (fst block) (snd block))
                  (snd (IdeaRule.blocks lines)).
Proof.
  induction lines as [|line rest IH]; intros ideas current_idea.
  - cbn [fold_left IdeaRule.blocks fst snd flat_map].
    now rewrite app_nil_r, finish_pending.
  - cbn [fold_left IdeaRule.blocks].
    destruct (IdeaRule.blocks rest) as [free marked] eqn:Hrest.
    cbn [fst snd] in IH. unfold GuavaWriter.idea_line at 2. unfold is_marker.
    destruct (Py.startswith "Idea" (Py.strip line) && Py.contains ":" line).
    + rewrite IH. cbn [fst snd flat_map].
      change (if Py.truthy current_idea then ideas ++ [Py.fmt current_idea] else ideas)
        with (finish (ideas, current_idea)).
      rewrite finish_pending, <- app_assoc. f_equal. f_equal. f_equal.
      unfold pending, IdeaRule.merged. cbn [Py.truthy Py.fmt].
      now rewrite split1_after_colon.
    + cbn [fst snd].
      destruct (Py.truthy current_idea) eqn:Hcurrent; cbn [andb].
      * destruct (Py.nonempty (Py.strip line)) eqn:Hline.
        -- rewrite IH. f_equal. f_equal.
           apply truthy_Some in Hcurrent. destruct Hcurrent as (c & -> & Hc).
           unfold pending. cbn [Py.truthy Py.fmt]. rewrite Hc.
           rewrite (joined_cons c line free Hline).
           now destruct c.
        -- rewrite IH. f_equal. f_equal.
           unfold pending. rewrite Hcurrent. now rewrite (joined_blank _ line free Hline).
      * rewrite IH. f_equal. f_equal. unfold pending. now rewrite Hcurrent.
Qed.

(** The parser follows the rule on every response. *)
Lemma parse_ideas_rule (response : string) :
  GuavaWriter.parse_ideas response = IdeaRule.propose_ideas response.
Proof.
  unfold GuavaWriter.parse_ideas, IdeaRule.propose_ideas.
  pose proof (idea_lines_blocks (Py.split (ascii_of_nat 10) response) [] None) as Hloop.
  destruct (fold_left _ _ _) as [ideas current_idea].
  unfold finish in Hloop. cbn [fst snd] in Hloop. now rewrite Hloop.
Qed.

(** The loop of the earlier application: the marker lines, in order. *)
Lemma simplified_parse_loop (lines ideas : list string) :
  fold_left
    (fun ideas line =>
       if Py.startswith "Idea:" line then ideas ++ [Py.strip (Py.drop 5 line)] else ideas)
    lines ideas
  = ideas ++ map (fun line => Py.strip (Py.drop 5 line))
                 (filter (Py.startswith "Idea:") lines).
Proof.
  revert ideas. induction lines as [|line lines IH]; intros ideas.
  - simpl. now rewrite app_nil_r.
  - cbn [fold_left filter]. rewrite IH.
    destruct (Py.startswith "Idea:" line); [|reflexivity].
    cbn [map]. now rewrite <- app_assoc.
Qed.

(** C5, as the code has it. In GuavaWriter the ideas of a response are
    those of the rule, for every response: the lines are cut at the marker
    lines (the stripped line starts with "Idea" and the line has a colon);
    a marker line starts an idea with what follows its first colon,
    stripped, unless that is empty; the non-empty lines up to the next
    marker are stripped and merged into it with single spaces; the first
    three ideas are kept. On the body
    "Idea: A thing\nmore detail\nIdea: Second\nIdea: Third\nIdea: Fourth"
    that is ["A thing more detail"; "Second"; "Third"]. The earlier
    application merges nothing: its ideas are the first three lines that
    start with "Idea:", each without the marker and stripped. *)
Theorem four_ideas_parsed_to_three `{Environment}
        (transcript response : string)
        (w : Run.world GuavaWriter.session_state)
        (w' : Run.world SimplifiedApp.session_state) :
  (10 <= Py.len (Py.strip transcript) ->
   service (length (Run.calls w))
           (Request "claude-3-sonnet-20240229" 1000 (7 # 10)
                    (GuavaWriter.ideas_prompt (Some transcript)))
   = Text response ->
   fst (GuavaWriter.generate_ideas (Some transcript) w)
   = Run.Done (IdeaRule.propose_ideas response))
  /\ IdeaRule.propose_ideas four_ideas = ["A thing more detail"; "Second"; "Third"]
  /\ (service (length (Run.calls w'))
              (Request "claude-3-sonnet-20240229" 500 (7 # 10)
                       (SimplifiedApp.ideas_prompt (Some transcript)))
      = Text response ->
      fst (SimplifiedApp.generate_ideas (Some transcript) w')
      = Run.Done
          (Py.take 3
             (map (fun line => Py.strip (Py.drop 5 line))
                  (filter (Py.startswith "Idea:")
                          (Py.split (ascii_of_nat 10) response))))).
Proof.
  split; [|split].
  - intros Hlen Hbody. rewrite generate_ideas_run.
    assert (Py.nonempty transcript = true) as Hne.
    { destruct transcript; [simpl in Hlen; lia | reflexivity]. }
    simpl Py.truthy. simpl Py.fmt. rewrite Hne. simpl negb. simpl orb.
    destruct (Nat.ltb_spec (Py.len (Py.strip transcript)) 10) as [Hlt|_]; [lia|].
    cbv zeta. rewrite Hbody. cbn [fst]. now rewrite parse_ideas_rule.
  - vm_compute. reflexivity.
  - intros Hbody.
    unfold SimplifiedApp.generate_ideas, Run.bind, Run.messages_create, Run.ret.
    rewrite Hbody. cbn [fst]. unfold SimplifiedApp.parse_ideas.
    now rewrite simplified_parse_loop.
Qed.

Lemma four_ideas_parsed_to_three_witness :
  fst (GuavaWriter.generate_ideas (H := answering four_ideas)
         (Some "valid transcript text") GuavaWriter.initial)
  = Run.Done (IdeaRule.propose_ideas four_ideas)
  /\ fst (SimplifiedApp.generate_ideas (H := answering four_ideas)
            (Some "valid transcript text") SimplifiedApp.initial)
     = Run.Done ["A thing"; "Second"; "Third"].
Proof.
  destruct (four_ideas_parsed_to_three (H := answering four_ideas)
              "valid transcript text" four_ideas GuavaWriter.initial SimplifiedApp.initial)
    as (Hguava & _ & Hsimplified).
  split.
  - apply Hguava; [vm_compute; lia | reflexivity].
  - rewrite Hsimplified; reflexivity.
Defined.

(** C5 as stated fails on the earlier application, whose parser the
    claim also cites: on the body of the claim the continuation line is
    dropped, so the first idea is "A thing", not "A thing more detail". *)
Lemma simplified_app_drops_continuation_line :
  fst (SimplifiedApp.generate_ideas (H := answering four_ideas)
         (Some "valid transcript text") SimplifiedApp.initial)
  = Run.Done ["A thing"; "Second"; "Third"]
  /\ fst (SimplifiedApp.generate_ideas (H := answering four_ideas)
            (Some "valid transcript text") SimplifiedApp.initial)
     <> Run.Done ["A thing more detail"; "Second"; "Third"].
Proof. split; [reflexivity | discriminate]. Qed.

(** C7, as the code has it. In GuavaWriter a transcript whose stripped
    length is below 10 (a blank one, say) makes [generate_ideas] give up
    before any request is sent, and nothing is raised: it shows
    "Transcript is too short or empty", returns normally with no idea and
    leaves the session and the log of requests as they were. From 10
    characters on, the one request is sent and that message is not shown.
    The earlier application tests no length: whatever the transcript, its
    [generate_ideas] sends its one request and shows nothing. *)
Theorem short_transcript_rejected_before_any_call `{Environment}
        (transcript : string)
        (w : Run.world GuavaWriter.session_state)
        (w' : Run.world SimplifiedApp.session_state) :
  (Py.len (Py.strip transcript) < 10 ->
   GuavaWriter.generate_ideas (Some transcript) w
   = (Run.Done [],
      Run.World (Run.session w)
                (Run.errors w ++ ["Transcript is too short or empty"])
                (Run.calls w)))
  /\ (10 <= Py.len (Py.strip transcript) ->
      exists req shown,
        Run.calls (snd (GuavaWriter.generate_ideas (Some transcript) w))
        = Run.calls w ++ [req]
        /\ Run.errors (snd (GuavaWriter.generate_ideas (Some transcript) w))
           = Run.errors w ++ shown
        /\ ~ In "Transcript is too short or empty" shown)
  /\ snd (SimplifiedApp.generate_ideas (Some transcript) w')
     = Run.World (Run.session w') (Run.errors w')
         (Run.calls w'
          ++ [Request "claude-3-sonnet-20240229" 500 (7 # 10)
                      (SimplifiedApp.ideas_prompt (Some transcript))]).
Proof.
  rewrite generate_ideas_run. simpl Py.truthy. simpl Py.fmt. split; [|split].
  - intros Hlt. destruct (Nat.ltb_spec (Py.len (Py.strip transcript)) 10) as [_|Hge]; [|lia].
    now rewrite orb_true_r.
  - intros Hge.
    assert (Py.nonempty transcript = true) as ->.
    { destruct transcript; [simpl in Hge; lia | reflexivity]. }
    destruct (Nat.ltb_spec (Py.len (Py.strip transcript)) 10) as [Hlt|_]; [lia|].
    simpl negb. simpl orb. cbv zeta. eexists.
    destruct service as [body|m]; simpl.
    + exists []. rewrite app_nil_r. auto.
    + eexists. split; [reflexivity|]. split; [reflexivity|].
      intros [Hin|[]]. discriminate Hin.
  - unfold SimplifiedApp.generate_ideas, Run.bind, Run.messages_create, Run.ret.
    now destruct service.
Qed.

Lemma short_transcript_rejected_before_any_call_witness :
  GuavaWriter.generate_ideas (H := answering four_ideas) (Some "   ") GuavaWriter.initial
  = (Run.Done [],
     Run.World GuavaWriter.fresh ["Transcript is too short or empty"] [])
  /\ exists req shown,
      Run.calls (snd (GuavaWriter.generate_ideas (H := answering four_ideas)
                        (Some "valid transcript text") GuavaWriter.initial))
      = [req]
      /\ Run.errors (snd (GuavaWriter.generate_ideas (H := answering four_ideas)
                            (Some "valid transcript text") GuavaWriter.initial))
         = shown
      /\ ~ In "Transcript is too short or empty" shown.
Proof.
  split.
  - apply (proj1 (short_transcript_rejected_before_any_call
                    (H := answering four_ideas) "   " GuavaWriter.initial
                    SimplifiedApp.initial)).
    vm_compute. lia.
  - apply (proj1 (proj2 (short_transcript_rejected_before_any_call
                           (H := answering four_ideas) "valid transcript text"
                           GuavaWriter.initial SimplifiedApp.initial))).
    vm_compute. lia.
Defined.

(** C7 as stated fails on both applications. On the blank transcript
    GuavaWriter raises nothing: [generate_ideas] returns normally, with no
    idea and the message shown. The earlier application, whose
    [generate_ideas] the claim also cites, sends its request for the blank
    transcript and returns the ideas of the answer. *)
Lemma blank_transcript_raises_nothing :
  GuavaWriter.generate_ideas (H := answering four_ideas) (Some "   ") GuavaWriter.initial
  = (Run.Done [],
     Run.World GuavaWriter.fresh ["Transcript is too short or empty"] [])
  /\ (forall e,
         fst (GuavaWriter.generate_ideas (H := answering four_ideas) (Some "   ")
                GuavaWriter.initial)
         <> Run.Halted (Run.Raised e))
  /\ SimplifiedApp.generate_ideas (H := answering four_ideas) (Some "   ")
       SimplifiedApp.initial
     = (Run.Done ["A thing"; "Second"; "Third"],
        Run.World SimplifiedApp.fresh []
          [Request "claude-3-sonnet-20240229" 500 (7 # 10)
                   (SimplifiedApp.ideas_prompt (Some "   "))]).
Proof. split; [reflexivity | split; [discriminate | reflexivity]]. Qed.

(** ** The history as context *)

(** C8. [format_revision_history] serializes the history of the session in
    append order, one block per entry. The block at position [k] (from 0)
    is that of the [k]-th entry appended, and it is written out here: a
    newline, "VERSION ", the ordinal [k + 1] in decimal, ":", a newline,
    that version's script, a newline, "FEEDBACK:", a newline, the feedback
    that superseded it, a newline and "---". So each block carries its
    ordinal, its script and its feedback. The result is a function of the
    history alone, and the call leaves the session, the shown errors and
    the request log as they were. [format_history] of the earlier
    application gives the same text on the same history. This holds for
    every history, the empty one included. *)
Theorem history_context_chronological (w : Run.world GuavaWriter.session_state) :
  let history := GuavaWriter.revision_history (GuavaWriter.ctx w) in
  let newline := String (ascii_of_nat 10) EmptyString in
  let ordinal k := NilZero.string_of_uint (Nat.to_uint (S k)) in
  let block k script feedback :=
    (newline ++ "VERSION " ++ ordinal k ++ ":" ++ newline ++ script ++ newline
     ++ "FEEDBACK:" ++ newline ++ feedback ++ newline ++ "---")%string in
  exists blocks,
    GuavaWriter.format_revision_history w
    = (Run.Done (String.concat EmptyString blocks), w)
    /\ format_history history = String.concat EmptyString blocks
    /\ length blocks = length history
    /\ (forall k,
           nth_error blocks k
           = option_map (fun '(script, feedback) => block k script feedback)
                        (nth_error history k))
    /\ (forall k script feedback,
           nth_error history k = Some (script, feedback) ->
           exists text,
             nth_error blocks k = Some text
             /\ carries text ("VERSION " ++ ordinal k ++ ":")
             /\ carries text script
             /\ carries text feedback).
Proof.
  cbv zeta.
  exists (blocks_from 1 (GuavaWriter.revision_history (GuavaWriter.ctx w))).
  split; [|split; [|split; [|split]]].
  - unfold GuavaWriter.format_revision_history, Run.bind, Run.get, Run.ret.
    now rewrite format_history_blocks.
  - apply format_history_blocks.
  - apply blocks_from_length.
  - intros k. rewrite blocks_from_nth.
    now destruct (nth_error _ k) as [[script feedback]|].
  - intros k script feedback Hentry. rewrite blocks_from_nth, Hentry.
    eexists. split; [reflexivity|]. unfold version_block, Py.str_nat, Py.nl.
    cbn [Nat.add]. split; [|split].
    + exists (String (ascii_of_nat 10) EmptyString). eexists.
      rewrite !append_assoc. reflexivity.
    + exists (String (ascii_of_nat 10) EmptyString
              ++ "VERSION " ++ NilZero.string_of_uint (Nat.to_uint (S k)) ++ ":"
              ++ String (ascii_of_nat 10) EmptyString)%string.
      eexists. rewrite !append_assoc. reflexivity.
    + exists (String (ascii_of_nat 10) EmptyString
              ++ "VERSION " ++ NilZero.string_of_uint (Nat.to_uint (S k)) ++ ":"
              ++ String (ascii_of_nat 10) EmptyString ++ script
              ++ String (ascii_of_nat 10) EmptyString ++ "FEEDBACK:"
              ++ String (ascii_of_nat 10) EmptyString)%string.
      eexists. rewrite !append_assoc. reflexivity.
Qed.

Lemma history_context_chronological_witness :
  exists blocks,
    GuavaWriter.format_revision_history
      (scripted (Some "draft v2") [("draft v1", "make it shorter")])
    = (Run.Done (String.concat EmptyString blocks),
       scripted (Some "draft v2") [("draft v1", "make it shorter")])
    /\ exists text,
        nth_error blocks 0 = Some text
        /\ carries text "VERSION 1:"
        /\ carries text "draft v1"
        /\ carries text "make it shorter".
Proof.
  destruct (history_context_chronological
              (scripted (Some "draft v2") [("draft v1", "make it shorter")]))
    as (blocks & Hrun & _ & _ & _ & Hcarries).
  exists blocks. split; [exact Hrun|].
  apply (Hcarries 0 "draft v1" "make it shorter"). reflexivity.
Defined.

(** The same serialization, as the function [format_history] of the earlier
    application: entry after entry, each new entry adds its block at the
    end under the next ordinal. *)
Lemma format_history_chronological (h : list (string * string)) :
  format_history h = String.concat EmptyString (blocks_from 1 h)
  /\ forall script feedback,
      format_history (h ++ [(script, feedback)])
      = (format_history h ++ version_block (S (length h)) script feedback)%string.
Proof. split; [apply format_history_blocks | apply format_history_snoc]. Qed.

Example format_history_two :
  format_history [("draft v1", "make it shorter"); ("draft v2", "add a hook")]
  = Py.unlines [EmptyString; "VERSION 1:"; "draft v1"; "FEEDBACK:"; "make it shorter";
                "---"; "VERSION 2:"; "draft v2"; "FEEDBACK:"; "add a hook"; "---"].
Proof. reflexivity. Qed.

(** C10. With an empty history, [format_revision_history] returns the empty
    string: no header, no placeholder, no separator. *)
Theorem empty_history_formats_to_empty_string (w : Run.world GuavaWriter.session_state) :
  GuavaWriter.revision_history (GuavaWriter.ctx w) = [] ->
  GuavaWriter.format_revision_history w = (Run.Done EmptyString, w).
Proof.
  intros Hempty.
  unfold GuavaWriter.format_revision_history, Run.bind, Run.get, Run.ret.
  unfold GuavaWriter.ctx in Hempty. now rewrite Hempty.
Qed.

Lemma empty_history_formats_to_empty_string_witness :
  GuavaWriter.format_revision_history GuavaWriter.initial
  = (Run.Done EmptyString, GuavaWriter.initial).
Proof.
  apply (empty_history_formats_to_empty_string GuavaWriter.initial). reflexivity.
Defined.

(** The earlier application: [format_history([])] is the empty string, and
    [generate_script] takes the empty string for an empty history. *)
Lemma format_history_nil : format_history [] = EmptyString.
Proof. reflexivity. Qed.

(** ** Prompts and what they carry *)

Lemma carries_here (x b : string) : carries (x ++ b) x.
Proof. exists EmptyString, b. reflexivity. Qed.

Lemma carries_end (x : string) : carries x x.
Proof. exists EmptyString, EmptyString. simpl. now rewrite append_empty_r. Qed.

Lemma carries_later (a p x : string) : carries p x -> carries (a ++ p) x.
Proof.
  intros (u & v & ->). exists (a ++ u)%string, v. now rewrite append_assoc.
Qed.

Lemma prefix_split (x p : string) :
  String.prefix x p = true <-> exists b, p = (x ++ b)%string.
Proof.
  revert p. induction x as [|c x IH]; intros p.
  - split; [intros _; now exists p | intros _; now destruct p].
  - destruct p as [|d p]; simpl.
    + split; [discriminate | intros (b & Hb); discriminate Hb].
    + destruct (Ascii.ascii_dec c d) as [->|Hcd].
      * rewrite IH. split; intros (b & Hb); exists b; congruence.
      * split; [discriminate | intros (b & Hb); congruence].
Qed.

(** The search [occurs] decides [carries]. *)
Lemma occurs_carries (x p : string) : occurs x p = true <-> carries p x.
Proof.
  induction p as [|c p IH].
  - cbn [occurs]. rewrite orb_false_r, prefix_split. split.
    + intros (b & ->). apply carries_here.
    + intros (a & b & Hp). destruct a; [now exists b | discriminate Hp].
  - cbn [occurs]. rewrite orb_true_iff, prefix_split, IH. split.
    + intros [(b & ->) | Hc]; [apply carries_here|].
      apply (carries_later (String c EmptyString)), Hc.
    + intros (a & b & Hp). destruct a as [|d a].
      * left. now exists b.
      * right. exists a, b. simpl in Hp. congruence.
Qed.

Ltac carried :=
  repeat first [ apply carries_end | apply carries_here | apply carries_later ].

Section Prompts.
Context `{Environment}.

Lemma unlines_cons (l : string) (r : list string) :
  r <> [] -> Py.unlines (l :: r) = (l ++ Py.nl ++ Py.unlines r)%string.
Proof. destruct r; [congruence | reflexivity]. Qed.

Lemma base_prompt_carries_idea idea : carries (GuavaWriter.base_prompt idea) (Py.fmt idea).
Proof.
  unfold GuavaWriter.base_prompt.
  rewrite unlines_cons by discriminate. rewrite unlines_cons by discriminate.
  carried.
Qed.

Lemma revision_prompt_carries idea current direction :
  carries (GuavaWriter.revision_prompt idea current direction) (Py.fmt current)
  /\ carries (GuavaWriter.revision_prompt idea current direction) direction.
Proof. unfold GuavaWriter.revision_prompt. split; carried. Qed.

Lemma draft_prompt_carries transcript idea direction :
  carries (GuavaWriter.draft_prompt transcript idea direction) (Py.fmt transcript)
  /\ carries (GuavaWriter.draft_prompt transcript idea direction) (Py.fmt idea)
  /\ carries (GuavaWriter.draft_prompt transcript idea direction) direction.
Proof.
  unfold GuavaWriter.draft_prompt. repeat split; try solve [carried].
  destruct (base_prompt_carries_idea idea) as (a & b & ->).
  exists a. eexists. rewrite !append_assoc. reflexivity.
Qed.

Lemma simplified_revision_prompt_carries history current direction :
  carries (SimplifiedApp.revision_prompt history current direction) history
  /\ carries (SimplifiedApp.revision_prompt history current direction) (Py.fmt current)
  /\ carries (SimplifiedApp.revision_prompt history current direction) direction.
Proof. unfold SimplifiedApp.revision_prompt. repeat split; carried. Qed.

Lemma simplified_draft_prompt_carries transcript idea direction :
  carries (SimplifiedApp.draft_prompt transcript idea direction) (Py.fmt transcript)
  /\ carries (SimplifiedApp.draft_prompt transcript idea direction) (Py.fmt idea)
  /\ carries (SimplifiedApp.draft_prompt transcript idea direction) direction.
Proof. unfold SimplifiedApp.draft_prompt. repeat split; carried. Qed.

End Prompts.

(** ** Script generation *)

Section Scripts.
Context `{Environment}.
Import Run.

Lemma generate_script_sends transcript idea direction current
      (w : world GuavaWriter.session_state) :
  sends_at (GuavaWriter.generate_script transcript idea direction current) w
           (script_request transcript idea direction current).
Proof.
  unfold sends_at, GuavaWriter.generate_script, script_request, messages_create.
  now destruct service.
Qed.

Lemma simplified_generate_script_sends transcript idea direction current
      (w : world SimplifiedApp.session_state) :
  sends_at (SimplifiedApp.generate_script transcript idea direction current) w
           (simplified_script_request (SimplifiedApp.revision_history (session w))
                                      transcript idea direction current).
Proof.
  unfold sends_at, SimplifiedApp.generate_script, simplified_script_request,
    bind, get, messages_create.
  now destruct service.
Qed.

(** The body under the Generate/Update Script button in one equation:
    the entry is appended first, then the request is sent, and only an
    answer reaches [current_script] and the messages. *)
Lemma generate_or_update_run direction (w : world GuavaWriter.session_state) :
  let c := GuavaWriter.ctx w in
  let current := GuavaWriter.current_script c in
  let history :=
    if Py.truthy current
    then GuavaWriter.revision_history c ++ [(Py.fmt current, direction)]
    else GuavaWriter.revision_history c in
  let req := script_request (GuavaWriter.transcript c) (GuavaWriter.selected_idea c)
                            direction current in
  GuavaWriter.generate_or_update direction w
  = match service (length (calls w)) req with
    | Text new_script =>
        (Halted Rerun,
         World
           (GuavaWriter.SessionState
              (GuavaWriter.messages (session w)
               ++ [GuavaWriter.Message "assistant"
                     ("Here's the " ++ (if Py.truthy current then "revised" else "new")
                      ++ " script:" ++ Py.nl ++ Py.nl ++ new_script)])
              (GuavaWriter.MkContext (GuavaWriter.transcript c)
                                     (GuavaWriter.selected_idea c)
                                     (Some new_script) history))
           (errors w) (calls w ++ [req]))
    | Failure m =>
        (Halted (Raised (UpstreamError m)),
         World
           (GuavaWriter.SessionState
              (GuavaWriter.messages (session w))
              (GuavaWriter.MkContext (GuavaWriter.transcript c)
                                     (GuavaWriter.selected_idea c)
                                     current history))
           (errors w) (calls w ++ [req]))
    end.
Proof.
  destruct w as [[msgs [t i c h]] errs sent]. cbv zeta.
  unfold GuavaWriter.generate_or_update, GuavaWriter.generate_script, script_request,
    GuavaWriter.ctx, bind, get, when, messages_create.
  cbn [session errors calls GuavaWriter.current_context GuavaWriter.current_script
       GuavaWriter.transcript GuavaWriter.selected_idea GuavaWriter.revision_history
       GuavaWriter.messages].
  destruct (Py.truthy c); cbn -[GuavaWriter.revision_prompt GuavaWriter.draft_prompt
                                 Py.nonempty app String.append];
    destruct service; reflexivity.
Qed.

(** The Update Script body of the earlier application, likewise. *)
Lemma update_script_run new_direction (w : world SimplifiedApp.session_state) :
  let s := session w in
  let current := SimplifiedApp.current_script s in
  let history := SimplifiedApp.revision_history s ++ [(Py.fmt current, new_direction)] in
  let req := simplified_script_request history (SimplifiedApp.transcript s)
               (SimplifiedApp.selected_idea s) new_direction current in
  SimplifiedApp.update_script new_direction w
  = match service (length (calls w)) req with
    | Text revised =>
        (Halted Rerun,
         World (SimplifiedApp.SessionState (SimplifiedApp.transcript s)
                  (SimplifiedApp.ideas s) (SimplifiedApp.selected_idea s)
                  (Some revised) history)
               (errors w) (calls w ++ [req]))
    | Failure m =>
        (Halted (Raised (UpstreamError m)),
         World (SimplifiedApp.SessionState (SimplifiedApp.transcript s)
                  (SimplifiedApp.ideas s) (SimplifiedApp.selected_idea s)
                  current history)
               (errors w) (calls w ++ [req]))
    end.
Proof.
  destruct w as [[t l i c h] errs sent]. cbv zeta.
  unfold SimplifiedApp.update_script, SimplifiedApp.generate_script,
    simplified_script_request, bind, get, messages_create.
  cbn -[SimplifiedApp.revision_prompt SimplifiedApp.draft_prompt format_history
        Py.nonempty Py.truthy Py.nonnil app String.append].
  destruct service; reflexivity.
Qed.

End Scripts.

(** C6, as the code has it. [generate_script] sends one request and returns
    the text of the answer as it is. The request is a revision, carrying the
    prior script and the feedback, when the prior script and the feedback
    are both non-empty; in every other case, a prior script with empty
    feedback included, it is a first draft carrying transcript, idea and
    feedback. The revision of the earlier application also carries the
    serialized history of the session. *)
Theorem generate_script_request `{Environment}
        (transcript idea : option string) (direction : string) (current : option string) :
  (forall w : Run.world GuavaWriter.session_state,
      exists req,
        sends_at (GuavaWriter.generate_script transcript idea direction current) w req
        /\ if Py.truthy current && Py.nonempty direction
           then prompt req = GuavaWriter.revision_prompt idea current direction
                /\ carries (prompt req) (Py.fmt current)
                /\ carries (prompt req) direction
           else prompt req = GuavaWriter.draft_prompt transcript idea direction
                /\ carries (prompt req) (Py.fmt transcript)
                /\ carries (prompt req) (Py.fmt idea)
                /\ carries (prompt req) direction)
  /\ (forall w : Run.world SimplifiedApp.session_state,
         exists req,
           sends_at (SimplifiedApp.generate_script transcript idea direction current) w req
           /\ if Py.truthy current && Py.nonempty direction
              then carries (prompt req)
                           (format_history (SimplifiedApp.revision_history (Run.session w)))
                   /\ carries (prompt req) (Py.fmt current)
                   /\ carries (prompt req) direction
              else prompt req = SimplifiedApp.draft_prompt transcript idea direction
                   /\ carries (prompt req) (Py.fmt transcript)
                   /\ carries (prompt req) (Py.fmt idea)
                   /\ carries (prompt req) direction).
Proof.
  split; intros w.
  - exists (script_request transcript idea direction current).
    split; [apply generate_script_sends|].
    unfold script_request. cbn [prompt].
    destruct (Py.truthy current && Py.nonempty direction).
    + split; [reflexivity | apply revision_prompt_carries].
    + split; [reflexivity | apply draft_prompt_carries].
  - exists (simplified_script_request (SimplifiedApp.revision_history (Run.session w))
                                      transcript idea direction current).
    split; [apply simplified_generate_script_sends|].
    unfold simplified_script_request. cbn [prompt].
    destruct (Py.truthy current && Py.nonempty direction).
    + destruct (SimplifiedApp.revision_history (Run.session w)) as [|e h] eqn:Hh;
        cbn [Py.nonnil]; apply simplified_revision_prompt_carries.
    + split; [reflexivity | apply simplified_draft_prompt_carries].
Qed.

(** C6 as stated fails. With a prior script and empty feedback the request
    is the first-draft one and does not carry the prior script; and the
    revision request of GuavaWriter carries no history, whatever the history
    of the session. *)
Lemma prior_script_without_feedback_is_a_draft_request :
  let env := answering "draft v2" in
  let w := scripted (Some "draft v1") [("draft v0", "add a hook")] in
  Run.calls (snd (GuavaWriter.generate_script (H := env)
                    (Some "first transcript text") (Some "Y") EmptyString
                    (Some "draft v1") w))
  = [Request "claude-3-opus-20240229" 1000 (7 # 10)
             (GuavaWriter.draft_prompt (H := env) (Some "first transcript text") (Some "Y")
                                       EmptyString)]
  /\ ~ carries (GuavaWriter.draft_prompt (H := env) (Some "first transcript text")
                                         (Some "Y") EmptyString)
               "draft v1"
  /\ ~ carries (GuavaWriter.revision_prompt (H := env) (Some "Y") (Some "draft v1")
                                            "make it shorter")
               (format_history [("draft v0", "add a hook")]).
Proof.
  cbv zeta. split; [reflexivity|].
  split; intros Hc; apply occurs_carries in Hc; vm_compute in Hc; discriminate Hc.
Qed.

(** ** The revision history under generation *)




(** The earlier application does the same in two handlers: the first draft
    writes only the script, the update appends the prior script with the new
    feedback and then replaces it. *)
Lemma simplified_first_draft_then_update `{Environment}
      (u : SimplifiedApp.ui) (w : Run.world SimplifiedApp.session_state)
      (text1 text2 fb2 : string) :
  Py.truthy (SimplifiedApp.selected_idea (Run.session w)) = true ->
  SimplifiedApp.crack_on_clicked u = true ->
  (forall r, service (length (Run.calls w)) r = Text text1) ->
  (forall r, service (S (length (Run.calls w))) r = Text text2) ->
  let w1 := snd (SimplifiedApp.crack_on u w) in
  let w2 := snd (SimplifiedApp.update_script fb2 w1) in
  SimplifiedApp.revision_history (Run.session w1)
  = SimplifiedApp.revision_history (Run.session w)
  /\ SimplifiedApp.current_script (Run.session w1) = Some text1
  /\ SimplifiedApp.revision_history (Run.session w2)
     = SimplifiedApp.revision_history (Run.session w) ++ [(text1, fb2)]
  /\ SimplifiedApp.current_script (Run.session w2) = Some text2.
Proof.
  intros Hsel Hclick Hfirst Hsecond w1 w2.
  assert (w1 = Run.World
                 (SimplifiedApp.SessionState
                    (SimplifiedApp.transcript (Run.session w))
                    (SimplifiedApp.ideas (Run.session w))
                    (SimplifiedApp.selected_idea (Run.session w))
                    (Some text1)
                    (SimplifiedApp.revision_history (Run.session w)))
                 (Run.errors w)
                 (Run.calls w ++ [simplified_script_request
                    (SimplifiedApp.revision_history (Run.session w))
                    (SimplifiedApp.transcript (Run.session w))
                    (SimplifiedApp.selected_idea (Run.session w))
                    (SimplifiedApp.direction u) None])) as Hw1.
  { subst w1. unfold SimplifiedApp.crack_on, Run.bind, Run.get.
    cbn [Run.when]. rewrite Hsel, Hclick. cbn [Run.when].
    pose proof (simplified_generate_script_sends
                  (SimplifiedApp.transcript (Run.session w))
                  (SimplifiedApp.selected_idea (Run.session w))
                  (SimplifiedApp.direction u) None w) as Hs.
    unfold sends_at in Hs. rewrite Hs, Hfirst. reflexivity. }
  subst w2. rewrite update_script_run, Hw1. cbv zeta.
  cbn [Run.calls Run.session Run.errors]. rewrite length_app, Nat.add_comm.
  cbn [length Nat.add]. rewrite Hsecond. repeat split.
Qed.

(** ** A failed generation *)




(** The earlier application appends before the request as well, and has no
    handler around it: the failure ends the run with the entry in place. *)
Lemma simplified_failed_update_keeps_appended_entry `{Environment}
      (new_direction : string) (w : Run.world SimplifiedApp.session_state) (m : string) :
  (forall r, service (length (Run.calls w)) r = Failure m) ->
  let s := Run.session w in
  let r := SimplifiedApp.update_script new_direction w in
  fst r = Run.Halted (Run.Raised (Run.UpstreamError m))
  /\ Run.session (snd r)
     = SimplifiedApp.SessionState
         (SimplifiedApp.transcript s) (SimplifiedApp.ideas s)
         (SimplifiedApp.selected_idea s) (SimplifiedApp.current_script s)
         (SimplifiedApp.revision_history s
          ++ [(Py.fmt (SimplifiedApp.current_script s), new_direction)]).
Proof.
  intros Hfail s r. subst r. rewrite update_script_run. cbv zeta.
  rewrite Hfail. split; reflexivity.
Qed.

(** ** Loading a transcript *)

Lemma read_only_keeps {S A X} (f : S -> X) (c : Run.M S A) : read_only c -> keeps f c.
Proof. intros Hc w. now rewrite Hc. Qed.

Ltac guava_unfold :=
  unfold GuavaWriter.set_transcript, GuavaWriter.set_selected_idea,
    GuavaWriter.set_current_script, GuavaWriter.append_revision,
    GuavaWriter.add_message, GuavaWriter.with_context.

Ltac simplified_unfold :=
  unfold SimplifiedApp.set_transcript, SimplifiedApp.set_ideas,
    SimplifiedApp.set_selected_idea, SimplifiedApp.set_current_script,
    SimplifiedApp.append_revision.

Section Ideate.
Context `{Environment}.
Import Run.

Lemma generate_ideas_keeps {X} (f : GuavaWriter.session_state -> X) transcript :
  keeps f (GuavaWriter.generate_ideas transcript).
Proof. apply read_only_keeps, generate_ideas_read_only. Qed.

#[local] Hint Resolve generate_ideas_keeps : keeps.

(** The Ideate handler writes the transcript and the messages only. *)
Lemma ideate_keeps {X} (f : GuavaWriter.context -> X) (u : GuavaWriter.ui) :
  (forall t c, f (GuavaWriter.MkContext t (GuavaWriter.selected_idea c)
                    (GuavaWriter.current_script c) (GuavaWriter.revision_history c))
               = f c) ->
  keeps (fun s => f (GuavaWriter.current_context s)) (GuavaWriter.ideate u).
Proof.
  intros Hf. unfold GuavaWriter.ideate. guava_unfold.
  apply keeps_when, keeps_try_except; [|intros e; auto with keeps].
  apply keeps_bind; [auto with keeps | intros t].
  apply keeps_bind; [apply keeps_modify; intros s; apply Hf | intros _].
  keeps_all.
Qed.


(** The Ideate handler of the earlier application writes the transcript
    and the ideas only. *)
Lemma simplified_ideate_keeps {X} (f : SimplifiedApp.session_state -> X)
      (u : SimplifiedApp.ui) :
  (forall t l s, f (SimplifiedApp.SessionState t l (SimplifiedApp.selected_idea s)
                      (SimplifiedApp.current_script s)
                      (SimplifiedApp.revision_history s))
                 = f s) ->
  keeps f (SimplifiedApp.ideate u).
Proof.
  intros Hf. unfold SimplifiedApp.ideate, SimplifiedApp.generate_ideas. simplified_unfold.
  apply keeps_when, keeps_try_except; [|intros e; auto with keeps].
  apply keeps_bind; [auto with keeps | intros t].
  apply keeps_bind; [apply keeps_modify; intros s; apply Hf | intros _].
  apply keeps_bind; [keeps_all | intros l].
  apply keeps_bind; [apply keeps_modify; intros s; apply Hf | intros _].
  auto with keeps.
Qed.

End Ideate.




(** The earlier application: the Ideate handler replaces transcript and
    ideas and keeps the selected idea, the script and the history. *)
Lemma simplified_ideate_keeps_selection_script_and_history `{Environment}
      (u : SimplifiedApp.ui) (w : Run.world SimplifiedApp.session_state) :
  let s' := Run.session (snd (SimplifiedApp.ideate u w)) in
  SimplifiedApp.selected_idea s' = SimplifiedApp.selected_idea (Run.session w)
  /\ SimplifiedApp.current_script s' = SimplifiedApp.current_script (Run.session w)
  /\ SimplifiedApp.revision_history s' = SimplifiedApp.revision_history (Run.session w).
Proof.
  cbv zeta. repeat apply conj.
  - now apply (simplified_ideate_keeps SimplifiedApp.selected_idea).
  - now apply (simplified_ideate_keeps SimplifiedApp.current_script).
  - now apply (simplified_ideate_keeps SimplifiedApp.revision_history).
Qed.

(** ** Selecting an idea *)

Section Selection.
Context `{Environment}.
Import Run.

(** [generate_ideas] always returns: a list of at most three ideas, in a
    world whose session is the one it started from. *)
Lemma generate_ideas_done transcript (w : world GuavaWriter.session_state) :
  exists ideas w1,
    GuavaWriter.generate_ideas transcript w = (Done ideas, w1)
    /\ session w1 = session w
    /\ length ideas <= 3.
Proof.
  destruct (GuavaWriter.generate_ideas transcript w) as [[ideas|h] w1] eqn:E.
  - exists ideas, w1. split; [reflexivity|]. split.
    + pose proof (generate_ideas_read_only transcript w) as Hr. now rewrite E in Hr.
    + apply (generate_ideas_at_most_three transcript w). now rewrite E.
  - exfalso. rewrite generate_ideas_run in E.
    destruct (negb _ || _); [discriminate|]. cbv zeta in E.
    destruct service; discriminate.
Qed.

(** Lines 243-249 in one equation, for the regenerated [ideas]. *)
Lemma choose_idea_run input n (w w1 : world GuavaWriter.session_state) ideas :
  GuavaWriter.generate_ideas (GuavaWriter.transcript (GuavaWriter.ctx w)) w
  = (Done ideas, w1) ->
  GuavaWriter.choose_idea input n w
  = match nth_error ideas (Z.to_nat (n - 1)) with
    | Some selected =>
        (Halted Rerun,
         World
           (GuavaWriter.SessionState
              (GuavaWriter.messages (session w1)
               ++ [GuavaWriter.Message "user" ("Let's go with idea " ++ input)]
               ++ [GuavaWriter.Message "assistant"
                     "Great choice! What direction would you like to take with this idea?"])
              (GuavaWriter.MkContext
                 (GuavaWriter.transcript (GuavaWriter.ctx w1)) (Some selected)
                 (GuavaWriter.current_script (GuavaWriter.ctx w1))
                 (GuavaWriter.revision_history (GuavaWriter.ctx w1))))
           (errors w1) (calls w1))
    | None => (Halted (Raised (IndexError "list index out of range")), w1)
    end.
Proof.
  intros Hgen. unfold GuavaWriter.choose_idea, bind at 1, get.
  unfold GuavaWriter.ctx in Hgen. unfold bind at 1. rewrite Hgen.
  unfold bind at 1, index. destruct (nth_error ideas (Z.to_nat (n - 1))); [|reflexivity].
  destruct w1 as [[msgs [t i c h]] errs sent].
  cbn. now rewrite <- app_assoc.
Qed.

(** Once an idea is selected the selection input is not rendered: the
    handler does nothing. *)
Lemma select_idea_idle (u : GuavaWriter.ui) (w : world GuavaWriter.session_state) :
  Py.truthy (GuavaWriter.transcript (GuavaWriter.ctx w))
  && negb (Py.truthy (GuavaWriter.selected_idea (GuavaWriter.ctx w))) = false ->
  GuavaWriter.select_idea u w = (Done tt, w).
Proof.
  intros Hguard. unfold GuavaWriter.select_idea, bind, get. cbv zeta.
  unfold GuavaWriter.ctx in Hguard. now rewrite Hguard.
Qed.

(** The selection handler by its tests, for any typed text. *)
Lemma select_idea_unfold (u : GuavaWriter.ui) (w : world GuavaWriter.session_state) :
  GuavaWriter.select_idea u w
  = if Py.truthy (GuavaWriter.transcript (GuavaWriter.ctx w))
       && negb (Py.truthy (GuavaWriter.selected_idea (GuavaWriter.ctx w)))
    then if Py.nonempty (GuavaWriter.idea_input u) && Py.isdigit (GuavaWriter.idea_input u)
         then match Py.int (GuavaWriter.idea_input u) with
              | None =>
                  (Halted (Raised (ValueError (Py.int_error (GuavaWriter.idea_input u)))), w)
              | Some n =>
                  if ((1 <=? n)%Z && (n <=? 3)%Z)%bool
                  then GuavaWriter.choose_idea (GuavaWriter.idea_input u) n w
                  else (Done tt, w)
              end
         else (Done tt, w)
    else (Done tt, w).
Proof.
  unfold GuavaWriter.select_idea, GuavaWriter.ctx, bind, get. cbv zeta.
  destruct (Py.truthy _ && negb _); cbn [when]; [|reflexivity].
  destruct (Py.nonempty _ && Py.isdigit _); cbn [when]; [|reflexivity].
  destruct (Py.int (GuavaWriter.idea_input u)) as [n|]; [|reflexivity].
  destruct ((1 <=? n)%Z && (n <=? 3)%Z)%bool; reflexivity.
Qed.

(** The handler with a typed integer [i], by the range of [i]. *)
Lemma select_idea_typed (u : GuavaWriter.ui) (w : world GuavaWriter.session_state) (i : Z) :
  Py.truthy (GuavaWriter.transcript (GuavaWriter.ctx w)) = true ->
  Py.truthy (GuavaWriter.selected_idea (GuavaWriter.ctx w)) = false ->
  GuavaWriter.idea_input u = Py.str i ->
  GuavaWriter.select_idea u w
  = if ((0 <=? i)%Z && (Py.max_str_digits <? Py.len (Py.str i)))%bool
    then (Halted (Raised (ValueError (Py.int_error (Py.str i)))), w)
    else if ((1 <=? i)%Z && (i <=? 3)%Z)%bool
         then GuavaWriter.choose_idea (Py.str i) i w
         else (Done tt, w).
Proof.
  intros Ht Hs Hinput. rewrite select_idea_unfold.
  rewrite Ht, Hs, Hinput. cbn [negb andb].
  rewrite nonempty_str, isdigit_str. cbn [andb].
  destruct (Z.leb_spec 0 i) as [Hnonneg|Hneg]; cbn [andb].
  - destruct (Nat.ltb_spec Py.max_str_digits (Py.len (Py.str i))) as [Hlong|Hshort].
    + now destruct (int_str_beyond i Hnonneg Hlong) as [-> _].
    + now rewrite int_str.
  - destruct (Z.leb_spec 1 i); [lia | reflexivity].
Qed.

End Selection.

(** C4, as the code has it. While a transcript is loaded and no idea is
    selected, typing the index [i] regenerates the ideas (at most three) and
    - for [1 <= i <= len(ideas)], selects the [i]-th of them and reruns;
    - for [len(ideas) < i <= 3], raises [IndexError] and leaves the selected
      idea as it was;
    - for [i < 1], and for [3 < i] written in at most 4300 digits, does
      nothing at all: no error is raised, no request is sent, the world is
      unchanged;
    - for [i] written in more than 4300 digits, [int] raises [ValueError]
      on the digit limit, which nothing catches, and the world is
      unchanged.
    So the selection succeeds exactly for [1 <= i <= len(ideas)], and the
    selected idea is unchanged whenever it does not. *)
Theorem select_idea_by_index `{Environment}
        (u : GuavaWriter.ui) (w : Run.world GuavaWriter.session_state) (i : Z) :
  Py.truthy (GuavaWriter.transcript (GuavaWriter.ctx w)) = true ->
  Py.truthy (GuavaWriter.selected_idea (GuavaWriter.ctx w)) = false ->
  GuavaWriter.idea_input u = Py.str i ->
  exists ideas,
    fst (GuavaWriter.generate_ideas (GuavaWriter.transcript (GuavaWriter.ctx w)) w)
    = Run.Done ideas
    /\ length ideas <= 3
    /\ let r := GuavaWriter.select_idea u w in
       ((1 <= i <= Z.of_nat (length ideas))%Z ->
        exists idea,
          nth_error ideas (Z.to_nat (i - 1)) = Some idea
          /\ fst r = Run.Halted Run.Rerun
          /\ GuavaWriter.selected_idea (GuavaWriter.ctx (snd r)) = Some idea)
       /\ ((Z.of_nat (length ideas) < i <= 3)%Z ->
           fst r = Run.Halted (Run.Raised (Run.IndexError "list index out of range"))
           /\ GuavaWriter.selected_idea (GuavaWriter.ctx (snd r))
              = GuavaWriter.selected_idea (GuavaWriter.ctx w))
       /\ ((i < 1)%Z \/ ((3 < i)%Z /\ Py.len (Py.str i) <= Py.max_str_digits) ->
           r = (Run.Done tt, w))
       /\ ((0 <= i)%Z -> Py.max_str_digits < Py.len (Py.str i) ->
           r = (Run.Halted
                  (Run.Raised
                     (Run.ValueError
                        ("Exceeds the limit (4300 digits) for integer string conversion: "
                         ++ "value has " ++ Py.str_nat (Py.len (Py.str i))
                         ++ " digits; use sys.set_int_max_str_digits() to increase the limit"))),
                w))
       /\ ((i < 1 \/ Z.of_nat (length ideas) < i)%Z ->
           GuavaWriter.selected_idea (GuavaWriter.ctx (snd r))
           = GuavaWriter.selected_idea (GuavaWriter.ctx w)).
Proof.
  intros Ht Hs Hinput.
  destruct (generate_ideas_done (GuavaWriter.transcript (GuavaWriter.ctx w)) w)
    as (ideas & w1 & Hgen & Hsession & Hthree).
  exists ideas. rewrite Hgen. split; [reflexivity|]. split; [exact Hthree|].
  cbv zeta. rewrite (select_idea_typed u w i Ht Hs Hinput).
  assert ((Z.of_nat (length ideas) < i <= 3)%Z ->
          (if ((0 <=? i)%Z && (Py.max_str_digits <? Py.len (Py.str i)))%bool
           then (Run.Halted (Run.Raised (Run.ValueError (Py.int_error (Py.str i)))), w)
           else if ((1 <=? i)%Z && (i <=? 3)%Z)%bool
                then GuavaWriter.choose_idea (Py.str i) i w
                else (Run.Done tt, w))
          = (Run.Halted (Run.Raised (Run.IndexError "list index out of range")), w1))
    as Hbeyond.
  { intros [Hlo Hhi].
    pose proof (small_index_within_limit i ltac:(lia)) as Hlimit.
    destruct (Nat.ltb_spec Py.max_str_digits (Py.len (Py.str i))); [lia|].
    rewrite andb_false_r.
    destruct (Z.leb_spec 1 i); [|lia]. destruct (Z.leb_spec i 3); [|lia]. cbn [andb].
    rewrite (choose_idea_run _ _ w w1 ideas Hgen).
    destruct (nth_error ideas (Z.to_nat (i - 1))) as [idea|] eqn:Hnth; [|reflexivity].
    assert (Z.to_nat (i - 1) < length ideas) by (apply nth_error_Some; congruence). lia. }
  assert ((i < 1)%Z \/ ((3 < i)%Z /\ Py.len (Py.str i) <= Py.max_str_digits) ->
          (if ((0 <=? i)%Z && (Py.max_str_digits <? Py.len (Py.str i)))%bool
           then (Run.Halted (Run.Raised (Run.ValueError (Py.int_error (Py.str i)))), w)
           else if ((1 <=? i)%Z && (i <=? 3)%Z)%bool
                then GuavaWriter.choose_idea (Py.str i) i w
                else (Run.Done tt, w))
          = (Run.Done tt, w)) as Houtside.
  { intros Hout.
    destruct (Z.leb_spec 0 i) as [Hnonneg|Hneg]; cbn [andb].
    - assert (Py.len (Py.str i) <= Py.max_str_digits) as Hlimit.
      { destruct Hout as [Hlow|[_ Hlimit]]; [|exact Hlimit].
        apply small_index_within_limit. lia. }
      destruct (Nat.ltb_spec Py.max_str_digits (Py.len (Py.str i))); [lia|].
      destruct (Z.leb_spec 1 i); destruct (Z.leb_spec i 3); cbn [andb];
        try reflexivity; lia.
    - destruct (Z.leb_spec 1 i); [lia | reflexivity]. }
  split; [|split; [|split; [|split]]].
  - intros [Hlo Hhi].
    pose proof (small_index_within_limit i ltac:(lia)) as Hlimit.
    destruct (Nat.ltb_spec Py.max_str_digits (Py.len (Py.str i))); [lia|].
    rewrite andb_false_r.
    destruct (Z.leb_spec 1 i); [|lia]. destruct (Z.leb_spec i 3); [|lia]. cbn [andb].
    rewrite (choose_idea_run _ _ w w1 ideas Hgen).
    destruct (nth_error ideas (Z.to_nat (i - 1))) as [idea|] eqn:Hnth.
    + exists idea. repeat split.
    + apply nth_error_None in Hnth. lia.
  - intros Hrange. rewrite (Hbeyond Hrange).
    split; [reflexivity|]. cbn [snd]. unfold GuavaWriter.ctx. now rewrite Hsession.
  - exact Houtside.
  - intros Hnonneg Hlong.
    destruct (Z.leb_spec 0 i); [|lia].
    destruct (Nat.ltb_spec Py.max_str_digits (Py.len (Py.str i))); [|lia].
    cbn [andb]. now destruct (int_str_beyond i Hnonneg Hlong) as [_ ->].
  - intros Hout.
    destruct (Z.leb_spec 0 i) as [Hnonneg|Hneg].
    + destruct (Nat.ltb_spec Py.max_str_digits (Py.len (Py.str i))) as [Hlong|Hshort];
        [reflexivity|].
      cbn [andb].
      destruct (Z_le_gt_dec i 3) as [Hsmall|Hlarge].
      * destruct (Z_lt_le_dec i 1) as [Hzero|Hpos].
        -- destruct (Z.leb_spec 1 i); [lia | reflexivity].
        -- rewrite andb_false_r in Hbeyond. rewrite Hbeyond by lia.
           cbn [snd]. unfold GuavaWriter.ctx. now rewrite Hsession.
      * destruct (Z.leb_spec i 3); [lia|]. now rewrite andb_false_r.
    + cbn [andb]. destruct (Z.leb_spec 1 i); [lia | reflexivity].
Qed.

Lemma select_idea_by_index_witness :
  exists ideas,
    fst (GuavaWriter.generate_ideas (H := answering four_ideas)
           (GuavaWriter.transcript (GuavaWriter.ctx ideated)) ideated)
    = Run.Done ideas
    /\ length ideas <= 3
    /\ exists idea,
        nth_error ideas 1 = Some idea
        /\ fst (GuavaWriter.select_idea (H := answering four_ideas) (type_idea "2") ideated)
           = Run.Halted Run.Rerun
        /\ GuavaWriter.selected_idea
             (GuavaWriter.ctx
                (snd (GuavaWriter.select_idea (H := answering four_ideas)
                        (type_idea "2") ideated)))
           = Some idea.
Proof.
  destruct (select_idea_by_index (H := answering four_ideas) (type_idea "2") ideated 2)
    as (ideas & Hgen & Hthree & Hin & _); try reflexivity.
  exists ideas. split; [exact Hgen|]. split; [exact Hthree|].
  apply Hin. vm_compute in Hgen. injection Hgen as <-. vm_compute. split; discriminate.
Defined.

(** C4 as stated fails outside 1..3: with three ideas at hand, the index 0
    and the index 4 raise nothing, the handler just returns. *)
Lemma out_of_range_index_raises_nothing :
  GuavaWriter.select_idea (H := answering four_ideas) (type_idea "0") ideated
  = (Run.Done tt, ideated)
  /\ GuavaWriter.select_idea (H := answering four_ideas) (type_idea "4") ideated
     = (Run.Done tt, ideated)
  /\ fst (GuavaWriter.generate_ideas (H := answering four_ideas)
            (GuavaWriter.transcript (GuavaWriter.ctx ideated)) ideated)
     = Run.Done ["A thing more detail"; "Second"; "Third"]
  /\ forall msg,
      fst (GuavaWriter.select_idea (H := answering four_ideas) (type_idea "0") ideated)
      <> Run.Halted (Run.Raised (Run.IndexError msg)).
Proof.
  split; [vm_compute; reflexivity|]. split; [vm_compute; reflexivity|].
  split; [vm_compute; reflexivity|]. intros msg. vm_compute. discriminate.
Qed.

(** Fewer ideas than the typed index: with no idea generated, the index 1
    raises [IndexError] out of the handler and selects nothing. *)
Example index_beyond_generated_ideas :
  GuavaWriter.select_idea (H := failing) (type_idea "1") ideated
  = (Run.Halted (Run.Raised (Run.IndexError "list index out of range")),
     Run.World (Run.session ideated) ["Error in idea generation: overloaded"]
               [Request "claude-3-sonnet-20240229" 1000 (7 # 10)
                        (GuavaWriter.ideas_prompt (H := failing)
                                                  (Some "valid transcript text"))]).
Proof. vm_compute. reflexivity. Qed.

(** A typed superscript two passes [isdigit] and fails in [int]: the
    [ValueError] leaves the handler, and nothing is selected. *)
Example superscript_digit_raises_value_error :
  let input := String (ascii_of_nat 178) EmptyString in
  GuavaWriter.select_idea (H := answering four_ideas) (type_idea input) ideated
  = (Run.Halted (Run.Raised (Run.ValueError
                   ("invalid literal for int() with base 10: '" ++ input ++ "'"))),
     ideated).
Proof. vm_compute. reflexivity. Qed.

(** An index of 4301 digits passes [isdigit] and fails in [int] on the
    digit limit, before the range test is reached. *)
Example long_index_raises_value_error :
  let input := string_of_list_ascii (repeat "1"%char 4301) in
  Py.isdigit input = true
  /\ GuavaWriter.select_idea (H := answering four_ideas) (type_idea input) ideated
     = (Run.Halted
          (Run.Raised
             (Run.ValueError
                ("Exceeds the limit (4300 digits) for integer string conversion: "
                 ++ "value has 4301 digits; "
                 ++ "use sys.set_int_max_str_digits() to increase the limit"))),
        ideated).
Proof. split; vm_compute; reflexivity. Qed.

(** ** The writer of a run *)

Section Writer.
Import Run.

(** Reading the sections either goes through and leaves the world as it
    is, or stops at a section without a second line. *)
Lemma read_sections_outcome {S} (sections : list string) (p : PersonaManager.persona)
      (w : world S) :
  (exists p', PersonaManager.read_sections sections p w = (Done p', w))
  \/ PersonaManager.read_sections sections p w
     = (Halted (Raised (IndexError "list index out of range")), w).
Proof.
  revert p. induction sections as [|section rest IH]; intros p.
  - left. now exists p.
  - cbn [PersonaManager.read_sections]. unfold bind at 1, PersonaManager.read_section.
    destruct (Py.startswith "Ideation" section).
    + unfold bind at 1, index.
      destruct (nth_error (Py.split1 (ascii_of_nat 10) section) 1); [apply IH | now right].
    + destruct (Py.startswith "Dialogue" section); [|apply IH].
      unfold bind at 1, index.
      destruct (nth_error (Py.split1 (ascii_of_nat 10) section) 1); [apply IH | now right].
Qed.

Lemma load_persona_text {S} content (w : world S) :
  PersonaManager.load_persona (Text content) w
  = match PersonaManager.read_sections (tl (PersonaManager.re_split content))
            (PersonaManager.Persona EmptyString EmptyString) w with
    | (Halted (Raised e), w') =>
        (Done default_persona,
         World (session w') (errors w' ++ [("Error loading persona: " ++ message e)%string])
               (calls w'))
    | r => r
    end.
Proof.
  unfold PersonaManager.load_persona, try_except, bind, ret, st_error.
  destruct (PersonaManager.read_sections _ _ w) as [[p|[e| |]] w']; reflexivity.
Qed.

(** The load never raises: it returns fragments and leaves the session
    and the request log, showing at most one message. *)
Lemma load_persona_outcome {S} (file : reply) (w : world S) :
  exists p w0,
    PersonaManager.load_persona file w = (Done p, w0)
    /\ session w0 = session w
    /\ calls w0 = calls w
    /\ (errors w0 = errors w \/ exists m, errors w0 = errors w ++ [m]).
Proof.
  destruct file as [content|m].
  - rewrite load_persona_text.
    destruct (read_sections_outcome
                (tl (PersonaManager.re_split content))
                (PersonaManager.Persona EmptyString EmptyString) w) as [(p & ->)| ->].
    + exists p, w. repeat split. now left.
    + do 2 eexists. split; [reflexivity|]. cbn [session calls errors].
      repeat split. right. eauto.
  - do 2 eexists. split; [reflexivity|]. cbn [session calls errors].
    repeat split. right. eauto.
Qed.

(** Reading the sections does not look at the world. *)
Lemma read_sections_pure {S} (sections : list string) (p : PersonaManager.persona)
      (w : world S) :
  PersonaManager.read_sections sections p w
  = (fst (PersonaManager.read_sections sections p (World tt [] [])), w).
Proof.
  revert p. induction sections as [|section rest IH]; intros p; [reflexivity|].
  cbn [PersonaManager.read_sections]. unfold bind at 1 2, PersonaManager.read_section.
  destruct (Py.startswith "Ideation" section).
  - unfold bind at 1 2, index.
    destruct (nth_error (Py.split1 (ascii_of_nat 10) section) 1); [apply IH | reflexivity].
  - destruct (Py.startswith "Dialogue" section); [|apply IH].
    unfold bind at 1 2, index.
    destruct (nth_error (Py.split1 (ascii_of_nat 10) section) 1); [apply IH | reflexivity].
Qed.

(** The load in any world: the fragments and the messages are those of
    the persona file. *)
Lemma load_persona_run {S} (file : reply) (w : world S) :
  PersonaManager.load_persona file w
  = (fst (PersonaManager.load_persona file (World tt [] [])),
     World (session w)
           (errors w ++ errors (snd (PersonaManager.load_persona file (World tt [] []))))
           (calls w)).
Proof.
  destruct w as [s errs sent]. destruct file as [content|m].
  - rewrite !load_persona_text.
    rewrite (read_sections_pure _ _ (World s errs sent)).
    rewrite (read_sections_pure _ _ (World tt [] [])).
    destruct (fst (PersonaManager.read_sections _ _ (World tt [] []))) as [p|[e| |]];
      cbn; now rewrite ?app_nil_r.
  - reflexivity.
Qed.

(** The constructor in any world: it returns the persona of the run,
    shows the messages of the persona file and writes nothing. *)
Lemma new_writer_run `{Environment} (w : world GuavaWriter.session_state) :
  GuavaWriter.new_writer w
  = (Done persona, World (session w) (errors w ++ persona_errors) (calls w)).
Proof.
  unfold GuavaWriter.new_writer, persona, persona_errors.
  rewrite load_persona_run.
  destruct (load_persona_outcome persona_file (World tt [] [])) as (p & w0 & -> & _).
  reflexivity.
Qed.

(** At most one message is shown for the persona file, and none when the
    file is there and each of its two sections has a body line. *)
Lemma persona_errors_short `{Environment} : length persona_errors <= 1.
Proof.
  unfold persona_errors.
  destruct (load_persona_outcome persona_file (World tt [] [])) as (p & w0 & -> & _ & _ & He).
  cbn [snd]. destruct He as [->|(m & ->)]; simpl; lia.
Qed.

Lemma new_writer_keeps `{Environment} {X} (f : GuavaWriter.session_state -> X) :
  keeps f GuavaWriter.new_writer.
Proof.
  intros w. unfold GuavaWriter.new_writer.
  destruct (load_persona_outcome persona_file w) as (p & w0 & -> & Hs & _).
  cbn [snd]. now rewrite Hs.
Qed.

(** A run of [main] is the three handlers, run in the world the
    constructor leaves. *)
Lemma main_unfold `{Environment} (u : GuavaWriter.ui) (w : world GuavaWriter.session_state) :
  GuavaWriter.main u w
  = bind (GuavaWriter.ideate u)
         (fun _ => bind (GuavaWriter.select_idea u) (fun _ => GuavaWriter.script_section u))
         (snd (GuavaWriter.new_writer w)).
Proof.
  unfold GuavaWriter.main. unfold bind at 1. unfold GuavaWriter.new_writer.
  destruct (load_persona_outcome persona_file w) as (p & w0 & -> & _). reflexivity.
Qed.

End Writer.

(** ** The selection is frozen *)

Section Frozen.
Context `{Environment}.
Import Run.

(** The selection handler writes the selected idea and the messages
    only. *)
Lemma select_idea_keeps {X} (f : GuavaWriter.context -> X) (u : GuavaWriter.ui) :
  (forall i c, f (GuavaWriter.MkContext (GuavaWriter.transcript c) i
                    (GuavaWriter.current_script c) (GuavaWriter.revision_history c))
               = f c) ->
  keeps (fun s => f (GuavaWriter.current_context s)) (GuavaWriter.select_idea u).
Proof.
  intros Hf. unfold GuavaWriter.select_idea, GuavaWriter.choose_idea. guava_unfold.
  apply keeps_bind; [auto with keeps | intros s]. cbv zeta.
  do 2 apply keeps_when. destruct (Py.int _) as [n|]; [|auto with keeps].
  apply keeps_when.
  apply keeps_bind; [auto with keeps | intros s'].
  apply keeps_bind; [apply generate_ideas_keeps | intros ideas].
  apply keeps_bind; [auto with keeps | intros selected].
  apply keeps_bind; [apply keeps_modify; intros s''; apply Hf | intros _].
  keeps_all.
Qed.

(** The script handler writes the script, the history and the messages
    only. *)
Lemma script_section_keeps {X} (f : GuavaWriter.context -> X) (u : GuavaWriter.ui) :
  (forall s h c, f (GuavaWriter.MkContext (GuavaWriter.transcript c)
                      (GuavaWriter.selected_idea c) s h)
                 = f c) ->
  keeps (fun s => f (GuavaWriter.current_context s)) (GuavaWriter.script_section u).
Proof.
  intros Hf. unfold GuavaWriter.script_section, GuavaWriter.generate_or_update,
               GuavaWriter.generate_script.
  guava_unfold.
  apply keeps_bind; [auto with keeps | intros s].
  do 2 apply keeps_when. apply keeps_try_except; [|intros e; auto with keeps].
  apply keeps_bind; [auto with keeps | intros s']. cbv zeta.
  apply keeps_bind;
    [apply keeps_when, keeps_modify; intros s''; apply Hf | intros _].
  apply keeps_bind; [auto with keeps | intros new_script].
  apply keeps_bind; [apply keeps_modify; intros s''; apply Hf | intros _].
  keeps_all.
Qed.

(** Without a selected idea the script handler is not rendered. *)
Lemma script_section_idle (u : GuavaWriter.ui) (w : world GuavaWriter.session_state) :
  Py.truthy (GuavaWriter.selected_idea (GuavaWriter.ctx w)) = false ->
  GuavaWriter.script_section u w = (Done tt, w).
Proof.
  intros Hs. unfold GuavaWriter.script_section, bind, get.
  unfold GuavaWriter.ctx in Hs. now rewrite Hs.
Qed.

(** What [main] leaves behind, by its three handlers. *)
Lemma main_stages (u : GuavaWriter.ui) (w : world GuavaWriter.session_state) :
  let w1 := snd (GuavaWriter.ideate u (snd (GuavaWriter.new_writer w))) in
  let w2 := snd (GuavaWriter.select_idea u w1) in
  let w3 := snd (GuavaWriter.script_section u w2) in
  snd (GuavaWriter.main u w) = w1
  \/ snd (GuavaWriter.main u w) = w2
  \/ snd (GuavaWriter.main u w) = w3.
Proof.
  cbv zeta. rewrite main_unfold. unfold bind.
  destruct (GuavaWriter.ideate u _) as [[[]|h] w1]; cbn [snd]; [|now left].
  destruct (GuavaWriter.select_idea u w1) as [[[]|h] w2]; cbn [snd]; [|now right; left].
  destruct (GuavaWriter.script_section u w2) as [[[]|h] w3]; cbn [snd]; now right; right.
Qed.

(** The guard of the selection input: once an idea is selected, no run of
    [main] changes it. *)
Lemma main_keeps_selected_idea (u : GuavaWriter.ui) (w : world GuavaWriter.session_state) :
  Py.truthy (GuavaWriter.selected_idea (GuavaWriter.ctx w)) = true ->
  GuavaWriter.selected_idea (GuavaWriter.ctx (snd (GuavaWriter.main u w)))
  = GuavaWriter.selected_idea (GuavaWriter.ctx w).
Proof.
  intros Hs.
  pose proof (new_writer_keeps (fun s => s) w) as H0. cbv beta in H0.
  set (w0 := snd (GuavaWriter.new_writer w)) in *.
  assert (GuavaWriter.ctx w0 = GuavaWriter.ctx w) as Hc0
      by (unfold GuavaWriter.ctx; now rewrite H0).
  rewrite <- Hc0 in Hs |- *.
  pose proof (ideate_keeps GuavaWriter.selected_idea u (fun _ _ => eq_refl) w0) as H1.
  cbv beta in H1. fold (GuavaWriter.ctx (snd (GuavaWriter.ideate u w0))) in H1.
  fold (GuavaWriter.ctx w0) in H1.
  set (w1 := snd (GuavaWriter.ideate u w0)) in *.
  assert (GuavaWriter.select_idea u w1 = (Done tt, w1)) as H2.
  { apply select_idea_idle. rewrite H1, Hs. apply andb_false_r. }
  pose proof (script_section_keeps GuavaWriter.selected_idea u (fun _ _ _ => eq_refl) w1)
    as H3.
  cbv beta in H3.
  destruct (main_stages u w) as [E|[E|E]]; cbv zeta in E; fold w0 in E; fold w1 in E;
    rewrite E.
  - exact H1.
  - rewrite H2. exact H1.
  - rewrite H2. cbn [snd]. unfold GuavaWriter.ctx at 1. rewrite H3. exact H1.
Qed.

(** In every reachable session a current script comes with a selected
    idea: only the script handler writes the script, and it is rendered
    under a selected idea. *)
Lemma script_needs_selected_idea (w : world GuavaWriter.session_state) :
  reachable w ->
  Py.truthy (GuavaWriter.current_script (GuavaWriter.ctx w)) = true ->
  Py.truthy (GuavaWriter.selected_idea (GuavaWriter.ctx w)) = true.
Proof.
  induction 1 as [|u w Hreach IH]; [discriminate|].
  destruct (Py.truthy (GuavaWriter.selected_idea (GuavaWriter.ctx w))) eqn:Hs.
  - intros _. now rewrite main_keeps_selected_idea.
  - destruct (Py.truthy (GuavaWriter.current_script (GuavaWriter.ctx w))) eqn:Hc;
      [now specialize (IH eq_refl)|]. clear IH.
    pose proof (new_writer_keeps (fun s => s) w) as H0. cbv beta in H0.
    set (w0 := snd (GuavaWriter.new_writer w)) in *.
    assert (GuavaWriter.ctx w0 = GuavaWriter.ctx w) as Hc0
        by (unfold GuavaWriter.ctx; now rewrite H0).
    rewrite <- Hc0 in Hs, Hc.
    pose proof (ideate_keeps GuavaWriter.current_script u (fun _ _ => eq_refl) w0) as H1.
    cbv beta in H1. fold (GuavaWriter.ctx (snd (GuavaWriter.ideate u w0))) in H1.
    fold (GuavaWriter.ctx w0) in H1.
    set (w1 := snd (GuavaWriter.ideate u w0)) in *.
    pose proof (select_idea_keeps GuavaWriter.current_script u (fun _ _ => eq_refl) w1)
      as H2.
    cbv beta in H2. fold (GuavaWriter.ctx (snd (GuavaWriter.select_idea u w1))) in H2.
    fold (GuavaWriter.ctx w1) in H2.
    set (w2 := snd (GuavaWriter.select_idea u w1)) in *.
    pose proof (script_section_keeps GuavaWriter.selected_idea u
                  (fun _ _ _ => eq_refl) w2) as H3.
    cbv beta in H3. fold (GuavaWriter.ctx (snd (GuavaWriter.script_section u w2))) in H3.
    fold (GuavaWriter.ctx w2) in H3.
    destruct (main_stages u w) as [E|[E|E]]; cbv zeta in E; fold w0 in E; fold w1 in E;
      fold w2 in E; rewrite E.
    + rewrite H1, Hc. discriminate.
    + rewrite H2, H1, Hc. discriminate.
    + destruct (Py.truthy (GuavaWriter.selected_idea (GuavaWriter.ctx w2))) eqn:Hs2.
      * intros _. now rewrite H3.
      * rewrite script_section_idle by exact Hs2. cbn [snd].
        rewrite H2, H1, Hc. discriminate.
Qed.

End Frozen.

Example scenario_scripted_context :
  GuavaWriter.ctx scenario_scripted
  = GuavaWriter.MkContext (Some "valid transcript text") (Some "Second") (Some "draft v1") [].
Proof. vm_compute. reflexivity. Qed.

(** The earlier application has no such guard: its radio is rendered
    whenever there are ideas, and moving it replaces the selected idea of a
    session that already has a script. *)
Example simplified_radio_changes_selection :
  let w := simplified_scripted (Some "draft v1") [] in
  SimplifiedApp.selected_idea (Run.session w) = Some "Y"
  /\ SimplifiedApp.selected_idea
       (Run.session (snd (SimplifiedApp.main (H := drafting) (pick_radio 1) w)))
     = Some "X".
Proof. cbv zeta. split; reflexivity. Qed.

(** ** A whole session *)

(** Ideate, choose idea 2, generate with no direction, then revise with
    "make it shorter": the second idea stays selected, the script is the
    second draft, and the history pairs the first draft with the feedback
    that replaced it. *)
Example session_end_to_end :
  GuavaWriter.ctx
    (snd (GuavaWriter.main (H := scenario) (click_generate "make it shorter")
            scenario_scripted))
  = GuavaWriter.MkContext (Some "valid transcript text") (Some "Second") (Some "draft v2")
                          [("draft v1", "make it shorter")].
Proof. vm_compute. reflexivity. Qed.

(** ** Stripped text *)

Lemma lstrip_head (s : string) :
  Py.lstrip s = EmptyString
  \/ exists c r, Py.lstrip s = String c r /\ Py.isspace c = false.
Proof.
  induction s as [|c r IH]; simpl; [now left|].
  destruct (Py.isspace c) eqn:Hc; [exact IH|].
  right. now exists c, r.
Qed.

Lemma rstrip_keeps_head (c : ascii) (r : string) :
  Py.isspace c = false -> exists t, Py.rstrip (String c r) = String c t.
Proof.
  intros Hc. simpl. destruct (Py.rstrip r); [rewrite Hc|]; eauto.
Qed.

Lemma rstrip_idempotent (s : string) : Py.rstrip (Py.rstrip s) = Py.rstrip s.
Proof.
  induction s as [|c r IH]; [reflexivity|]. simpl.
  destruct (Py.rstrip r) as [|d t] eqn:Hr.
  - destruct (Py.isspace c) eqn:Hc; [reflexivity|]. simpl. now rewrite Hc.
  - change (Py.rstrip (String c (String d t))) with
      (match Py.rstrip (String d t) with
       | EmptyString => if Py.isspace c then EmptyString else String c EmptyString
       | r' => String c r'
       end).
    now rewrite IH.
Qed.

(** [strip] gives the empty string or a text that starts and ends with a
    character that is no whitespace; stripping it again changes nothing. *)
Lemma strip_head (s : string) :
  Py.strip s = EmptyString
  \/ exists c r, Py.strip s = String c r /\ Py.isspace c = false.
Proof.
  unfold Py.strip. destruct (lstrip_head s) as [->|(c & r & -> & Hc)]; [now left|].
  right. destruct (rstrip_keeps_head c r Hc) as (t & ->). now exists c, t.
Qed.

Lemma strip_trimmed (s : string) : trimmed (Py.strip s).
Proof.
  unfold trimmed. destruct (strip_head s) as [->|(c & r & Hs & Hc)]; [reflexivity|].
  rewrite Hs. unfold Py.strip at 1. cbn [Py.lstrip]. rewrite Hc.
  rewrite <- Hs. unfold Py.strip. apply rstrip_idempotent.
Qed.

Lemma trimmed_head (s : string) :
  trimmed s -> s = EmptyString \/ exists c r, s = String c r /\ Py.isspace c = false.
Proof. intros Hs. unfold trimmed in Hs. rewrite <- Hs. apply strip_head. Qed.

Lemma trimmed_rstrip (s : string) : trimmed s -> Py.rstrip s = s.
Proof.
  intros Hs. unfold trimmed in Hs. rewrite <- Hs at 1. unfold Py.strip.
  rewrite rstrip_idempotent. exact Hs.
Qed.

Lemma rstrip_append (x b : string) :
  b <> EmptyString -> Py.rstrip b = b -> Py.rstrip (x ++ b) = (x ++ b)%string.
Proof.
  intros Hne Hb. induction x as [|c x IH]; [exact Hb|].
  cbn [String.append Py.rstrip]. rewrite IH.
  destruct (x ++ b)%string eqn:Hx; [|reflexivity].
  destruct x; [simpl in Hx; congruence | discriminate Hx].
Qed.

(** Two stripped non-empty texts joined by a space are stripped. *)
Lemma trimmed_join (a b : string) :
  trimmed a -> a <> EmptyString -> trimmed b -> b <> EmptyString ->
  trimmed (a ++ " " ++ b).
Proof.
  intros Ha Hane Hb Hbne. unfold trimmed, Py.strip.
  destruct (trimmed_head a Ha) as [->|(c & r & -> & Hc)]; [congruence|].
  assert (Py.lstrip (String c r ++ " " ++ b) = (String c r ++ " " ++ b)%string) as ->.
  { cbn [String.append Py.lstrip]. now rewrite Hc. }
  rewrite <- append_assoc.
  apply rstrip_append; [exact Hbne | now apply trimmed_rstrip].
Qed.

(** ** The ideas that come out of a response *)

Section IdeaLines.
Import Run.

Let good (idea : string) : Prop := idea <> EmptyString /\ trimmed idea.

Let good_state (st : list string * option string) : Prop :=
  Forall good (fst st) /\ forall c, snd st = Some c -> trimmed c.

Lemma idea_line_good st line : good_state st -> good_state (GuavaWriter.idea_line st line).
Proof.
  destruct st as [ideas current]. intros [Hideas Hcurrent]. unfold GuavaWriter.idea_line.
  destruct (Py.startswith "Idea" (Py.strip line) && Py.contains ":" line).
  - split; cbn [fst snd].
    + destruct (Py.truthy current) eqn:Ht; [|exact Hideas].
      apply truthy_Some in Ht. destruct Ht as (c & -> & Hc).
      apply Forall_app. split; [exact Hideas|]. constructor; [|constructor].
      split; [now apply nonempty_neq | now apply Hcurrent].
    + intros c [= <-]. apply strip_trimmed.
  - destruct (Py.truthy current && Py.nonempty (Py.strip line)) eqn:Hb;
      [|split; assumption].
    apply andb_true_iff in Hb. destruct Hb as [Ht Hl].
    apply truthy_Some in Ht. destruct Ht as (c & -> & Hc).
    split; cbn [fst snd]; [exact Hideas|]. intros c' [= <-]. cbn [Py.fmt].
    apply trimmed_join.
    + now apply Hcurrent.
    + now apply nonempty_neq.
    + apply strip_trimmed.
    + now apply nonempty_neq.
Qed.

Lemma idea_lines_good lines st :
  good_state st -> good_state (fold_left GuavaWriter.idea_line lines st).
Proof.
  revert st. induction lines as [|line lines IH]; intros st Hst; [exact Hst|].
  simpl. apply IH, idea_line_good, Hst.
Qed.

Lemma parse_ideas_good text : Forall good (GuavaWriter.parse_ideas text).
Proof.
  unfold GuavaWriter.parse_ideas.
  pose proof (idea_lines_good (Py.split (ascii_of_nat 10) text) ([], None)) as Hfold.
  destruct (fold_left _ _ _) as [ideas current].
  destruct Hfold as [Hideas Hcurrent]; [split; [constructor | discriminate]|].
  cbn [fst snd] in *. unfold Py.take.
  assert (Forall good (if Py.truthy current then ideas ++ [Py.fmt current] else ideas))
    as Hall.
  { destruct (Py.truthy current) eqn:Ht; [|exact Hideas].
    apply truthy_Some in Ht. destruct Ht as (c & -> & Hc).
    apply Forall_app. split; [exact Hideas|]. constructor; [|constructor].
    split; [now apply nonempty_neq | now apply Hcurrent]. }
  revert Hall. generalize (if Py.truthy current then ideas ++ [Py.fmt current] else ideas).
  intros l Hl. rewrite <- (firstn_skipn 3 l) in Hl. now apply Forall_app in Hl.
Qed.

Lemma idea_lines_without_marker lines :
  forallb (fun line => negb (is_marker line)) lines = true ->
  fold_left GuavaWriter.idea_line lines ([], None) = ([], None).
Proof.
  induction lines as [|line lines IH]; [reflexivity|].
  cbn [forallb]. intros Hb. apply andb_true_iff in Hb. destruct Hb as [Hline Hrest].
  cbn [fold_left]. unfold GuavaWriter.idea_line at 2. unfold is_marker in Hline.
  apply negb_true_iff in Hline. rewrite Hline. cbn [Py.truthy andb]. now apply IH.
Qed.

End IdeaLines.

(** X1. Whatever the response of the service, every idea that
    [parse_ideas] returns is non-empty and stripped: it neither starts nor
    ends with whitespace. A marker line with nothing after its colon starts
    no idea. *)
Theorem ideas_are_nonempty_and_stripped (text : string) :
  Forall (fun idea => idea <> EmptyString /\ trimmed idea) (GuavaWriter.parse_ideas text).
Proof. apply parse_ideas_good. Qed.

(** X2. A response none of whose lines is a marker line (the stripped line
    starts with "Idea" and the line has a colon) gives no idea at all,
    whatever else it says. *)
Theorem response_without_marker_gives_no_idea (text : string) :
  forallb (fun line => negb (is_marker line)) (Py.split (ascii_of_nat 10) text) = true ->
  GuavaWriter.parse_ideas text = [].
Proof.
  intros Hlines. unfold GuavaWriter.parse_ideas.
  now rewrite idea_lines_without_marker.
Qed.

Lemma response_without_marker_gives_no_idea_witness :
  GuavaWriter.parse_ideas
    (Py.unlines ["Here are three directions."; "1. A thing"; "2. Second idea follows"])
  = [].
Proof.
  apply response_without_marker_gives_no_idea. vm_compute. reflexivity.
Defined.

(** X3. [generate_ideas] never raises: a failure of the service is shown
    and turned into an empty list. It returns at most three ideas, leaves
    the session and sends at most one request. *)
Theorem generate_ideas_is_safe `{Environment}
        (transcript : option string) (w : Run.world GuavaWriter.session_state) :
  exists ideas w1,
    GuavaWriter.generate_ideas transcript w = (Run.Done ideas, w1)
    /\ length ideas <= 3
    /\ Run.session w1 = Run.session w
    /\ (Run.calls w1 = Run.calls w \/ exists req, Run.calls w1 = Run.calls w ++ [req])
    /\ (forall m req,
           service (length (Run.calls w)) req = Failure m ->
           Run.calls w1 = Run.calls w ++ [req] ->
           ideas = []
           /\ Run.errors w1 = Run.errors w ++ [("Error in idea generation: " ++ m)%string]).
Proof.
  rewrite generate_ideas_run.
  destruct (negb (Py.truthy transcript) || _).
  - do 2 eexists. split; [reflexivity|]. cbn [length Run.session Run.calls Run.errors].
    split; [lia|]. split; [reflexivity|]. split; [now left|].
    intros m req _ Hcalls. exfalso.
    apply (f_equal (@length _)) in Hcalls. rewrite length_app in Hcalls. simpl in Hcalls. lia.
  - cbv zeta. destruct service as [body|m0] eqn:Hs.
    + do 2 eexists. split; [reflexivity|]. cbn [Run.session Run.calls Run.errors].
      split; [apply parse_ideas_at_most_three|]. split; [reflexivity|].
      split; [right; eauto|].
      intros m req Hfail Hcalls. apply app_inv_head in Hcalls. injection Hcalls as <-.
      congruence.
    + do 2 eexists. split; [reflexivity|]. cbn [length Run.session Run.calls Run.errors].
      split; [lia|]. split; [reflexivity|]. split; [right; eauto|].
      intros m req Hfail Hcalls. apply app_inv_head in Hcalls. injection Hcalls as <-.
      rewrite Hs in Hfail. injection Hfail as <-. now split.
Qed.

(** ** What one run of GuavaWriter may do *)

Lemma appended_refl {X} (l : list X) : appended 0 l l.
Proof. exists []. now rewrite app_nil_r. Qed.

Lemma appended_trans {X} n1 n2 (l1 l2 l3 : list X) :
  appended n1 l1 l2 -> appended n2 l2 l3 -> appended (n1 + n2) l1 l3.
Proof.
  intros (a & -> & Ha) (b & -> & Hb). exists (a ++ b).
  rewrite app_assoc, length_app. split; [reflexivity | lia].
Qed.

Lemma appended_weaken {X} n m (l l' : list X) : n <= m -> appended n l l' -> appended m l l'.
Proof. intros Hnm (a & -> & Ha). exists a. split; [reflexivity | lia]. Qed.

Lemma appended_one {X} (l : list X) x : appended 1 l (l ++ [x]).
Proof. exists [x]. split; [reflexivity | simpl; lia]. Qed.

Lemma appended_of_eq {X} (l l' : list X) : l' = l -> appended 0 l l'.
Proof. intros ->. apply appended_refl. Qed.

Lemma within_refl w : within 0 0 0 0 w w.
Proof.
  repeat split; try apply appended_refl; [|now left].
  exists []. rewrite app_nil_r. repeat split; [simpl; lia | constructor].
Qed.

Lemma within_trans nm1 nh1 ne1 nc1 nm2 nh2 ne2 nc2 w1 w2 w3 :
  within nm1 nh1 ne1 nc1 w1 w2 -> within nm2 nh2 ne2 nc2 w2 w3 ->
  within (nm1 + nm2) (nh1 + nh2) (ne1 + ne2) (nc1 + nc2) w1 w3.
Proof.
  intros (Hm1 & (a1 & Ha1 & Hl1 & Hf1) & He1 & Hc1 & Hs1)
         (Hm2 & (a2 & Ha2 & Hl2 & Hf2) & He2 & Hc2 & Hs2).
  split; [eapply appended_trans; eassumption|].
  split.
  { exists (a1 ++ a2). rewrite Ha2, Ha1, app_assoc, length_app.
    repeat split; [lia | now apply Forall_app]. }
  split; [eapply appended_trans; eassumption|].
  split; [eapply appended_trans; eassumption|].
  destruct Hs2 as [Hs2|Hs2]; [rewrite Hs2; exact Hs1 | now right].
Qed.

Lemma within_weaken nm nh ne nc nm' nh' ne' nc' w w' :
  nm <= nm' -> nh <= nh' -> ne <= ne' -> nc <= nc' ->
  within nm nh ne nc w w' -> within nm' nh' ne' nc' w w'.
Proof.
  intros Hm Hh He Hc (H1 & (a & Ha & Hl & Hf) & H3 & H4 & H5).
  split; [eapply appended_weaken; eassumption|].
  split; [exists a; repeat split; [assumption | lia | assumption]|].
  split; [eapply appended_weaken; eassumption|].
  split; [eapply appended_weaken; eassumption | exact H5].
Qed.

Section OneRun.
Context `{Environment}.
Import Run.

(** What [generate_ideas] does to the world, and what it returns. *)
Lemma generate_ideas_effect transcript (w : world GuavaWriter.session_state) :
  exists ideas w1,
    GuavaWriter.generate_ideas transcript w = (Done ideas, w1)
    /\ session w1 = session w
    /\ appended 1 (errors w) (errors w1)
    /\ appended 1 (calls w) (calls w1)
    /\ Forall (fun idea => idea <> EmptyString /\ trimmed idea) ideas.
Proof.
  rewrite generate_ideas_run. destruct (negb _ || _).
  - do 2 eexists. split; [reflexivity|]. cbn [session errors calls].
    repeat split; [apply appended_one | apply appended_weaken with 0; [lia|];
                   apply appended_refl | constructor].
  - cbv zeta. destruct service as [body|m].
    + do 2 eexists. split; [reflexivity|]. cbn [session errors calls].
      repeat split; [apply appended_weaken with 0; [lia|]; apply appended_refl
                    | apply appended_one | apply parse_ideas_good].
    + do 2 eexists. split; [reflexivity|]. cbn [session errors calls].
      repeat split; [apply appended_one | apply appended_one | constructor].
Qed.

End OneRun.

Lemma no_entry {X} (P : X -> Prop) n (h : list X) :
  exists added, h = h ++ added /\ length added <= n /\ Forall P added.
Proof. exists []. rewrite app_nil_r. repeat split; [simpl; lia | constructor]. Qed.

Section Handlers.
Context `{Environment}.
Import Run.

(** The Ideate handler once the transcript is fetched: the transcript is
    stored, the ideas are asked for, and the run ends either way. *)
Lemma ideate_run (u : GuavaWriter.ui) msgs t i c h errs sent fetched ideas w1 :
  Py.nonempty (GuavaWriter.url u) && GuavaWriter.ideate_clicked u = true ->
  transcript_source (GuavaWriter.url u) = Text fetched ->
  GuavaWriter.generate_ideas (Some fetched)
    (World (GuavaWriter.SessionState msgs (GuavaWriter.MkContext (Some fetched) i c h))
           errs sent)
  = (Done ideas, w1) ->
  GuavaWriter.ideate u
    (World (GuavaWriter.SessionState msgs (GuavaWriter.MkContext t i c h)) errs sent)
  = if Py.nonnil ideas
    then (Halted Rerun,
          World (GuavaWriter.SessionState
                   (GuavaWriter.messages (session w1)
                    ++ [GuavaWriter.Message "assistant" (GuavaWriter.ideas_message ideas)])
                   (GuavaWriter.current_context (session w1)))
                (errors w1) (calls w1))
    else (Halted Return,
          World (session w1)
                (errors w1 ++ ["No ideas were generated. Please try again."])
                (calls w1)).
Proof.
  intros Hguard Hsource Hgen. unfold GuavaWriter.ideate. rewrite Hguard. cbn [when].
  unfold try_except, fetch_transcript. rewrite Hsource.
  unfold bind at 1. cbn [ret]. unfold bind at 1.
  unfold GuavaWriter.set_transcript, GuavaWriter.with_context.
  cbn [modify session errors calls GuavaWriter.messages GuavaWriter.current_context
       GuavaWriter.selected_idea GuavaWriter.current_script GuavaWriter.revision_history].
  unfold bind at 1. rewrite Hgen.
  destruct ideas as [|idea ideas]; cbn [Py.nonnil negb]; destruct w1 as [[m1 c1] e1 s1];
    reflexivity.
Qed.

Lemma ideate_fails (u : GuavaWriter.ui) (w : world GuavaWriter.session_state) m :
  Py.nonempty (GuavaWriter.url u) && GuavaWriter.ideate_clicked u = true ->
  transcript_source (GuavaWriter.url u) = Failure m ->
  GuavaWriter.ideate u w
  = (Done tt, World (session w) (errors w ++ [("Error: " ++ m)%string]) (calls w)).
Proof.
  intros Hguard Hsource. unfold GuavaWriter.ideate. rewrite Hguard. cbn [when].
  unfold try_except, fetch_transcript. rewrite Hsource. reflexivity.
Qed.

Lemma ideate_within (u : GuavaWriter.ui) (w : world GuavaWriter.session_state) :
  (fst (GuavaWriter.ideate u w) = Done tt
   /\ within 0 0 1 0 w (snd (GuavaWriter.ideate u w)))
  \/ ((exists h, fst (GuavaWriter.ideate u w) = Halted h)
      /\ within 1 0 2 1 w (snd (GuavaWriter.ideate u w))).
Proof.
  destruct (Py.nonempty (GuavaWriter.url u) && GuavaWriter.ideate_clicked u) eqn:Hguard.
  - destruct (transcript_source (GuavaWriter.url u)) as [fetched|m] eqn:Hsource.
    + right. destruct w as [[msgs [t i c h]] errs sent].
      destruct (generate_ideas_effect (Some fetched)
                  (World (GuavaWriter.SessionState msgs
                            (GuavaWriter.MkContext (Some fetched) i c h)) errs sent))
        as (ideas & w1 & Hgen & Hsession & Herrors & Hcalls & _).
      rewrite (ideate_run u msgs t i c h errs sent fetched ideas w1 Hguard Hsource Hgen).
      destruct w1 as [s1 e1 c1]. cbn [session errors calls] in *. subst s1.
      destruct (Py.nonnil ideas); cbn [fst snd]; (split; [eauto|]).
      * unfold within, GuavaWriter.ctx. cbn. split; [apply appended_one|].
        split; [apply no_entry|].
        split; [eapply appended_weaken; [|exact Herrors]; lia|].
        split; [exact Hcalls | now left].
      * unfold within, GuavaWriter.ctx. cbn.
        split; [apply appended_weaken with 0; [lia | apply appended_refl]|].
        split; [apply no_entry|].
        split; [apply (appended_trans 1 1 _ _ _ Herrors), appended_one|].
        split; [exact Hcalls | now left].
    + left. rewrite (ideate_fails u w m Hguard Hsource). cbn [fst snd].
      split; [reflexivity|]. unfold within, GuavaWriter.ctx. cbn.
      split; [apply appended_refl|].
      split; [apply no_entry|].
      split; [apply appended_one|]. split; [apply appended_refl | now left].
  - left. unfold GuavaWriter.ideate. rewrite Hguard. cbn [when ret fst snd].
    split; [reflexivity|].
    eapply within_weaken; [| | | |apply within_refl]; lia.
Qed.

Lemma choose_idea_within input n (w : world GuavaWriter.session_state) :
  (exists h, fst (GuavaWriter.choose_idea input n w) = Halted h)
  /\ within 2 0 1 1 w (snd (GuavaWriter.choose_idea input n w)).
Proof.
  destruct (generate_ideas_effect (GuavaWriter.transcript (GuavaWriter.ctx w)) w)
    as (ideas & w1 & Hgen & Hsession & Herrors & Hcalls & Hgood).
  rewrite (choose_idea_run input n w w1 ideas Hgen).
  destruct (nth_error ideas (Z.to_nat (n - 1))) as [selected|] eqn:Hnth; cbn [fst snd];
    (split; [eauto|]); unfold within, GuavaWriter.ctx; cbn; rewrite Hsession.
  - split; [eexists; split; [reflexivity | simpl; lia]|].
    split; [apply no_entry|].
    split; [exact Herrors|]. split; [exact Hcalls|].
    right. exists selected. split; [reflexivity|].
    apply nth_error_In in Hnth. rewrite Forall_forall in Hgood. now apply Hgood.
  - split; [apply appended_weaken with 0; [lia | apply appended_refl]|].
    split; [apply no_entry|].
    split; [exact Herrors|]. split; [exact Hcalls | now left].
Qed.

Lemma select_idea_within (u : GuavaWriter.ui) (w : world GuavaWriter.session_state) :
  GuavaWriter.select_idea u w = (Done tt, w)
  \/ ((exists h, fst (GuavaWriter.select_idea u w) = Halted h)
      /\ within 2 0 1 1 w (snd (GuavaWriter.select_idea u w))).
Proof.
  rewrite select_idea_unfold.
  destruct (Py.truthy _ && negb _); [|now left].
  destruct (Py.nonempty _ && Py.isdigit _); [|now left].
  destruct (Py.int (GuavaWriter.idea_input u)) as [n|].
  - destruct ((1 <=? n)%Z && (n <=? 3)%Z)%bool; [|now left].
    right. apply choose_idea_within.
  - right. cbn [fst snd]. split; [eauto|].
    eapply within_weaken; [| | | |apply within_refl]; lia.
Qed.

Lemma script_section_within (u : GuavaWriter.ui) (w : world GuavaWriter.session_state) :
  within 1 1 1 1 w (snd (GuavaWriter.script_section u w)).
Proof.
  destruct (Py.truthy (GuavaWriter.selected_idea (GuavaWriter.ctx w))) eqn:Hsel;
    [|rewrite script_section_idle by exact Hsel;
      eapply within_weaken; [| | | |apply within_refl]; lia].
  unfold GuavaWriter.script_section, bind, get.
  unfold GuavaWriter.ctx in Hsel. rewrite Hsel. cbn [when].
  destruct (GuavaWriter.generate_clicked u); cbn [when ret snd];
    [|eapply within_weaken; [| | | |apply within_refl]; lia].
  unfold try_except. rewrite generate_or_update_run. cbv zeta.
  assert (forall (h : list (string * string)) (current : option string) direction,
             exists added,
               (if Py.truthy current then h ++ [(Py.fmt current, direction)] else h)
               = h ++ added
               /\ length added <= 1
               /\ Forall (fun entry => fst entry <> EmptyString) added) as Hentry.
  { intros h current direction. destruct (Py.truthy current) eqn:Ht.
    - apply truthy_Some in Ht. destruct Ht as (c & -> & Hc).
      exists [(c, direction)]. repeat split; [simpl; lia|].
      constructor; [now apply nonempty_neq | constructor].
    - exists []. rewrite app_nil_r. repeat split; [simpl; lia | constructor]. }
  destruct service as [new_script|m]; cbn [st_error bind fst snd];
    unfold within, GuavaWriter.ctx; cbn.
  - split; [apply appended_one|]. split; [apply Hentry|].
    split; [apply appended_weaken with 0; [lia | apply appended_refl]|].
    split; [apply appended_one | now left].
  - split; [apply appended_weaken with 0; [lia | apply appended_refl]|].
    split; [apply Hentry|]. split; [apply appended_one|].
    split; [apply appended_one | now left].
Qed.

(** The three handlers in a row, whatever the widget values and the
    answers. *)
Lemma handlers_within (u : GuavaWriter.ui) (w : world GuavaWriter.session_state) :
  within 2 1 2 1 w
    (snd (bind (GuavaWriter.ideate u)
               (fun _ => bind (GuavaWriter.select_idea u)
                              (fun _ => GuavaWriter.script_section u)) w)).
Proof.
  unfold bind at 1.
  destruct (ideate_within u w) as [[Hdone Hw1]|[[h Hhalt] Hw1]];
    destruct (GuavaWriter.ideate u w) as [[[]|h1] w1]; cbn [fst snd] in *;
    try discriminate;
    [|eapply within_weaken; [| | | |exact Hw1]; lia].
  unfold bind at 1.
  destruct (select_idea_within u w1) as [Hsame|[[h Hhalt] Hw2]].
  - rewrite Hsame.
    pose proof (within_trans _ _ _ _ _ _ _ _ _ _ _ Hw1 (script_section_within u w1)) as Hall.
    eapply within_weaken; [| | | |exact Hall]; simpl; lia.
  - destruct (GuavaWriter.select_idea u w1) as [[[]|h2] w2]; cbn [fst snd] in *;
      try discriminate.
    pose proof (within_trans _ _ _ _ _ _ _ _ _ _ _ Hw1 Hw2) as Hall.
    eapply within_weaken; [| | | |exact Hall]; simpl; lia.
Qed.

(** The constructor shows at most one message and writes nothing. *)
Lemma new_writer_within (w : world GuavaWriter.session_state) :
  within 0 0 1 0 w (snd (GuavaWriter.new_writer w)).
Proof.
  unfold GuavaWriter.new_writer.
  destruct (load_persona_outcome persona_file w) as (p & w0 & -> & Hs & Hc & He).
  cbn [snd]. unfold within, GuavaWriter.ctx. rewrite Hs, Hc.
  split; [apply appended_refl|]. split; [apply no_entry|].
  split; [|split; [apply appended_refl | now left]].
  destruct He as [->|(m & ->)]; [|apply appended_one].
  apply appended_weaken with 0; [lia | apply appended_refl].
Qed.

(** One run of [main], whatever the widget values and the answers. *)
Lemma main_within (u : GuavaWriter.ui) (w : world GuavaWriter.session_state) :
  within 2 1 3 1 w (snd (GuavaWriter.main u w)).
Proof.
  rewrite main_unfold.
  pose proof (within_trans _ _ _ _ _ _ _ _ _ _ _ (new_writer_within w)
                (handlers_within u (snd (GuavaWriter.new_writer w)))) as Hall.
  eapply within_weaken; [| | | |exact Hall]; simpl; lia.
Qed.

End Handlers.

(** ** The Ideate button *)

Lemma ideas_message_loop (l : list (nat * string)) (acc : string) :
  fold_left
    (fun (response : string) '(i, idea) =>
       (response ++ Py.str_nat i ++ ". " ++ idea ++ Py.nl)%string) l acc
  = (acc ++ String.concat EmptyString (map (fun '(i, idea) => idea_entry i idea) l))%string.
Proof.
  revert acc. induction l as [|[i idea] l IH]; intros acc.
  - simpl. now rewrite append_empty_r.
  - rewrite map_cons, concat_empty_cons. simpl fold_left. rewrite IH.
    unfold idea_entry. now rewrite append_assoc.
Qed.

(** X4. The assistant's message after Ideate is the opening sentence, one
    line per idea and the closing question; the line at position [k]
    (from 0) is the [k]-th idea under the number [k + 1]. *)
Theorem ideas_message_lists_every_idea (ideas : list string) :
  exists entries,
    GuavaWriter.ideas_message ideas
    = ("I've been thinking about this piece, and I see three possibilities for a 60-second exploration:"
       ++ Py.nl ++ Py.nl ++ String.concat EmptyString entries
       ++ Py.nl ++ "Which direction speaks to you?")%string
    /\ length entries = length ideas
    /\ forall k, nth_error entries k = option_map (idea_entry (S k)) (nth_error ideas k).
Proof.
  exists (map (fun '(i, idea) => idea_entry i idea) (Py.enumerate 1 ideas)).
  split; [|split].
  - unfold GuavaWriter.ideas_message. rewrite ideas_message_loop.
    now rewrite !append_assoc.
  - rewrite length_map. generalize 1. induction ideas; intros; simpl; auto.
  - intros k. rewrite nth_error_map, enumerate_nth.
    now destruct (nth_error ideas k).
Qed.

(** X5. When the transcript cannot be fetched, the Ideate handler shows
    "Error: " with the message and nothing else happens: the session and
    the request log are as before, and the run goes on to the other
    handlers. *)
Theorem ideate_fetch_failure_changes_nothing `{Environment}
        (u : GuavaWriter.ui) (w : Run.world GuavaWriter.session_state) (m : string) :
  Py.nonempty (GuavaWriter.url u) = true ->
  GuavaWriter.ideate_clicked u = true ->
  transcript_source (GuavaWriter.url u) = Failure m ->
  GuavaWriter.ideate u w
  = (Run.Done tt,
     Run.World (Run.session w) (Run.errors w ++ [("Error: " ++ m)%string]) (Run.calls w)).
Proof.
  intros Hurl Hclick Hsource. apply ideate_fails; [|exact Hsource].
  now rewrite Hurl, Hclick.
Qed.

Lemma ideate_fetch_failure_changes_nothing_witness :
  GuavaWriter.ideate (H := unavailable) click_ideate (scripted (Some "draft v1") [])
  = (Run.Done tt,
     Run.World (Run.session (scripted (Some "draft v1") []))
               ["Error: Subtitles are disabled for this video"] []).
Proof.
  apply (ideate_fetch_failure_changes_nothing (H := unavailable) click_ideate
           (scripted (Some "draft v1") []) "Subtitles are disabled for this video");
    reflexivity.
Defined.

(** X6. A run of [main] starts with the constructor, which shows the
    messages of the persona file and writes nothing. When Ideate is then
    clicked and the transcript is fetched, the run ends in the Ideate
    handler: it stops with a rerun when ideas came back and with a return
    when none did, so the selection and script handlers never run in it. It
    stores the transcript, keeps the rest of the context, and sends no
    request beyond that of [generate_ideas]. *)
Theorem ideate_ends_the_run `{Environment}
        (u : GuavaWriter.ui) (w : Run.world GuavaWriter.session_state) (fetched : string) :
  Py.nonempty (GuavaWriter.url u) = true ->
  GuavaWriter.ideate_clicked u = true ->
  transcript_source (GuavaWriter.url u) = Text fetched ->
  let w0 := Run.World (Run.session w) (Run.errors w ++ persona_errors) (Run.calls w) in
  exists ideas w1,
    GuavaWriter.generate_ideas (Some fetched)
      (snd (GuavaWriter.set_transcript (Some fetched) w0))
    = (Run.Done ideas, w1)
    /\ GuavaWriter.main u w = GuavaWriter.ideate u w0
    /\ GuavaWriter.ctx (snd (GuavaWriter.main u w))
       = GuavaWriter.MkContext (Some fetched)
           (GuavaWriter.selected_idea (GuavaWriter.ctx w))
           (GuavaWriter.current_script (GuavaWriter.ctx w))
           (GuavaWriter.revision_history (GuavaWriter.ctx w))
    /\ Run.calls (snd (GuavaWriter.main u w)) = Run.calls w1
    /\ if Py.nonnil ideas
       then fst (GuavaWriter.main u w) = Run.Halted Run.Rerun
            /\ GuavaWriter.messages (Run.session (snd (GuavaWriter.main u w)))
               = GuavaWriter.messages (Run.session w)
                 ++ [GuavaWriter.Message "assistant" (GuavaWriter.ideas_message ideas)]
            /\ Run.errors (snd (GuavaWriter.main u w)) = Run.errors w1
       else fst (GuavaWriter.main u w) = Run.Halted Run.Return
            /\ GuavaWriter.messages (Run.session (snd (GuavaWriter.main u w)))
               = GuavaWriter.messages (Run.session w)
            /\ Run.errors (snd (GuavaWriter.main u w))
               = Run.errors w1 ++ ["No ideas were generated. Please try again."].
Proof.
  intros Hurl Hclick Hsource.
  assert (Py.nonempty (GuavaWriter.url u) && GuavaWriter.ideate_clicked u = true) as Hguard
      by now rewrite Hurl, Hclick.
  destruct w as [[msgs [t i c h]] errs sent]. cbn [Run.session Run.errors Run.calls].
  cbv zeta.
  destruct (generate_ideas_effect (Some fetched)
              (Run.World (GuavaWriter.SessionState msgs
                            (GuavaWriter.MkContext (Some fetched) i c h))
                         (errs ++ persona_errors) sent))
    as (ideas & w1 & Hgen & Hsession & _).
  exists ideas, w1. split; [exact Hgen|].
  pose proof (ideate_run u msgs t i c h (errs ++ persona_errors) sent fetched ideas w1
                Hguard Hsource Hgen) as Hrun.
  assert (GuavaWriter.main u
            (Run.World (GuavaWriter.SessionState msgs (GuavaWriter.MkContext t i c h))
                       errs sent)
          = GuavaWriter.ideate u
              (Run.World (GuavaWriter.SessionState msgs (GuavaWriter.MkContext t i c h))
                         (errs ++ persona_errors) sent)) as Hmain.
  { rewrite main_unfold, new_writer_run. cbn [snd Run.session Run.errors Run.calls].
    unfold Run.bind at 1. rewrite Hrun.
    now destruct (Py.nonnil ideas). }
  split; [exact Hmain|]. rewrite Hmain, Hrun.
  destruct w1 as [s1 e1 c1]. cbn [Run.session] in Hsession. subst s1.
  destruct (Py.nonnil ideas); cbn; repeat split.
Qed.

Lemma ideate_ends_the_run_witness :
  exists ideas w1,
    GuavaWriter.generate_ideas (H := answering four_ideas) (Some "valid transcript text")
      (snd (GuavaWriter.set_transcript (Some "valid transcript text")
              (scripted (Some "draft v1") [])))
    = (Run.Done ideas, w1)
    /\ GuavaWriter.main (H := answering four_ideas) click_ideate
         (scripted (Some "draft v1") [])
       = GuavaWriter.ideate (H := answering four_ideas) click_ideate
           (scripted (Some "draft v1") []).
Proof.
  destruct (ideate_ends_the_run (H := answering four_ideas) click_ideate
              (scripted (Some "draft v1") []) "valid transcript text")
    as (ideas & w1 & Hgen & Hmain & _); try reflexivity.
  exists ideas, w1. split; [exact Hgen | exact Hmain].
Defined.

(** X7. A fetched transcript whose stripped length is below 10 is stored
    in the session all the same; after the messages of the persona file the
    run shows the two messages of the rejection, sends no request and
    returns. *)
Theorem short_transcript_is_stored_anyway `{Environment}
        (u : GuavaWriter.ui) (w : Run.world GuavaWriter.session_state) (fetched : string) :
  Py.nonempty (GuavaWriter.url u) = true ->
  GuavaWriter.ideate_clicked u = true ->
  transcript_source (GuavaWriter.url u) = Text fetched ->
  Py.len (Py.strip fetched) < 10 ->
  GuavaWriter.main u w
  = (Run.Halted Run.Return,
     Run.World
       (GuavaWriter.SessionState
          (GuavaWriter.messages (Run.session w))
          (GuavaWriter.MkContext (Some fetched)
             (GuavaWriter.selected_idea (GuavaWriter.ctx w))
             (GuavaWriter.current_script (GuavaWriter.ctx w))
             (GuavaWriter.revision_history (GuavaWriter.ctx w))))
       (Run.errors w ++ persona_errors
        ++ ["Transcript is too short or empty";
            "No ideas were generated. Please try again."])
       (Run.calls w)).
Proof.
  intros Hurl Hclick Hsource Hshort.
  assert (Py.nonempty (GuavaWriter.url u) && GuavaWriter.ideate_clicked u = true) as Hguard
      by now rewrite Hurl, Hclick.
  destruct w as [[msgs [t i c h]] errs sent].
  assert (GuavaWriter.generate_ideas (Some fetched)
            (Run.World (GuavaWriter.SessionState msgs
                          (GuavaWriter.MkContext (Some fetched) i c h))
                       (errs ++ persona_errors) sent)
          = (Run.Done [],
             Run.World (GuavaWriter.SessionState msgs
                          (GuavaWriter.MkContext (Some fetched) i c h))
                       ((errs ++ persona_errors) ++ ["Transcript is too short or empty"])
                       sent)) as Hgen.
  { rewrite generate_ideas_run. cbn [Py.fmt].
    destruct (Nat.ltb_spec (Py.len (Py.strip fetched)) 10) as [_|Hge]; [|lia].
    now rewrite orb_true_r. }
  pose proof (ideate_run u msgs t i c h _ sent fetched [] _ Hguard Hsource Hgen) as Hrun.
  rewrite main_unfold, new_writer_run. cbn [snd Run.session Run.errors Run.calls].
  unfold Run.bind at 1. rewrite Hrun.
  cbn. now rewrite <- !app_assoc.
Qed.

Lemma short_transcript_is_stored_anyway_witness :
  GuavaWriter.main (H := too_short) click_ideate GuavaWriter.initial
  = (Run.Halted Run.Return,
     Run.World
       (GuavaWriter.SessionState [] (GuavaWriter.MkContext (Some "hi") None None []))
       ["Error loading persona: [Errno 2] No such file or directory: 'persona.md'";
        "Transcript is too short or empty";
        "No ideas were generated. Please try again."]
       []).
Proof.
  apply (short_transcript_is_stored_anyway (H := too_short) click_ideate
           GuavaWriter.initial "hi"); try reflexivity.
  vm_compute. lia.
Defined.

(** ** Runs and reachable sessions of GuavaWriter *)

(** X8. One run of [main], whatever the widget values and whatever the
    collaborators answer, only appends: at most two chat messages, at most
    one history entry (and its script is non-empty), the messages of the
    persona file (at most one) followed by at most two more shown errors,
    and at most one request to the service. Nothing that was there is
    removed or changed. *)
Theorem one_run_appends_little `{Environment}
        (u : GuavaWriter.ui) (w : Run.world GuavaWriter.session_state) :
  let w' := snd (GuavaWriter.main u w) in
  (exists added,
      GuavaWriter.messages (Run.session w') = GuavaWriter.messages (Run.session w) ++ added
      /\ length added <= 2)
  /\ (exists added,
         GuavaWriter.revision_history (GuavaWriter.ctx w')
         = GuavaWriter.revision_history (GuavaWriter.ctx w) ++ added
         /\ length added <= 1
         /\ Forall (fun entry => fst entry <> EmptyString) added)
  /\ (exists added,
         Run.errors w' = Run.errors w ++ persona_errors ++ added /\ length added <= 2)
  /\ length persona_errors <= 1
  /\ (exists added, Run.calls w' = Run.calls w ++ added /\ length added <= 1).
Proof.
  cbv zeta. rewrite main_unfold, new_writer_run. cbn [snd].
  destruct (handlers_within u
              (Run.World (Run.session w) (Run.errors w ++ persona_errors) (Run.calls w)))
    as (Hm & Hh & (added & He & Hlen) & Hc & _).
  cbn [Run.session Run.errors Run.calls] in *.
  split; [exact Hm|]. split; [exact Hh|].
  split; [exists added; split; [now rewrite He, <- app_assoc | exact Hlen]|].
  split; [apply persona_errors_short | exact Hc].
Qed.

(** X9. In every session GuavaWriter can reach: every history entry has a
    non-empty script; the selected idea, when there is one, is non-empty
    and stripped; and a current script comes with a selected idea. *)
Theorem reachable_session_invariants `{Environment}
        (w : Run.world GuavaWriter.session_state) :
  reachable w ->
  Forall (fun entry => fst entry <> EmptyString)
         (GuavaWriter.revision_history (GuavaWriter.ctx w))
  /\ (forall idea,
         GuavaWriter.selected_idea (GuavaWriter.ctx w) = Some idea ->
         idea <> EmptyString /\ trimmed idea)
  /\ (Py.truthy (GuavaWriter.current_script (GuavaWriter.ctx w)) = true ->
      Py.truthy (GuavaWriter.selected_idea (GuavaWriter.ctx w)) = true).
Proof.
  intros Hreach. split; [|split].
  - induction Hreach as [|u w Hreach IH]; [constructor|].
    destruct (main_within u w) as (_ & (added & -> & _ & Hadded) & _).
    now apply Forall_app.
  - induction Hreach as [|u w Hreach IH]; [discriminate|].
    destruct (main_within u w) as (_ & _ & _ & _ & [Hsame|(idea' & Hnew & Hgood)]).
    + rewrite Hsame. exact IH.
    + intros idea. rewrite Hnew. intros [= <-]. exact Hgood.
  - now apply script_needs_selected_idea.
Qed.

Lemma reachable_session_invariants_witness :
  let w := snd (GuavaWriter.main (H := scenario) (click_generate "make it shorter")
                  scenario_scripted) in
  Forall (fun entry => fst entry <> EmptyString)
         (GuavaWriter.revision_history (GuavaWriter.ctx w))
  /\ (forall idea,
         GuavaWriter.selected_idea (GuavaWriter.ctx w) = Some idea ->
         idea <> EmptyString /\ trimmed idea)
  /\ (Py.truthy (GuavaWriter.current_script (GuavaWriter.ctx w)) = true ->
      Py.truthy (GuavaWriter.selected_idea (GuavaWriter.ctx w)) = true).
Proof.
  cbv zeta. apply (reachable_session_invariants (H := scenario)).
  unfold scenario_scripted. do 4 apply reachable_run. apply reachable_initial.
Defined.

(** X10. Each handler writes its own part of the context only: the
    selection input never touches the transcript, the current script or
    the history; the script section never touches the transcript or the
    selected idea. This holds however the handler ends. *)
Theorem handlers_write_their_own_fields `{Environment}
        (u : GuavaWriter.ui) (w : Run.world GuavaWriter.session_state) :
  (let c' := GuavaWriter.ctx (snd (GuavaWriter.select_idea u w)) in
   GuavaWriter.transcript c' = GuavaWriter.transcript (GuavaWriter.ctx w)
   /\ GuavaWriter.current_script c' = GuavaWriter.current_script (GuavaWriter.ctx w)
   /\ GuavaWriter.revision_history c' = GuavaWriter.revision_history (GuavaWriter.ctx w))
  /\ (let c' := GuavaWriter.ctx (snd (GuavaWriter.script_section u w)) in
      GuavaWriter.transcript c' = GuavaWriter.transcript (GuavaWriter.ctx w)
      /\ GuavaWriter.selected_idea c' = GuavaWriter.selected_idea (GuavaWriter.ctx w)).
Proof.
  cbv zeta. unfold GuavaWriter.ctx. repeat apply conj.
  - now apply (select_idea_keeps GuavaWriter.transcript).
  - now apply (select_idea_keeps GuavaWriter.current_script).
  - now apply (select_idea_keeps GuavaWriter.revision_history).
  - now apply (script_section_keeps GuavaWriter.transcript).
  - now apply (script_section_keeps GuavaWriter.selected_idea).
Qed.

(** ** More on the serialized history *)

(** X11. Extending a history extends its serialization: the text for
    [h1 ++ h2] is the text for [h1] followed by the blocks of [h2],
    numbered on from [length h1 + 1]. Earlier blocks are never renumbered
    or rewritten. *)
Theorem format_history_of_extension (h1 h2 : list (string * string)) :
  format_history (h1 ++ h2)
  = (format_history h1
     ++ String.concat EmptyString (blocks_from (S (length h1)) h2))%string.
Proof.
  rewrite !format_history_blocks. unfold blocks_from.
  now rewrite enumerate_app, map_app, concat_empty_app.
Qed.

(** X12. The serialization is empty only for the empty history: any entry,
    even one with an empty script and empty feedback, leaves text. *)
Theorem format_history_empty_iff (h : list (string * string)) :
  format_history h = EmptyString <-> h = [].
Proof.
  split; [|now intros ->].
  destruct h as [|[script feedback] h]; [reflexivity|].
  rewrite format_history_blocks. unfold blocks_from. cbn [Py.enumerate map].
  rewrite concat_empty_cons. unfold version_block, Py.nl. cbn [String.append].
  discriminate.
Qed.

(** ** The earlier application *)

Lemma in_take {X} n (l : list X) x : In x (Py.take n l) -> In x l.
Proof.
  intros Hin. rewrite <- (firstn_skipn n l). apply in_or_app. now left.
Qed.

(** X13. [generate_ideas] of the earlier application keeps, in order, the
    first three lines that start with "Idea:", each without the marker and
    stripped; all other lines are ignored. So an idea is stripped, and it
    is the empty string when nothing follows the marker. *)
Theorem simplified_ideas_are_marker_lines (text : string) :
  SimplifiedApp.parse_ideas text
  = Py.take 3 (map (fun line => Py.strip (Py.drop 5 line))
                   (filter (Py.startswith "Idea:") (Py.split (ascii_of_nat 10) text)))
  /\ Forall trimmed (SimplifiedApp.parse_ideas text).
Proof.
  assert (SimplifiedApp.parse_ideas text
          = Py.take 3 (map (fun line => Py.strip (Py.drop 5 line))
                           (filter (Py.startswith "Idea:")
                                   (Py.split (ascii_of_nat 10) text)))) as Heq.
  { unfold SimplifiedApp.parse_ideas. now rewrite simplified_parse_loop. }
  split; [exact Heq|]. rewrite Heq.
  apply Forall_forall. intros idea Hin. apply in_take in Hin.
  apply in_map_iff in Hin. destruct Hin as (line & <- & _). apply strip_trimmed.
Qed.

Example simplified_empty_idea : SimplifiedApp.parse_ideas "Idea:" = [EmptyString].
Proof. reflexivity. Qed.

(** X14. Whenever ideas are stored, the radio handler overwrites the
    selected idea with the radio's value, whatever was selected before:
    the blank first option or one of the ideas. The test on a non-empty
    selection changes nothing, so leaving the radio blank clears the
    selection. *)
Theorem radio_overwrites_selection
        (u : SimplifiedApp.ui) (w : Run.world SimplifiedApp.session_state)
        (first : string) (others : list string) :
  SimplifiedApp.ideas (Run.session w) = Some (first :: others) ->
  let selected := nth (SimplifiedApp.radio u) (EmptyString :: first :: others) EmptyString in
  SimplifiedApp.choose_idea u w
  = (Run.Done tt,
     Run.World
       (SimplifiedApp.SessionState
          (SimplifiedApp.transcript (Run.session w))
          (SimplifiedApp.ideas (Run.session w))
          (Some selected)
          (SimplifiedApp.current_script (Run.session w))
          (SimplifiedApp.revision_history (Run.session w)))
       (Run.errors w) (Run.calls w))
  /\ (selected = EmptyString \/ In selected (first :: others))
  /\ (SimplifiedApp.radio u = 0 -> selected = EmptyString).
Proof.
  intros Hideas selected. split; [|split].
  - unfold SimplifiedApp.choose_idea, Run.bind at 1, Run.get. rewrite Hideas.
    fold selected. destruct w as [[t l i c h] errs sent]. cbn in Hideas. subst l.
    unfold SimplifiedApp.set_selected_idea.
    destruct (Py.nonempty selected); reflexivity.
  - subst selected.
    destruct (nth_in_or_default (SimplifiedApp.radio u) (EmptyString :: first :: others)
                                EmptyString) as [Hin|Hdefault]; [|now left].
    destruct Hin as [Hblank|Hin]; [left; now rewrite <- Hblank | now right].
  - intros Hzero. subst selected. now rewrite Hzero.
Qed.

Lemma radio_overwrites_selection_witness :
  SimplifiedApp.choose_idea (pick_radio 0) (simplified_scripted (Some "draft v1") [])
  = (Run.Done tt,
     Run.World
       (SimplifiedApp.SessionState (Some "first transcript text") (Some ["X"; "Y"; "Z"])
                                   (Some EmptyString) (Some "draft v1") [])
       [] []).
Proof.
  apply (radio_overwrites_selection (pick_radio 0)
           (simplified_scripted (Some "draft v1") []) "X" ["Y"; "Z"]).
  reflexivity.
Defined.

(** X15. With an idea selected, Crack On always asks for a first draft,
    also when the session already has a script, and stores the answer as
    the current script: the history is left as it is, so a script replaced
    this way is not recorded. A failure of the service leaves the handler
    as an exception, with the session unchanged. *)
Theorem crack_on_replaces_the_script_unrecorded `{Environment}
        (u : SimplifiedApp.ui) (w : Run.world SimplifiedApp.session_state) :
  Py.truthy (SimplifiedApp.selected_idea (Run.session w)) = true ->
  SimplifiedApp.crack_on_clicked u = true ->
  let s := Run.session w in
  let req := Request "claude-3-opus-20240229" 1000 (7 # 10)
               (SimplifiedApp.draft_prompt (SimplifiedApp.transcript s)
                  (SimplifiedApp.selected_idea s) (SimplifiedApp.direction u)) in
  SimplifiedApp.crack_on u w
  = match service (length (Run.calls w)) req with
    | Text script =>
        (Run.Done tt,
         Run.World
           (SimplifiedApp.SessionState
              (SimplifiedApp.transcript s) (SimplifiedApp.ideas s)
              (SimplifiedApp.selected_idea s) (Some script)
              (SimplifiedApp.revision_history s))
           (Run.errors w) (Run.calls w ++ [req]))
    | Failure m =>
        (Run.Halted (Run.Raised (Run.UpstreamError m)),
         Run.World s (Run.errors w) (Run.calls w ++ [req]))
    end.
Proof.
  intros Hsel Hclick. cbv zeta.
  unfold SimplifiedApp.crack_on, Run.bind at 1, Run.get. rewrite Hsel, Hclick.
  cbn [Run.when]. unfold Run.bind at 1.
  pose proof (simplified_generate_script_sends
                (SimplifiedApp.transcript (Run.session w))
                (SimplifiedApp.selected_idea (Run.session w))
                (SimplifiedApp.direction u) None w) as Hsends.
  unfold sends_at in Hsends. rewrite Hsends.
  unfold simplified_script_request. cbn [Py.truthy andb].
  destruct service; reflexivity.
Qed.

Lemma crack_on_replaces_the_script_unrecorded_witness :
  SimplifiedApp.crack_on (H := answering "another draft") (click_crack_on "bolder")
    (simplified_scripted (Some "draft v1") [])
  = (Run.Done tt,
     Run.World
       (SimplifiedApp.SessionState (Some "first transcript text") (Some ["X"; "Y"; "Z"])
                                   (Some "Y") (Some "another draft") [])
       []
       [Request "claude-3-opus-20240229" 1000 (7 # 10)
                (SimplifiedApp.draft_prompt (Some "first transcript text") (Some "Y")
                                            "bolder")]).
Proof.
  apply (crack_on_replaces_the_script_unrecorded (H := answering "another draft")
           (click_crack_on "bolder") (simplified_scripted (Some "draft v1") []));
    reflexivity.
Defined.

(** X16. The Ideate handler of the earlier application stores the fetched
    transcript before it asks for ideas. If that request fails, the error
    is shown and the session keeps the new transcript together with the
    ideas of the previous one; if the transcript cannot be fetched, nothing
    changes; if ideas come back, they replace the stored ones and the
    script reruns. *)
Theorem simplified_ideate_outcomes `{Environment}
        (u : SimplifiedApp.ui) (w : Run.world SimplifiedApp.session_state) :
  Py.nonempty (SimplifiedApp.url u) = true ->
  SimplifiedApp.ideate_clicked u = true ->
  let s := Run.session w in
  SimplifiedApp.ideate u w
  = match transcript_source (SimplifiedApp.url u) with
    | Failure m =>
        (Run.Done tt, Run.World s (Run.errors w ++ [("Error: " ++ m)%string]) (Run.calls w))
    | Text fetched =>
        let req := Request "claude-3-sonnet-20240229" 500 (7 # 10)
                           (SimplifiedApp.ideas_prompt (Some fetched)) in
        match service (length (Run.calls w)) req with
        | Failure m =>
            (Run.Done tt,
             Run.World
               (SimplifiedApp.SessionState (Some fetched) (SimplifiedApp.ideas s)
                  (SimplifiedApp.selected_idea s) (SimplifiedApp.current_script s)
                  (SimplifiedApp.revision_history s))
               (Run.errors w ++ [("Error: " ++ m)%string]) (Run.calls w ++ [req]))
        | Text body =>
            (Run.Halted Run.Rerun,
             Run.World
               (SimplifiedApp.SessionState (Some fetched)
                  (Some (SimplifiedApp.parse_ideas body))
                  (SimplifiedApp.selected_idea s) (SimplifiedApp.current_script s)
                  (SimplifiedApp.revision_history s))
               (Run.errors w) (Run.calls w ++ [req]))
        end
    end.
Proof.
  intros Hurl Hclick. cbv zeta. unfold SimplifiedApp.ideate. rewrite Hurl, Hclick.
  cbn [andb Run.when]. unfold Run.try_except, Run.fetch_transcript.
  destruct (transcript_source (SimplifiedApp.url u)) as [fetched|m]; [|reflexivity].
  unfold Run.bind at 1. cbn [Run.ret]. unfold Run.bind at 1.
  unfold SimplifiedApp.set_transcript. cbn [Run.modify].
  unfold Run.bind at 1, SimplifiedApp.generate_ideas, Run.bind at 1, Run.messages_create.
  cbn [Run.calls Run.session Run.errors].
  destruct service as [body|m]; reflexivity.
Qed.

Lemma simplified_ideate_outcomes_witness :
  SimplifiedApp.ideate (H := failing) simplified_click_ideate
    (simplified_scripted None [])
  = (Run.Done tt,
     Run.World
       (SimplifiedApp.SessionState (Some "valid transcript text") (Some ["X"; "Y"; "Z"])
                                   (Some "Y") None [])
       ["Error: overloaded"]
       [Request "claude-3-sonnet-20240229" 500 (7 # 10)
                (SimplifiedApp.ideas_prompt (Some "valid transcript text"))]).
Proof.
  apply (simplified_ideate_outcomes (H := failing) simplified_click_ideate
           (simplified_scripted None [])); reflexivity.
Defined.

(** X17. The revision request of Update Script is built after the entry
    for the current script was appended, so with non-empty script and
    feedback it states them twice: as the last VERSION block of the
    history, numbered after the entries already there, and again under
    CURRENT SCRIPT and NEW FEEDBACK. The blocks of the earlier entries come
    first. *)
Theorem update_request_repeats_the_current_script `{Environment}
        (new_direction script : string) (w : Run.world SimplifiedApp.session_state) :
  SimplifiedApp.current_script (Run.session w) = Some script ->
  script <> EmptyString ->
  new_direction <> EmptyString ->
  let history := SimplifiedApp.revision_history (Run.session w) in
  exists req,
    Run.calls (snd (SimplifiedApp.update_script new_direction w)) = Run.calls w ++ [req]
    /\ prompt req
       = SimplifiedApp.revision_prompt
           (format_history history
            ++ version_block (S (length history)) script new_direction)
           (Some script) new_direction.
Proof.
  intros Hscript Hs Hd history.
  eexists. rewrite update_script_run. cbv zeta. split.
  - destruct service; reflexivity.
  - unfold simplified_script_request. cbn [prompt]. rewrite Hscript. cbn [Py.truthy Py.fmt].
    apply nonempty_neq in Hs, Hd. rewrite Hs, Hd. cbn [andb].
    rewrite format_history_snoc.
    destruct (SimplifiedApp.revision_history (Run.session w)); reflexivity.
Qed.

Lemma update_request_repeats_the_current_script_witness :
  exists req,
    Run.calls (snd (SimplifiedApp.update_script (H := drafting) "make it shorter"
                      (simplified_scripted (Some "draft v1") [])))
    = [req]
    /\ prompt req
       = SimplifiedApp.revision_prompt
           (version_block 1 "draft v1" "make it shorter")
           (Some "draft v1") "make it shorter".
Proof.
  apply (update_request_repeats_the_current_script (H := drafting) "make it shorter"
           "draft v1" (simplified_scripted (Some "draft v1") []));
    [reflexivity | discriminate | discriminate].
Defined.

Section SimplifiedRuns.
Context `{Environment}.
Import Run.

Lemma simplified_generate_script_keeps {X} (f : SimplifiedApp.session_state -> X)
      transcript idea direction current :
  keeps f (SimplifiedApp.generate_script transcript idea direction current).
Proof. unfold SimplifiedApp.generate_script. keeps_all. Qed.

Lemma simplified_choose_idea_keeps {X} (f : SimplifiedApp.session_state -> X)
      (u : SimplifiedApp.ui) :
  (forall i s, f (SimplifiedApp.SessionState (SimplifiedApp.transcript s)
                    (SimplifiedApp.ideas s) i (SimplifiedApp.current_script s)
                    (SimplifiedApp.revision_history s))
               = f s) ->
  keeps f (SimplifiedApp.choose_idea u).
Proof.
  intros Hf. unfold SimplifiedApp.choose_idea. simplified_unfold.
  apply keeps_bind; [auto with keeps | intros s].
  destruct (SimplifiedApp.ideas s) as [[|i l]|]; try apply keeps_ret.
  cbv zeta. apply keeps_bind; [|intros _].
  - apply keeps_when, keeps_modify. intros s'. apply Hf.
  - apply keeps_modify. intros s'. apply Hf.
Qed.

Lemma simplified_crack_on_keeps {X} (f : SimplifiedApp.session_state -> X)
      (u : SimplifiedApp.ui) :
  (forall c s, f (SimplifiedApp.SessionState (SimplifiedApp.transcript s)
                    (SimplifiedApp.ideas s) (SimplifiedApp.selected_idea s) c
                    (SimplifiedApp.revision_history s))
               = f s) ->
  keeps f (SimplifiedApp.crack_on u).
Proof.
  intros Hf. unfold SimplifiedApp.crack_on. simplified_unfold.
  apply keeps_bind; [auto with keeps | intros s].
  do 2 apply keeps_when.
  apply keeps_bind; [apply simplified_generate_script_keeps | intros script].
  apply keeps_modify. intros s'. apply Hf.
Qed.

(** The revision section appends one entry, for a non-empty script, when
    its button is clicked, and none otherwise. *)
Lemma iterate_history (u : SimplifiedApp.ui) (w : world SimplifiedApp.session_state) :
  history_grows 1 w (snd (SimplifiedApp.iterate u w)).
Proof.
  unfold SimplifiedApp.iterate, bind at 1, get.
  destruct (Py.truthy (SimplifiedApp.current_script (session w))) eqn:Hc; cbn [when];
    [|apply no_entry].
  destruct (SimplifiedApp.update_clicked u); cbn [when]; [|apply no_entry].
  rewrite update_script_run. cbv zeta.
  apply truthy_Some in Hc. destruct Hc as (script & Hscript & Hne).
  exists [(script, SimplifiedApp.new_direction u)].
  rewrite Hscript. cbn [Py.fmt].
  split; [destruct service; reflexivity|]. split; [simpl; lia|].
  constructor; [now apply nonempty_neq | constructor].
Qed.

Lemma simplified_main_stages (u : SimplifiedApp.ui) (w : world SimplifiedApp.session_state) :
  let w1 := snd (SimplifiedApp.ideate u w) in
  let w2 := snd (SimplifiedApp.choose_idea u w1) in
  let w3 := snd (SimplifiedApp.crack_on u w2) in
  let w4 := snd (SimplifiedApp.iterate u w3) in
  snd (SimplifiedApp.main u w) = w1 \/ snd (SimplifiedApp.main u w) = w2
  \/ snd (SimplifiedApp.main u w) = w3 \/ snd (SimplifiedApp.main u w) = w4.
Proof.
  cbv zeta. unfold SimplifiedApp.main, bind.
  destruct (SimplifiedApp.ideate u w) as [[[]|h] w1]; cbn [snd]; [|now left].
  destruct (SimplifiedApp.choose_idea u w1) as [[[]|h] w2]; cbn [snd]; [|now right; left].
  destruct (SimplifiedApp.crack_on u w2) as [[[]|h] w3]; cbn [snd];
    [|now right; right; left].
  destruct (SimplifiedApp.iterate u w3) as [[[]|h] w4]; cbn [snd]; now right; right; right.
Qed.

Lemma simplified_main_history (u : SimplifiedApp.ui) (w : world SimplifiedApp.session_state) :
  history_grows 1 w (snd (SimplifiedApp.main u w)).
Proof.
  pose proof (simplified_ideate_keeps SimplifiedApp.revision_history u
                (fun _ _ _ => eq_refl) w) as H1.
  set (w1 := snd (SimplifiedApp.ideate u w)) in *.
  pose proof (simplified_choose_idea_keeps SimplifiedApp.revision_history u
                (fun _ _ => eq_refl) w1) as H2.
  set (w2 := snd (SimplifiedApp.choose_idea u w1)) in *.
  pose proof (simplified_crack_on_keeps SimplifiedApp.revision_history u
                (fun _ _ => eq_refl) w2) as H3.
  set (w3 := snd (SimplifiedApp.crack_on u w2)) in *.
  pose proof (iterate_history u w3) as H4.
  unfold history_grows in *.
  destruct (simplified_main_stages u w) as [E|[E|[E|E]]]; cbv zeta in E;
    fold w1 in E; fold w2 in E; fold w3 in E; rewrite E.
  - rewrite H1. apply no_entry.
  - rewrite H2, H1. apply no_entry.
  - rewrite H3, H2, H1. apply no_entry.
  - rewrite <- H1, <- H2, <- H3. exact H4.
Qed.

End SimplifiedRuns.

(** ** The selection in both applications *)

Section Selections.
Context `{Environment}.
Import Run.

Lemma simplified_iterate_keeps_selection (u : SimplifiedApp.ui) :
  keeps SimplifiedApp.selected_idea (SimplifiedApp.iterate u).
Proof.
  unfold SimplifiedApp.iterate, SimplifiedApp.update_script. simplified_unfold.
  apply keeps_bind; [auto with keeps | intros s].
  do 2 apply keeps_when.
  apply keeps_bind; [auto with keeps | intros s'].
  apply keeps_bind; [apply keeps_modify; now intros | intros _].
  apply keeps_bind; [apply simplified_generate_script_keeps | intros revised].
  apply keeps_bind; [apply keeps_modify; now intros | intros _].
  auto with keeps.
Qed.

(** A run in which Ideate is not triggered and the radio is on one of
    the stored ideas ends with that idea selected. *)
Lemma simplified_main_selects (u : SimplifiedApp.ui) (w : world SimplifiedApp.session_state)
      (first : string) (others : list string) :
  SimplifiedApp.ideas (session w) = Some (first :: others) ->
  Py.nonempty (SimplifiedApp.url u) && SimplifiedApp.ideate_clicked u = false ->
  SimplifiedApp.selected_idea (session (snd (SimplifiedApp.main u w)))
  = Some (nth (SimplifiedApp.radio u) (EmptyString :: first :: others) EmptyString).
Proof.
  intros Hideas Hguard.
  set (selected := nth (SimplifiedApp.radio u) (EmptyString :: first :: others) EmptyString).
  assert (SimplifiedApp.ideate u w = (Done tt, w)) as Hideate.
  { unfold SimplifiedApp.ideate. now rewrite Hguard. }
  assert (exists w2,
             SimplifiedApp.choose_idea u w = (Done tt, w2)
             /\ SimplifiedApp.selected_idea (session w2) = Some selected)
    as (w2 & Hchoose & Hchosen).
  { unfold SimplifiedApp.choose_idea, bind at 1, get. rewrite Hideas. cbv zeta.
    fold selected. destruct w as [[t l i c h] errs sent].
    unfold SimplifiedApp.set_selected_idea.
    destruct (Py.nonempty selected); eexists; split; reflexivity. }
  pose proof (simplified_crack_on_keeps SimplifiedApp.selected_idea u
                (fun _ _ => eq_refl) w2) as Hcrack.
  pose proof (simplified_iterate_keeps_selection u (snd (SimplifiedApp.crack_on u w2)))
    as Hiterate.
  unfold SimplifiedApp.main. unfold bind at 1. rewrite Hideate.
  unfold bind at 1. rewrite Hchoose. unfold bind at 1.
  destruct (SimplifiedApp.crack_on u w2) as [[[]|h] w3]; cbn [snd] in *.
  - now rewrite Hiterate, Hcrack.
  - now rewrite Hcrack.
Qed.

End Selections.

(** C9, as the code has it. In every session GuavaWriter can reach, once
    there is a current script the selected idea is frozen: no run of
    [main], whatever the widget values and whatever the collaborators
    answer, changes it. The earlier application freezes nothing: whenever
    ideas are stored, a run in which the radio is on one of them (and
    Ideate is not triggered) ends with that idea selected, whether or not
    the session has a script. *)
Theorem selection_frozen_once_scripted `{Environment}
        (w : Run.world GuavaWriter.session_state) (u : GuavaWriter.ui)
        (w' : Run.world SimplifiedApp.session_state) (u' : SimplifiedApp.ui)
        (first : string) (others : list string) :
  (reachable w ->
   Py.truthy (GuavaWriter.current_script (GuavaWriter.ctx w)) = true ->
   GuavaWriter.selected_idea (GuavaWriter.ctx (snd (GuavaWriter.main u w)))
   = GuavaWriter.selected_idea (GuavaWriter.ctx w))
  /\ (SimplifiedApp.ideas (Run.session w') = Some (first :: others) ->
      Py.nonempty (SimplifiedApp.url u') && SimplifiedApp.ideate_clicked u' = false ->
      let selected :=
        nth (SimplifiedApp.radio u') (EmptyString :: first :: others) EmptyString in
      Py.nonempty selected = true ->
      SimplifiedApp.selected_idea (Run.session (snd (SimplifiedApp.main u' w')))
      = Some selected).
Proof.
  split.
  - intros Hreach Hscript.
    apply main_keeps_selected_idea, script_needs_selected_idea; assumption.
  - intros Hideas Hguard selected _. now apply simplified_main_selects.
Qed.

Lemma selection_frozen_once_scripted_witness :
  GuavaWriter.selected_idea
    (GuavaWriter.ctx (snd (GuavaWriter.main (H := scenario) (type_idea "1")
                             scenario_scripted)))
  = GuavaWriter.selected_idea (GuavaWriter.ctx scenario_scripted)
  /\ SimplifiedApp.selected_idea
       (Run.session (snd (SimplifiedApp.main (H := scenario) (pick_radio 3)
                            (simplified_scripted (Some "draft v1") []))))
     = Some "Z".
Proof.
  destruct (selection_frozen_once_scripted (H := scenario) scenario_scripted (type_idea "1")
              (simplified_scripted (Some "draft v1") []) (pick_radio 3) "X" ["Y"; "Z"])
    as [Hfrozen Hradio].
  split.
  - apply Hfrozen.
    + unfold scenario_scripted. do 3 apply reachable_run. apply reachable_initial.
    + vm_compute. reflexivity.
  - apply Hradio; reflexivity.
Defined.

(** C9 as stated fails on the earlier application, whose radio handler
    the claim also cites. After Ideate, Crack On with the second idea and
    one revision, the session has the script "draft v2" and the idea
    "Second" selected; a run with the radio moved to the first idea, and
    nothing else touched, selects "A thing". No transcript was loaded in
    between. *)
Lemma simplified_selection_changes_after_script :
  simplified_reachable (H := simplified_scenario) simplified_scenario_revised
  /\ SimplifiedApp.current_script (Run.session simplified_scenario_revised)
     = Some "draft v2"
  /\ SimplifiedApp.selected_idea (Run.session simplified_scenario_revised)
     = Some "Second"
  /\ SimplifiedApp.selected_idea
       (Run.session (snd (SimplifiedApp.main (H := simplified_scenario) (pick_radio 1)
                            simplified_scenario_revised)))
     = Some "A thing"
  /\ SimplifiedApp.transcript
       (Run.session (snd (SimplifiedApp.main (H := simplified_scenario) (pick_radio 1)
                            simplified_scenario_revised)))
     = SimplifiedApp.transcript (Run.session simplified_scenario_revised).
Proof.
  split; [|repeat split; vm_compute; reflexivity].
  unfold simplified_scenario_revised.
  do 3 apply simplified_reachable_run. apply simplified_reachable_initial.
Qed.

(** ** The history of the earlier application *)

(** X18. One run of the earlier application, whatever the widget values
    and the answers, leaves the history as it was or appends one entry to
    it, whose script is non-empty; entries are never removed or changed.
    Only Update Script appends. *)
Theorem simplified_history_only_grows `{Environment}
        (u : SimplifiedApp.ui) (w : Run.world SimplifiedApp.session_state) :
  exists added,
    SimplifiedApp.revision_history (Run.session (snd (SimplifiedApp.main u w)))
    = SimplifiedApp.revision_history (Run.session w) ++ added
    /\ length added <= 1
    /\ Forall (fun entry => fst entry <> EmptyString) added.
Proof. apply simplified_main_history. Qed.

(** X19. In every session the earlier application can reach, every
    history entry has a non-empty script. *)
Theorem simplified_history_scripts_nonempty `{Environment}
        (w : Run.world SimplifiedApp.session_state) :
  simplified_reachable w ->
  Forall (fun entry => fst entry <> EmptyString)
         (SimplifiedApp.revision_history (Run.session w)).
Proof.
  induction 1 as [|u w Hreach IH]; [constructor|].
  destruct (simplified_main_history u w) as (added & -> & _ & Hadded).
  now apply Forall_app.
Qed.

Lemma simplified_history_scripts_nonempty_witness :
  Forall (fun entry => fst entry <> EmptyString)
         (SimplifiedApp.revision_history (Run.session simplified_scenario_revised)).
Proof.
  apply (simplified_history_scripts_nonempty (H := simplified_scenario)).
  unfold simplified_scenario_revised.
  do 3 apply simplified_reachable_run. apply simplified_reachable_initial.
Defined.

Example simplified_scenario_revised_session :
  Run.session simplified_scenario_revised
  = SimplifiedApp.SessionState
      (Some "valid transcript text")
      (Some ["A thing"; "Second"; "Third"])
      (Some "Second") (Some "draft v2") [("draft v1", "make it shorter")].
Proof. vm_compute. reflexivity. Qed.

(** ** The persona file *)

Section Persona.
Import Run.

(** [x] put in front of the piece under construction. *)
Let prepend (x : string) (l : list string) : list string :=
  match l with
  | h :: t => (x ++ h)%string :: t
  | [] => [x]
  end.

Lemma cons_head_prepend c x l :
  PersonaManager.cons_head c (prepend x l) = prepend (String c x) l.
Proof. now destruct l. Qed.

Lemma pieces_nonempty bol skip s : PersonaManager.pieces bol skip s <> [].
Proof.
  revert bol skip. induction s as [|c r IH]; intros bol skip; cbn [PersonaManager.pieces];
    [discriminate|].
  destruct (skip && Py.isspace c); [apply IH|].
  destruct (bol && PersonaManager.is_header (String c r)).
  - destruct r; discriminate.
  - specialize (IH (Ascii.eqb c (ascii_of_nat 10)) false).
    destruct (PersonaManager.pieces _ _ r); [congruence | discriminate].
Qed.

Lemma is_header_starts s :
  PersonaManager.is_header s = true -> Py.startswith "##" s = true.
Proof.
  destruct s as [|a [|b [|c r]]]; try discriminate. cbn [PersonaManager.is_header].
  intros Hh. apply andb_true_iff in Hh. destruct Hh as [Hab _].
  apply andb_true_iff in Hab. destruct Hab as [Ha Hb].
  apply Ascii.eqb_eq in Ha, Hb. subst. reflexivity.
Qed.

(** A header needs its whitespace: two hashes before the newline that ends
    [x] are a header of [x ++ "\n" ++ y] only if [x] starts with them. *)
Lemma is_header_before_newline c r y :
  PersonaManager.is_header (String c (r ++ Py.nl ++ y)) = true ->
  Py.startswith "##" (String c r) = true.
Proof.
  destruct r as [|b r].
  - cbn [String.append Py.nl]. destruct y as [|d y]; cbn [PersonaManager.is_header];
      [discriminate|].
    change (Ascii.eqb (ascii_of_nat 10) "#") with false.
    rewrite andb_false_r. discriminate.
  - intros Hh.
    assert (Ascii.eqb c "#" && Ascii.eqb b "#" = true) as Hab.
    { cbn [String.append] in Hh.
      destruct (r ++ Py.nl ++ y)%string; cbn [PersonaManager.is_header] in Hh;
        [discriminate|].
      apply andb_true_iff in Hh. now destruct Hh. }
    apply andb_true_iff in Hab. destruct Hab as [Ha Hb].
    apply Ascii.eqb_eq in Ha, Hb. subst. apply prefix_split. now exists r.
Qed.

(** Text without a header line is one piece. *)
Lemma pieces_plain bol x :
  plain bol x = true -> PersonaManager.pieces bol false x = [x].
Proof.
  revert bol. induction x as [|c r IH]; intros bol Hplain; [reflexivity|].
  cbn [plain] in Hplain. apply andb_true_iff in Hplain. destruct Hplain as [Hhead Hrest].
  cbn [PersonaManager.pieces andb].
  assert (bol && PersonaManager.is_header (String c r) = false) as ->.
  { destruct bol; [|reflexivity]. cbn [andb] in *.
    destruct (PersonaManager.is_header (String c r)) eqn:Hh; [|reflexivity].
    apply is_header_starts in Hh. now rewrite Hh in Hhead. }
  now rewrite (IH _ Hrest).
Qed.

(** Text without a header line, once its last line is ended, goes whole
    into the piece under construction. *)
Lemma pieces_plain_line bol x y :
  plain bol x = true ->
  PersonaManager.pieces bol false (x ++ Py.nl ++ y)
  = prepend (x ++ Py.nl) (PersonaManager.pieces true false y).
Proof.
  revert bol. induction x as [|c r IH]; intros bol Hplain.
  - cbn [String.append Py.nl PersonaManager.pieces andb].
    assert (bol && PersonaManager.is_header (String (ascii_of_nat 10) y) = false) as ->.
    { destruct bol; [|reflexivity]. now destruct y as [|a [|b y]]. }
    change (Ascii.eqb (ascii_of_nat 10) (ascii_of_nat 10)) with true.
    pose proof (pieces_nonempty true false y) as Hne.
    destruct (PersonaManager.pieces true false y); [congruence | reflexivity].
  - cbn [plain] in Hplain. apply andb_true_iff in Hplain. destruct Hplain as [Hhead Hrest].
    cbn [String.append PersonaManager.pieces andb].
    assert (bol && PersonaManager.is_header (String c (r ++ Py.nl ++ y)) = false) as ->.
    { destruct bol; [|reflexivity]. cbn [andb] in *.
      destruct (PersonaManager.is_header _) eqn:Hh; [|reflexivity].
      apply is_header_before_newline in Hh. now rewrite Hh in Hhead. }
    rewrite (IH _ Hrest). apply cons_head_prepend.
Qed.

Lemma plain_within_line a : Py.contains (ascii_of_nat 10) a = false -> plain false a = true.
Proof.
  induction a as [|c r IH]; [reflexivity|]. cbn [Py.contains plain andb negb].
  intros Hc. apply orb_false_iff in Hc. destruct Hc as [Hc Hr]. rewrite Hc. now apply IH.
Qed.

Lemma contains_app sep a b :
  Py.contains sep (a ++ b) = Py.contains sep a || Py.contains sep b.
Proof.
  induction a as [|c r IH]; [reflexivity|]. cbn [String.append Py.contains].
  now rewrite IH, orb_assoc.
Qed.

(** [(a + "\n" + b).split("\n", 1)] for a line [a]. *)
Lemma split1_line a b :
  Py.contains (ascii_of_nat 10) a = false ->
  Py.split1 (ascii_of_nat 10) (a ++ Py.nl ++ b) = [a; b].
Proof.
  induction a as [|c r IH]; [reflexivity|]. cbn [Py.contains String.append Py.split1].
  intros Hc. apply orb_false_iff in Hc. destruct Hc as [Hc Hr].
  rewrite Hc, (IH Hr). reflexivity.
Qed.

Lemma rstrip_snoc x c : Py.isspace c = true -> Py.rstrip (x ++ String c EmptyString) = Py.rstrip x.
Proof.
  intros Hc. induction x as [|d x IH]; cbn [String.append Py.rstrip].
  - now rewrite Hc.
  - now rewrite IH.
Qed.

Lemma lstrip_snoc x c :
  Py.isspace c = true ->
  Py.lstrip (x ++ String c EmptyString)
  = if Py.nonempty (Py.lstrip x) then (Py.lstrip x ++ String c EmptyString)%string
    else EmptyString.
Proof.
  intros Hc. induction x as [|d x IH]; cbn [String.append Py.lstrip].
  - now rewrite Hc.
  - destruct (Py.isspace d); [exact IH | reflexivity].
Qed.

(** A trailing newline does not survive [strip]. *)
Lemma strip_line x : Py.strip (x ++ Py.nl) = Py.strip x.
Proof.
  unfold Py.strip, Py.nl. rewrite lstrip_snoc by reflexivity.
  destruct (Py.lstrip x) eqn:Hx; [reflexivity|]. cbn [Py.nonempty].
  now apply rstrip_snoc.
Qed.

(** A header line at the start of a line closes the piece before it; the
    rest of the line and what follows, up to the next header, is the next
    piece. *)
Lemma pieces_section c line y :
  Py.isspace c = false ->
  Py.contains (ascii_of_nat 10) (String c line) = false ->
  PersonaManager.pieces true false ("## " ++ String c line ++ Py.nl ++ y)
  = EmptyString :: prepend (String c line ++ Py.nl) (PersonaManager.pieces true false y).
Proof.
  intros Hc Hline.
  rewrite <- (pieces_plain_line false (String c line) y (plain_within_line _ Hline)).
  cbn [String.append]. cbn [PersonaManager.pieces PersonaManager.is_header andb].
  change (Ascii.eqb "#" "#") with true. change (Py.isspace " ") with true.
  cbn [andb]. rewrite Hc. reflexivity.
Qed.

(** The sections of a persona document. *)
Lemma persona_document_sections title more1 ideation more2 dialogue :
  plain true title = true ->
  Py.contains (ascii_of_nat 10) more1 = false ->
  plain true ideation = true ->
  Py.contains (ascii_of_nat 10) more2 = false ->
  plain true dialogue = true ->
  tl (PersonaManager.re_split (persona_document title more1 ideation more2 dialogue))
  = [("Ideation" ++ more1 ++ Py.nl ++ ideation ++ Py.nl)%string;
     ("Dialogue" ++ more2 ++ Py.nl ++ dialogue)%string].
Proof.
  intros Htitle Hmore1 Hideation Hmore2 Hdialogue.
  assert (persona_document title more1 ideation more2 dialogue
          = (title ++ Py.nl
             ++ ("## " ++ String "I" ("deation" ++ more1) ++ Py.nl
                 ++ (ideation ++ Py.nl
                     ++ ("## " ++ String "D" ("ialogue" ++ more2) ++ Py.nl
                         ++ dialogue))))%string) as -> by reflexivity.
  unfold PersonaManager.re_split.
  rewrite (pieces_plain_line true title _ Htitle).
  rewrite pieces_section;
    [|reflexivity | change (Py.contains (ascii_of_nat 10) ("Ideation" ++ more1) = false);
                    now rewrite contains_app, Hmore1].
  rewrite (pieces_plain_line true ideation _ Hideation).
  rewrite pieces_section;
    [|reflexivity | change (Py.contains (ascii_of_nat 10) ("Dialogue" ++ more2) = false);
                    now rewrite contains_app, Hmore2].
  rewrite (pieces_plain true dialogue Hdialogue).
  cbn [prepend tl]. rewrite !append_assoc, append_empty_r. reflexivity.
Qed.

Lemma pieces_last_header c line :
  Py.isspace c = false ->
  Py.contains (ascii_of_nat 10) (String c line) = false ->
  PersonaManager.pieces true false ("## " ++ String c line)
  = [EmptyString; String c line].
Proof.
  intros Hc Hline.
  rewrite <- (pieces_plain false (String c line) (plain_within_line _ Hline)).
  cbn [String.append]. cbn [PersonaManager.pieces PersonaManager.is_header andb].
  change (Ascii.eqb "#" "#") with true. change (Py.isspace " ") with true.
  cbn [andb]. rewrite Hc. reflexivity.
Qed.

Lemma persona_document_cut_sections title more1 ideation more2 :
  plain true title = true ->
  Py.contains (ascii_of_nat 10) more1 = false ->
  plain true ideation = true ->
  Py.contains (ascii_of_nat 10) more2 = false ->
  tl (PersonaManager.re_split (persona_document_cut title more1 ideation more2))
  = [("Ideation" ++ more1 ++ Py.nl ++ ideation ++ Py.nl)%string;
     ("Dialogue" ++ more2)%string].
Proof.
  intros Htitle Hmore1 Hideation Hmore2.
  assert (persona_document_cut title more1 ideation more2
          = (title ++ Py.nl
             ++ ("## " ++ String "I" ("deation" ++ more1) ++ Py.nl
                 ++ (ideation ++ Py.nl
                     ++ ("## " ++ String "D" ("ialogue" ++ more2)))))%string)
    as -> by reflexivity.
  unfold PersonaManager.re_split.
  rewrite (pieces_plain_line true title _ Htitle).
  rewrite pieces_section;
    [|reflexivity | change (Py.contains (ascii_of_nat 10) ("Ideation" ++ more1) = false);
                    now rewrite contains_app, Hmore1].
  rewrite (pieces_plain_line true ideation _ Hideation).
  rewrite pieces_last_header;
    [|reflexivity | change (Py.contains (ascii_of_nat 10) ("Dialogue" ++ more2) = false);
                    now rewrite contains_app, Hmore2].
  cbn [prepend tl]. rewrite !append_assoc, append_empty_r. reflexivity.
Qed.

Lemma split1_whole sep a : Py.contains sep a = false -> Py.split1 sep a = [a].
Proof.
  induction a as [|c r IH]; [reflexivity|]. cbn [Py.contains Py.split1].
  intros Hc. apply orb_false_iff in Hc. destruct Hc as [Hc Hr]. now rewrite Hc, (IH Hr).
Qed.

Lemma read_section_ideation {S} p more body (w : world S) :
  Py.contains (ascii_of_nat 10) more = false ->
  PersonaManager.read_section p ("Ideation" ++ more ++ Py.nl ++ body) w
  = (Done (PersonaManager.Persona (Py.strip body) (PersonaManager.dialogue_prompt p)), w).
Proof.
  intros Hmore. unfold PersonaManager.read_section.
  assert (Py.startswith "Ideation" ("Ideation" ++ more ++ Py.nl ++ body) = true)
    as -> by (apply prefix_split; eexists; reflexivity).
  rewrite <- append_assoc, split1_line
    by (change (Py.contains (ascii_of_nat 10) ("Ideation" ++ more) = false);
        now rewrite contains_app, Hmore).
  reflexivity.
Qed.

Lemma read_section_dialogue {S} p more body (w : world S) :
  Py.contains (ascii_of_nat 10) more = false ->
  PersonaManager.read_section p ("Dialogue" ++ more ++ Py.nl ++ body) w
  = (Done (PersonaManager.Persona (PersonaManager.ideation_prompt p) (Py.strip body)), w).
Proof.
  intros Hmore. unfold PersonaManager.read_section.
  assert (Py.startswith "Ideation" ("Dialogue" ++ more ++ Py.nl ++ body) = false)
    as -> by reflexivity.
  assert (Py.startswith "Dialogue" ("Dialogue" ++ more ++ Py.nl ++ body) = true)
    as -> by (apply prefix_split; eexists; reflexivity).
  rewrite <- append_assoc, split1_line
    by (change (Py.contains (ascii_of_nat 10) ("Dialogue" ++ more) = false);
        now rewrite contains_app, Hmore).
  reflexivity.
Qed.

Lemma read_section_dialogue_cut {S} p more (w : world S) :
  Py.contains (ascii_of_nat 10) more = false ->
  PersonaManager.read_section p ("Dialogue" ++ more) w
  = (Halted (Raised (IndexError "list index out of range")), w).
Proof.
  intros Hmore. unfold PersonaManager.read_section.
  assert (Py.startswith "Ideation" ("Dialogue" ++ more) = false) as -> by reflexivity.
  assert (Py.startswith "Dialogue" ("Dialogue" ++ more) = true)
    as -> by (apply prefix_split; eexists; reflexivity).
  rewrite split1_whole
    by (change (Py.contains (ascii_of_nat 10) ("Dialogue" ++ more) = false);
        now rewrite contains_app, Hmore).
  reflexivity.
Qed.

End Persona.

(** X20. [load_persona] never raises, and it has no partial result: either
    the file is read without any message, or one "Error loading persona"
    message is shown and both fragments are the built-in defaults, whatever
    was read before the failure. An unreadable file is the second case,
    with the message of the failure. *)
Theorem load_persona_all_or_defaults {S} (file : reply) (w : Run.world S) :
  match file with
  | Failure m =>
      PersonaManager.load_persona file w
      = (Run.Done default_persona,
         Run.World (Run.session w)
                   (Run.errors w ++ [("Error loading persona: " ++ m)%string])
                   (Run.calls w))
  | Text content =>
      (exists p, PersonaManager.load_persona file w = (Run.Done p, w))
      \/ PersonaManager.load_persona file w
         = (Run.Done default_persona,
            Run.World (Run.session w)
                      (Run.errors w ++ ["Error loading persona: list index out of range"])
                      (Run.calls w))
  end.
Proof.
  destruct file as [content|m]; [|reflexivity].
  rewrite load_persona_text.
  destruct (read_sections_outcome
              (tl (PersonaManager.re_split content))
              (PersonaManager.Persona EmptyString EmptyString) w) as [(p & ->)| ->].
  - left. now exists p.
  - right. reflexivity.
Qed.

(** X21. A persona file with a title and the two sections, whose title and
    section bodies have no line starting with two hashes, loads as written:
    the fragments are the two bodies, stripped, and no message is shown.
    The header lines may say more after "Ideation" and "Dialogue". *)
Theorem persona_document_loads_as_written {S}
        (title more1 ideation more2 dialogue : string) (w : Run.world S) :
  plain true title = true ->
  Py.contains (ascii_of_nat 10) more1 = false ->
  plain true ideation = true ->
  Py.contains (ascii_of_nat 10) more2 = false ->
  plain true dialogue = true ->
  PersonaManager.load_persona
    (Text (persona_document title more1 ideation more2 dialogue)) w
  = (Run.Done (PersonaManager.Persona (Py.strip ideation) (Py.strip dialogue)), w).
Proof.
  intros Htitle Hmore1 Hideation Hmore2 Hdialogue.
  rewrite load_persona_text.
  rewrite (persona_document_sections _ _ _ _ _ Htitle Hmore1 Hideation Hmore2 Hdialogue).
  cbn [PersonaManager.read_sections]. unfold Run.bind.
  rewrite (read_section_ideation _ more1 (ideation ++ Py.nl) w Hmore1).
  rewrite (read_section_dialogue _ more2 dialogue w Hmore2).
  cbn [Run.ret PersonaManager.ideation_prompt]. now rewrite strip_line.
Qed.

Lemma persona_document_loads_as_written_witness :
  PersonaManager.load_persona
    (Text (persona_document "# Clio Maar" " prompt" ("  Think in images." ++ Py.nl)
                            EmptyString ("Speak gently." ++ Py.nl ++ "# Tone: warm")))
    (Run.World tt [] [])
  = (Run.Done (PersonaManager.Persona "Think in images."
                                      ("Speak gently." ++ Py.nl ++ "# Tone: warm")),
     Run.World tt [] []).
Proof.
  apply (persona_document_loads_as_written "# Clio Maar" " prompt"
           ("  Think in images." ++ Py.nl) EmptyString
           ("Speak gently." ++ Py.nl ++ "# Tone: warm") (Run.World tt [] []));
    reflexivity.
Defined.

(** X22. A readable persona file falls back to nothing: with no line
    starting with two hashes in it (an empty file, say), both fragments
    stay empty and no message is shown. And a file cut after the Dialogue
    header line makes the load fail, so that the Ideation fragment it did
    contain is replaced by the default as well. *)
Theorem persona_without_sections_or_cut {S}
        (content title more1 ideation more2 : string) (w : Run.world S) :
  plain true content = true ->
  plain true title = true ->
  Py.contains (ascii_of_nat 10) more1 = false ->
  plain true ideation = true ->
  Py.contains (ascii_of_nat 10) more2 = false ->
  PersonaManager.load_persona (Text content) w
  = (Run.Done (PersonaManager.Persona EmptyString EmptyString), w)
  /\ PersonaManager.load_persona
       (Text (persona_document_cut title more1 ideation more2)) w
     = (Run.Done default_persona,
        Run.World (Run.session w)
                  (Run.errors w ++ ["Error loading persona: list index out of range"])
                  (Run.calls w)).
Proof.
  intros Hcontent Htitle Hmore1 Hideation Hmore2. split.
  - rewrite load_persona_text. unfold PersonaManager.re_split.
    now rewrite (pieces_plain true content Hcontent).
  - rewrite load_persona_text.
    rewrite (persona_document_cut_sections _ _ _ _ Htitle Hmore1 Hideation Hmore2).
    cbn [PersonaManager.read_sections]. unfold Run.bind.
    rewrite (read_section_ideation _ more1 (ideation ++ Py.nl) w Hmore1).
    now rewrite (read_section_dialogue_cut _ more2 w Hmore2).
Qed.

Lemma persona_without_sections_or_cut_witness :
  PersonaManager.load_persona (Text "# Clio Maar") (Run.World tt [] [])
  = (Run.Done (PersonaManager.Persona EmptyString EmptyString), Run.World tt [] [])
  /\ PersonaManager.load_persona
       (Text (persona_document_cut "# Clio Maar" EmptyString "Think in images."
                                   EmptyString))
       (Run.World tt [] [])
     = (Run.Done default_persona,
        Run.World tt ["Error loading persona: list index out of range"] []).
Proof.
  apply (persona_without_sections_or_cut "# Clio Maar" "# Clio Maar" EmptyString
           "Think in images." EmptyString (Run.World tt [] [])); reflexivity.
Defined.

(** ** The transcript of a video, joined *)

Lemma blank_app a b : blank (a ++ b) = blank a && blank b.
Proof.
  unfold blank. induction a as [|c a IH]; [reflexivity|].
  cbn [String.append Py.all_chars]. now rewrite IH, andb_assoc.
Qed.

Lemma blank_join (texts : list string) :
  forallb blank texts = true -> blank (String.concat " " texts) = true.
Proof.
  induction texts as [|x texts IH]; [reflexivity|].
  cbn [forallb]. intros Hb. apply andb_true_iff in Hb. destruct Hb as [Hx Hrest].
  destruct texts as [|y texts]; [exact Hx|].
  change (String.concat " " (x :: y :: texts))
    with (x ++ " " ++ String.concat " " (y :: texts))%string.
  rewrite !blank_app, Hx, (IH Hrest). reflexivity.
Qed.

Lemma blank_strip s : blank s = true -> Py.strip s = EmptyString.
Proof.
  intros Hs. unfold Py.strip.
  assert (Py.lstrip s = EmptyString) as ->; [|reflexivity].
  induction s as [|c s IH]; [reflexivity|]. unfold blank in Hs. cbn [Py.all_chars] in Hs.
  apply andb_true_iff in Hs. destruct Hs as [Hc Hs]. cbn [Py.lstrip]. rewrite Hc.
  now apply IH.
Qed.

(** X23. A video whose transcript has no entries, or only entries of
    whitespace, gives a joined transcript that [generate_ideas] rejects
    without sending a request: it shows "Transcript is too short or empty"
    and returns no idea. *)
Theorem blank_transcript_is_rejected `{Environment}
        (transcript_list : list TranscriptApi.segment)
        (w : Run.world GuavaWriter.session_state) :
  forallb (fun entry => blank (TranscriptApi.text entry)) transcript_list = true ->
  GuavaWriter.generate_ideas (Some (TranscriptApi.get_transcript transcript_list)) w
  = (Run.Done [],
     Run.World (Run.session w)
               (Run.errors w ++ ["Transcript is too short or empty"])
               (Run.calls w)).
Proof.
  intros Hblank. rewrite generate_ideas_run. cbn [Py.fmt].
  unfold TranscriptApi.get_transcript. rewrite blank_strip.
  - cbn [Py.len String.length Nat.ltb Nat.leb]. now rewrite orb_true_r.
  - apply blank_join. clear -Hblank.
    induction transcript_list as [|entry rest IH]; [reflexivity|].
    cbn [forallb map] in *. apply andb_true_iff in Hblank. destruct Hblank as [He Hr].
    now rewrite He, (IH Hr).
Qed.

Lemma blank_transcript_is_rejected_witness :
  GuavaWriter.generate_ideas (H := answering four_ideas)
    (Some (TranscriptApi.get_transcript
             [TranscriptApi.Segment " " 0 (3 # 2);
              TranscriptApi.Segment (String (ascii_of_nat 10) EmptyString) (3 # 2) 2]))
    ideated
  = (Run.Done [],
     Run.World (Run.session ideated) ["Transcript is too short or empty"] []).
Proof.
  apply (blank_transcript_is_rejected (H := answering four_ideas)). reflexivity.
Defined.

(** ** Before a transcript is loaded *)

(** X24. Until a transcript is loaded nothing can be selected or
    generated: in a session without transcript and without selected idea,
    a run of [main] in which Ideate is not clicked leaves the session as it
    is and sends nothing, whatever is typed or clicked elsewhere; all it
    shows is the messages of the persona file. *)
Theorem nothing_happens_without_a_transcript `{Environment}
        (u : GuavaWriter.ui) (w : Run.world GuavaWriter.session_state) :
  Py.truthy (GuavaWriter.transcript (GuavaWriter.ctx w)) = false ->
  Py.truthy (GuavaWriter.selected_idea (GuavaWriter.ctx w)) = false ->
  Py.nonempty (GuavaWriter.url u) && GuavaWriter.ideate_clicked u = false ->
  GuavaWriter.main u w
  = (Run.Done tt,
     Run.World (Run.session w) (Run.errors w ++ persona_errors) (Run.calls w)).
Proof.
  intros Htranscript Hselected Hguard.
  rewrite main_unfold, new_writer_run. cbn [snd].
  set (w0 := Run.World (Run.session w) (Run.errors w ++ persona_errors) (Run.calls w)).
  change (GuavaWriter.ctx w) with (GuavaWriter.ctx w0) in Htranscript, Hselected.
  unfold Run.bind at 1.
  unfold GuavaWriter.ideate. rewrite Hguard. cbn [Run.when Run.ret].
  unfold Run.bind at 1. rewrite select_idea_idle by now rewrite Htranscript.
  now apply script_section_idle.
Qed.

Lemma nothing_happens_without_a_transcript_witness :
  GuavaWriter.main (H := too_short)
    (GuavaWriter.Ui EmptyString true "2" "make it bold" true true) GuavaWriter.initial
  = (Run.Done tt,
     Run.World (Run.session GuavaWriter.initial)
       ["Error loading persona: [Errno 2] No such file or directory: 'persona.md'"] []).
Proof.
  apply (nothing_happens_without_a_transcript (H := too_short)); reflexivity.
Defined.

Lemma generate_ideas_is_safe_witness :
  exists ideas w1,
    GuavaWriter.generate_ideas (H := failing) (Some "valid transcript text") ideated
    = (Run.Done ideas, w1)
    /\ ideas = []
    /\ Run.errors w1 = ["Error in idea generation: overloaded"].
Proof.
  destruct (generate_ideas_is_safe (H := failing) (Some "valid transcript text") ideated)
    as (ideas & w1 & Hrun & _ & _ & _ & Hfailure).
  exists ideas, w1. split; [exact Hrun|].
  apply (Hfailure "overloaded"
           (Request "claude-3-sonnet-20240229" 1000 (7 # 10)
                    (GuavaWriter.ideas_prompt (H := failing) (Some "valid transcript text"))));
    [reflexivity|].
  vm_compute in Hrun. injection Hrun as _ <-. reflexivity.
Defined.
